(** * Kredefy backend: a shallow embedding of the decision core

    The development follows the Python sources under [backend/app]:

    - [ai/engine.py]            reasoning traces ([Engine])
    - [services/governance.py]  quadratic vote tally ([Governance],
                                [Governance64])
    - [utils.py]                circuit breaker and retry ([Breaker], [Retry])
    - [ai/agents/*.py]          FraudGuard, RiskOracle, LoanAdvisor,
                                TrustAnalyzer, ActionAgent, Nova
    - [ai/orchestrator.py]      the three pipelines and the synthesizer
    - [domain/services.py], [api/v1/payments.py], [services/supabase.py]
                                repayment processing ([Payments])
    - [api/v1/loans.py]         the vote on a loan ([LoansApi])

    Numbers.  Python [int] is [Z].  In the agents and in [Governance] a
    Python [float] is idealised: where the code only adds, multiplies,
    divides and compares, a float is a rational ([Q], executable); where
    it takes a square root ([math.sqrt], [** 0.5]) it is a real ([R]).
    Where a decision hangs on the last bit of a float, the approval of a
    tally and the completion of a loan, the float is the binary64 number
    of the code ([Py64], [Governance64], [Payments]), with every
    operation rounded as Python rounds it.  Time is a number of seconds
    ([Z]). *)

From Stdlib Require Import ZArith QArith Qround Reals Psatz List String Bool.
From Stdlib Require Import Floats.SpecFloat.
From stdpp Require Import base option gmap strings pretty.
Import ListNotations.

Local Open Scope string_scope.
Local Open Scope list_scope.

(* ================================================================== *)
(** * Python built-ins used by the sources                             *)
(* ================================================================== *)

Module Py.

(** [round(x)] on the idealised float: nearest integer, ties to even. *)
Definition round_half_even (x : R) : Z :=
  let f := Zfloor x in
  let d := (x - IZR f)%R in
  if Rlt_dec d (1 / 2) then f
  else if Rlt_dec (1 / 2) d then (f + 1)%Z
  else if Z.even f then f else (f + 1)%Z.

(** [round(x, 2)] *)
Definition round2 (x : R) : R :=
  (IZR (round_half_even (x * 100)) / 100)%R.

(** [sum(xs)] over rationals and over reals. *)
Definition qsum (xs : list Q) : Q := fold_left Qplus xs 0%Q.
Definition rsum (xs : list R) : R := fold_left Rplus xs 0%R.

(** [min(a, b)], [max(a, b)] on rationals: Python keeps the first
    argument unless the second is strictly smaller (larger). *)
Definition qmin (a b : Q) : Q := if Qlt_le_dec b a then b else a.
Definition qmax (a b : Q) : Q := if Qlt_le_dec a b then b else a.
Definition rmin (a b : R) : R := if Rlt_dec b a then b else a.
Definition rmax (a b : R) : R := if Rlt_dec a b then b else a.

(** [min(a, b, c)] *)
Definition qmin3 (a b c : Q) : Q := qmin (qmin a b) c.

(** [int(x)] on a rational: truncation towards zero. *)
Definition int_of (x : Q) : Z := Z.quot (Qnum x) (Z.pos (Qden x)).

(** [timedelta.seconds]: the seconds component of a normalised
    [timedelta] of [d] seconds, always in [0, 86400). *)
Definition timedelta_seconds (d : Z) : Z := (d mod 86400)%Z.

End Py.

(* ================================================================== *)
(** * services/governance.py                                           *)
(* ================================================================== *)

Module Governance.

(** One element of the [votes] list:
    [{"voter_id": ..., "tokens_spent": ..., "vote": ...}] *)
Record Vote := mkVote {
  voter_id : string;
  tokens_spent : Z;
  vote : string
}.

Record QuadraticVotingService := mkService {
  quorum_percentage : R
}.

(** [quadratic_voting_service = QuadraticVotingService()] *)
Definition quadratic_voting_service : QuadraticVotingService :=
  {| quorum_percentage := 50 |}.

Definition calculate_vote_power (tokens_spent : Z) : R :=
  if (tokens_spent <=? 0)%Z then 0%R else sqrt (IZR tokens_spent).

(** The body of the [for vote in votes] loop, on the pair
    [(for_power, against_power)]. *)
Definition tally_step (acc : R * R) (v : Vote) : R * R :=
  let power := calculate_vote_power (tokens_spent v) in
  if String.eqb (vote v) "for" then (fst acc + power, snd acc)%R
  else if String.eqb (vote v) "against" then (fst acc, snd acc + power)%R
  else acc.

Record Tally := mkTally {
  for_power : R;
  against_power : R;
  total_power : R;
  approval_percentage : R;
  total_voters : nat;
  quorum_met : bool;
  approved : bool
}.

(** The unrounded [approval_percentage] local of [tally_votes]. *)
Definition raw_approval (powers : R * R) : R :=
  let total_power := (fst powers + snd powers)%R in
  if Rlt_dec 0 total_power then (fst powers / total_power * 100)%R else 0%R.

Definition tally_votes (self : QuadraticVotingService) (votes : list Vote) : Tally :=
  let powers := fold_left tally_step votes (0%R, 0%R) in
  let total_voters := length votes in
  let total_power := (fst powers + snd powers)%R in
  let approval_percentage := raw_approval powers in
  let quorum_met := (3 <=? total_voters)%nat in
  {| for_power := Py.round2 (fst powers);
     against_power := Py.round2 (snd powers);
     total_power := Py.round2 total_power;
     approval_percentage := Py.round2 approval_percentage;
     total_voters := total_voters;
     quorum_met := quorum_met;
     approved := quorum_met &&
                 (if Rge_dec approval_percentage (quorum_percentage self)
                  then true else false) |}.

Record VoteImpact := mkImpact {
  current_approval : R;
  new_approval : R;
  your_vote_power : R;
  impact : R;
  would_approve : bool
}.

Definition simulate_vote_impact (self : QuadraticVotingService)
    (current_votes : list Vote) (new_tokens : Z) (vote_direction : string)
    : VoteImpact :=
  let current_result := tally_votes self current_votes in
  let simulated_votes :=
    current_votes ++ [ {| voter_id := "simulated";
                          tokens_spent := new_tokens;
                          vote := vote_direction |} ] in
  let new_result := tally_votes self simulated_votes in
  {| current_approval := approval_percentage current_result;
     new_approval := approval_percentage new_result;
     your_vote_power := calculate_vote_power new_tokens;
     impact := (approval_percentage new_result
                - approval_percentage current_result)%R;
     would_approve := approved new_result |}.

(** ** The tally in the words of the specification *)

(** Vote power of a vote = [sqrt tokens_spent]; the power of a side is
    the sum over the votes cast for that side. *)
Definition side_power (side : string) (votes : list Vote) : R :=
  fold_right Rplus 0%R
    (map (fun v => sqrt (IZR (tokens_spent v)))
         (List.filter (fun v => String.eqb (vote v) side) votes)).

(** Approval = [for_power / (for_power + against_power)], times 100. *)
Definition approval_share (votes : list Vote) : R :=
  (side_power "for" votes
   / (side_power "for" votes + side_power "against" votes) * 100)%R.

(** The number of distinct voters that took part. *)
Definition distinct_voters (votes : list Vote) : nat :=
  length (nodup string_dec (map voter_id votes)).

(** ** Properties of the tally as the specification words them *)

(** "the sign of the impact equals the sign of the added vote". *)
Definition impact_has_sign_of_vote (self : QuadraticVotingService)
    (votes : list Vote) (new_tokens : Z) (vote_direction : string) : Prop :=
  let i := impact (simulate_vote_impact self votes new_tokens vote_direction) in
  (vote_direction = "for" -> (0 < i)%R) /\
  (vote_direction = "against" -> (i < 0)%R).

(** A vote that adds no power: no tokens, or a direction that is neither
    of the two the loop looks for. *)
Definition powerless (v : Vote) : Prop :=
  (tokens_spent v <= 0)%Z \/ (vote v <> "for" /\ vote v <> "against").

(** ** Concrete vote lists *)

(** One voter casting three votes of one token each. *)
Definition same_voter_thrice : list Vote :=
  [ mkVote "u1" 1 "for"; mkVote "u1" 1 "for"; mkVote "u1" 1 "for" ].

(** A single vote in favour, and two of them by different voters. *)
Definition one_for_vote : list Vote := [ mkVote "a" 4 "for" ].
Definition two_for_votes : list Vote :=
  [ mkVote "a" 4 "for"; mkVote "b" 1 "for" ].

(** One vote of one token on each side. *)
Definition split_votes : list Vote :=
  [ mkVote "a" 1 "for"; mkVote "b" 1 "against" ].

(** A third member who spends nothing and neither approves nor rejects. *)
Definition abstention : Vote := mkVote "c" 0 "abstain".

End Governance.

(* ================================================================== *)
(** * JSON-like values: the dicts that agents and services exchange     *)
(* ================================================================== *)

Module Json.

(** A Python value as it occurs in the result dicts.  [VNum] is an
    [int] or a float obtained by field operations, [VReal] a float that
    went through a square root. *)
#[warnings="-register-all"]
Inductive value :=
| VNone
| VBool (b : bool)
| VNum (q : Q)
| VReal (r : R)
| VStr (s : string)
| VList (l : list value)
| VDict (d : list (string * value)).

(** A dict literal, in insertion order, keys pairwise different. *)
Definition dict := list (string * value).

Fixpoint lookup (d : dict) (k : string) : option value :=
  match d with
  | [] => None
  | (k', v) :: d' => if String.eqb k' k then Some v else lookup d' k
  end.

(** [d.get(k, default)] and [d.get(k)] *)
Definition get (d : dict) (k : string) (default : value) : value :=
  match lookup d k with Some v => v | None => default end.
Definition get_none (d : dict) (k : string) : value := get d k VNone.

(** Truth value of an object in [if x:] and [x or y]. *)
Definition truthy (v : value) : bool :=
  match v with
  | VNone => false
  | VBool b => b
  | VNum q => negb (Qeq_bool q 0)
  | VReal r => if Req_dec_T r 0 then false else true
  | VStr s => negb (String.eqb s "")
  | VList l => match l with [] => false | _ => true end
  | VDict d => match d with [] => false | _ => true end
  end.

(** [v == "s"] for a string literal [s]. *)
Definition is_str (v : value) (s : string) : bool :=
  match v with VStr s' => String.eqb s' s | _ => false end.

(** [f"{v}"] for the values whose text is fixed; numbers and containers
    are shown by a placeholder. *)
Definition str (v : value) : string :=
  match v with
  | VStr s => s
  | VNone => "None"
  | VBool true => "True"
  | VBool false => "False"
  | _ => "<value>"
  end.

Definition of_option_str (o : option string) : value :=
  match o with Some s => VStr s | None => VNone end.

End Json.

(* ================================================================== *)
(** * ai/engine.py                                                      *)
(* ================================================================== *)

Module Engine.
Import Json.

(** Outcome of a Python call: a value or a raised exception, named by
    its class. *)
Inductive result (A : Type) :=
| Ok (a : A)
| Raise (exc : string).
Arguments Ok {A} a.
Arguments Raise {A} exc.

Inductive ThoughtType :=
| OBSERVATION | ANALYSIS | HYPOTHESIS | ACTION | REFLECTION | CONCLUSION.

(** [timestamp] and [metadata] (always empty here) are left out. *)
Record ReasoningStep := mkStep {
  step_number : nat;
  thought_type : ThoughtType;
  content : string;
  confidence : Q
}.

(** [created_at] is left out. *)
Record ReasoningTrace := mkTrace {
  trace_id : string;
  agent_name : string;
  task : string;
  steps : list ReasoningStep;
  final_decision : option string;
  total_confidence : Q;
  duration_ms : Z
}.

(** [ReasoningTrace(trace_id=..., agent_name=..., task=...)] *)
Definition new_trace (trace_id agent_name task : string) : ReasoningTrace :=
  {| trace_id := trace_id; agent_name := agent_name; task := task;
     steps := []; final_decision := None; total_confidence := 0;
     duration_ms := 0 |}.

(** [confidence: float = Field(ge=0, le=1)]: the model validates it. *)
Definition valid_confidence (c : Q) : bool :=
  Qle_bool 0 c && Qle_bool c 1.

Definition with_steps (t : ReasoningTrace) (s : list ReasoningStep) :=
  {| trace_id := trace_id t; agent_name := agent_name t; task := task t;
     steps := s; final_decision := final_decision t;
     total_confidence := total_confidence t; duration_ms := duration_ms t |}.

Definition add_thought (self : ReasoningTrace) (thought_type : ThoughtType)
    (content : string) (confidence : Q) : result ReasoningTrace :=
  if valid_confidence confidence then
    let step := {| step_number := length (steps self) + 1;
                   thought_type := thought_type;
                   content := content;
                   confidence := confidence |} in
    Ok (with_steps self (steps self ++ [step]))
  else Raise "ValidationError".

Definition observe self content confidence :=
  add_thought self OBSERVATION content confidence.
Definition analyze self content confidence :=
  add_thought self ANALYSIS content confidence.
Definition hypothesize self content confidence :=
  add_thought self HYPOTHESIS content confidence.
Definition act self content confidence :=
  add_thought self ACTION content confidence.
Definition reflect self content confidence :=
  add_thought self REFLECTION content confidence.

(** [s.confidence for s in steps] *)
Definition confidences (steps : list ReasoningStep) : list Q :=
  map confidence steps.

Definition conclude (self : ReasoningTrace) (decision : string)
    (confidence : Q) : result ReasoningTrace :=
  match add_thought self CONCLUSION decision confidence with
  | Raise e => Raise e
  | Ok t =>
      Ok {| trace_id := trace_id t; agent_name := agent_name t;
            task := task t; steps := steps t;
            final_decision := Some decision;
            total_confidence :=
              (Py.qsum (confidences (steps t))
               / inject_Z (Z.of_nat (length (steps t))))%Q;
            duration_ms := duration_ms t |}
  end.

(** ** Sequences of trace operations *)

Inductive trace_op :=
| Thought (thought_type : ThoughtType) (content : string) (confidence : Q)
| Conclude (decision : string) (confidence : Q).

Definition apply_op (t : ReasoningTrace) (op : trace_op) : result ReasoningTrace :=
  match op with
  | Thought ty c q => add_thought t ty c q
  | Conclude d q => conclude t d q
  end.

(** The operations in order; the first one that raises stops the run. *)
Fixpoint apply_ops (t : ReasoningTrace) (ops : list trace_op) : result ReasoningTrace :=
  match ops with
  | [] => Ok t
  | op :: ops' =>
      match apply_op t op with
      | Ok t' => apply_ops t' ops'
      | Raise e => Raise e
      end
  end.

Definition op_confidence (op : trace_op) : Q :=
  match op with Thought _ _ q => q | Conclude _ q => q end.

Definition is_conclude (op : trace_op) : bool :=
  match op with Conclude _ _ => true | Thought _ _ _ => false end.

(** The arithmetic mean of the confidences of the steps, 0 without
    steps. *)
Definition mean_confidence (t : ReasoningTrace) : Q :=
  match steps t with
  | [] => 0
  | _ => (fold_right Qplus 0 (confidences (steps t))
          / inject_Z (Z.of_nat (length (steps t))))%Q
  end.

(** "total_confidence is the mean of the step confidences". *)
Definition confidence_is_mean (t : ReasoningTrace) : Prop :=
  (total_confidence t == mean_confidence t)%Q.

(** The arithmetic mean of the confidences a run of operations passes. *)
Definition mean_of_ops (ops : list trace_op) : Q :=
  (fold_right Qplus 0 (map op_confidence ops)
   / inject_Z (Z.of_nat (length ops)))%Q.

(** ** Computations that write to the trace of the running agent *)

(** The trace object is mutated in place, so what was appended before
    an exception is still there when the handler runs. *)
Definition Tr (A : Type) : Type :=
  ReasoningTrace -> ReasoningTrace * result A.

Definition ret {A} (a : A) : Tr A := fun t => (t, Ok a).
Definition raise {A} (e : string) : Tr A := fun t => (t, Raise e).
Definition bind {A B} (m : Tr A) (k : A -> Tr B) : Tr B :=
  fun t => match m t with
           | (t', Ok a) => k a t'
           | (t', Raise e) => (t', Raise e)
           end.
Definition lift {A} (r : result A) : Tr A := fun t => (t, r).
Definition on_trace (f : ReasoningTrace -> result ReasoningTrace) : Tr unit :=
  fun t => match f t with
           | Ok t' => (t', Ok tt)
           | Raise e => (t, Raise e)
           end.

(** ** Rows of the store, as the agents read them.  A field is [None]
    when the column is null (or, for a timestamp, does not parse). *)

Record Loan := mkLoan {
  loan_status : string;
  loan_amount : option Q;
  loan_emi_amount : option Q;
  loan_created_at : option Z
}.

Record Vouch := mkVouch {
  vouch_voucher_id : string;
  vouch_status : string;
  vouch_level : option string;
  vouch_saathi_staked : option Q
}.

(** A membership row joined with the circle it refers to. *)
Record Circle := mkCircle {
  circle_id : option string;
  circle_name : option string;
  circle_created_at : option Z;
  circle_member_count : option Q
}.

Record DiaryEntry := mkEntry {
  entry_type : string;
  entry_amount : option Q;
  entry_recorded_at : option Z
}.

Record AgentContext := mkContext {
  user_id : string;
  trust_score : Z;
  saathi_balance : Q;
  circles : list Circle;
  loans : list Loan;
  vouches : list Vouch;
  financial_diary : list DiaryEntry;
  language : string;
  current_request : option string;
  agent_results : gmap string dict;
  reasoning_traces : list ReasoningTrace
}.

Definition add_trace (self : AgentContext) (trace : ReasoningTrace) : AgentContext :=
  {| user_id := user_id self; trust_score := trust_score self;
     saathi_balance := saathi_balance self; circles := circles self;
     loans := loans self; vouches := vouches self;
     financial_diary := financial_diary self; language := language self;
     current_request := current_request self;
     agent_results := agent_results self;
     reasoning_traces := reasoning_traces self ++ [trace] |}.

(** [context.current_request = ...] *)
Definition set_current_request (self : AgentContext) (r : string) : AgentContext :=
  {| user_id := user_id self; trust_score := trust_score self;
     saathi_balance := saathi_balance self; circles := circles self;
     loans := loans self; vouches := vouches self;
     financial_diary := financial_diary self; language := language self;
     current_request := Some r;
     agent_results := agent_results self;
     reasoning_traces := reasoning_traces self |}.

(** [context.language = ...] *)
Definition set_language (self : AgentContext) (l : string) : AgentContext :=
  {| user_id := user_id self; trust_score := trust_score self;
     saathi_balance := saathi_balance self; circles := circles self;
     loans := loans self; vouches := vouches self;
     financial_diary := financial_diary self; language := l;
     current_request := current_request self;
     agent_results := agent_results self;
     reasoning_traces := reasoning_traces self |}.

(** [context.agent_results[name] = result] *)
Definition set_agent_result (self : AgentContext) (name : string) (r : dict)
    : AgentContext :=
  {| user_id := user_id self; trust_score := trust_score self;
     saathi_balance := saathi_balance self; circles := circles self;
     loans := loans self; vouches := vouches self;
     financial_diary := financial_diary self; language := language self;
     current_request := current_request self;
     agent_results := <[name := r]> (agent_results self);
     reasoning_traces := reasoning_traces self |}.

(** What every agent run leaves of the context: its data as they were,
    with at most one trace appended ([context.add_trace(trace)] is the
    only write of an agent on the context). *)
Definition keeps_data (context context' : AgentContext) : Prop :=
  context' = context \/ exists t, context' = add_trace context t.

Record AgentResult := mkResult {
  result_agent_name : string;
  success : bool;
  result_data : dict;
  reasoning_trace : ReasoningTrace;
  next_agent : option string;
  actions : list dict
}.

(** [BaseAgent]: what the orchestrator knows of an agent.  [execute]
    receives the shared context, may append its trace to it, and never
    raises (every agent wraps its body in [try/except Exception]).
    The clock and the outer services an agent consults are fixed when
    the agent is built. *)
Record BaseAgent := mkAgent {
  name : string;
  execute : AgentContext -> AgentContext * AgentResult
}.

(** The shape all six [execute] methods share: run the body on a fresh
    trace; on success the body's result is returned, on an exception the
    handler appends a REFLECTION step of the given confidence and the
    failure result carries the error text. *)
Definition failure_result (agent : string) (extra : dict) (trace : ReasoningTrace)
    (exc : string) (confidence : Q) : AgentResult :=
  let trace' := match reflect trace ("failed: " ++ exc) confidence with
                | Ok t => t
                | Raise _ => trace
                end in
  {| result_agent_name := agent; success := false;
     result_data := ("error", VStr exc) :: extra;
     reasoning_trace := trace'; next_agent := None; actions := [] |}.

Definition try_except (agent : string) (extra : dict) (confidence : Q)
    (trace : ReasoningTrace) (context : AgentContext)
    (body : Tr (AgentContext * AgentResult)) : AgentContext * AgentResult :=
  match body trace with
  | (_, Ok r) => r
  | (trace', Raise exc) =>
      (context, failure_result agent extra trace' exc confidence)
  end.

End Engine.

(* ================================================================== *)
(** * Python floats as IEEE 754 binary64                               *)
(* ================================================================== *)

Module Py64.
Import Engine.

(** A Python [float] is a binary64 number: 53 bits of precision,
    exponents below 1024, every operation rounded to nearest, ties to
    even. *)
Definition prec : Z := 53.
Definition emax : Z := 1024.
Definition float := spec_float.

Definition zero : float := S754_zero false.

(** A small integer literal read as a float ([100], [50.0]). *)
Definition lit (n : Z) : float := binary_normalize prec emax n 0 false.

Definition add : float -> float -> float := SFadd prec emax.
Definition mul : float -> float -> float := SFmul prec emax.
(** [x / y] for a divisor that is not zero. *)
Definition div : float -> float -> float := SFdiv prec emax.
Definition ltb : float -> float -> bool := SFltb.
Definition leb : float -> float -> bool := SFleb.

(** [float(n)] for an [int]: the nearest float, and [OverflowError]
    when that is beyond the largest one. *)
Definition of_int (n : Z) : result float :=
  match binary_normalize prec emax n 0 false with
  | S754_infinity _ => Raise "OverflowError"
  | x => Ok x
  end.

(** [math.sqrt(n)] for an [int]. *)
Definition sqrt_int (n : Z) : result float :=
  match of_int n with
  | Raise e => Raise e
  | Ok x => if ltb x zero then Raise "ValueError" else Ok (SFsqrt prec emax x)
  end.

(** The integer nearest to [num / den], ties to even ([den] positive). *)
Definition round_half_even_div (num den : Z) : Z :=
  let q := (num / den)%Z in
  let r := (num mod den)%Z in
  match (2 * r ?= den)%Z with
  | Lt => q
  | Gt => (q + 1)%Z
  | Eq => if Z.even q then q else (q + 1)%Z
  end.

(** The float nearest to [n / d], with sign [s]. *)
Definition nearest (s : bool) (n d : positive) : float :=
  let '(m, e, l) := SFdiv_core_binary prec emax (Zpos n) 0 (Zpos d) 0 in
  binary_round_aux prec emax s m e l.

(** The float nearest to a rational. *)
Definition of_Q (q : Q) : float :=
  match Qnum q with
  | Z0 => zero
  | Zpos n => nearest false n (Qden q)
  | Zneg n => nearest true n (Qden q)
  end.

(** [round(x, 2)]: the exact value of [x] is rounded to two decimals,
    ties to even, and the float nearest to that decimal is returned;
    zeros, infinities and NaN round to themselves. *)
Definition round2 (x : float) : float :=
  match x with
  | S754_finite s m e =>
      let hundredths :=
        match e with
        | Zneg k => round_half_even_div (Zpos m * 100) (2 ^ Zpos k)
        | _ => (Zpos m * 100 * 2 ^ e)%Z
        end in
      match hundredths with
      | Zpos n => nearest s n 100
      | _ => S754_zero s
      end
  | _ => x
  end.

End Py64.

(* ================================================================== *)
(** * services/governance.py on binary64 floats                        *)
(* ================================================================== *)

(** The tally once more, with the floats of the code: the sums of
    square roots, the quotient and the comparison with the quorum
    percentage are rounded as Python rounds them. *)
Module Governance64.
Import Engine.

Definition Vote := Governance.Vote.
Definition tokens_spent := Governance.tokens_spent.
Definition vote := Governance.vote.

Record QuadraticVotingService := mkService {
  quorum_percentage : Py64.float
}.

(** [quadratic_voting_service = QuadraticVotingService()] *)
Definition quadratic_voting_service : QuadraticVotingService :=
  {| quorum_percentage := Py64.lit 50 |}.

Definition calculate_vote_power (tokens_spent : Z) : result Py64.float :=
  if (tokens_spent <=? 0)%Z then Ok Py64.zero else Py64.sqrt_int tokens_spent.

(** The body of the [for vote in votes] loop, on the pair
    [(for_power, against_power)]. *)
Definition tally_step (acc : Py64.float * Py64.float) (v : Vote)
    : result (Py64.float * Py64.float) :=
  match calculate_vote_power (tokens_spent v) with
  | Raise e => Raise e
  | Ok power =>
      if String.eqb (vote v) "for" then Ok (Py64.add (fst acc) power, snd acc)
      else if String.eqb (vote v) "against" then Ok (fst acc, Py64.add (snd acc) power)
      else Ok acc
  end.

Fixpoint tally_loop (votes : list Vote) (acc : Py64.float * Py64.float)
    : result (Py64.float * Py64.float) :=
  match votes with
  | [] => Ok acc
  | v :: votes =>
      match tally_step acc v with
      | Raise e => Raise e
      | Ok acc => tally_loop votes acc
      end
  end.

Record Tally := mkTally {
  for_power : Py64.float;
  against_power : Py64.float;
  total_power : Py64.float;
  approval_percentage : Py64.float;
  total_voters : nat;
  quorum_met : bool;
  approved : bool
}.

(** The unrounded [approval_percentage] local of [tally_votes]. *)
Definition raw_approval (powers : Py64.float * Py64.float) : Py64.float :=
  let total_power := Py64.add (fst powers) (snd powers) in
  if Py64.ltb Py64.zero total_power
  then Py64.mul (Py64.div (fst powers) total_power) (Py64.lit 100)
  else Py64.zero.

Definition tally_votes (self : QuadraticVotingService) (votes : list Vote)
    : result Tally :=
  let total_voters := length votes in
  match tally_loop votes (Py64.zero, Py64.zero) with
  | Raise e => Raise e
  | Ok powers =>
      let total_power := Py64.add (fst powers) (snd powers) in
      let approval_percentage := raw_approval powers in
      let quorum_met := (3 <=? total_voters)%nat in
      Ok {| for_power := Py64.round2 (fst powers);
            against_power := Py64.round2 (snd powers);
            total_power := Py64.round2 total_power;
            approval_percentage := Py64.round2 approval_percentage;
            total_voters := total_voters;
            quorum_met := quorum_met;
            approved := quorum_met &&
                        Py64.leb (quorum_percentage self) approval_percentage |}
  end.

(** ** The tally in the words of the specification *)

(** The power of a side: the vote powers of the votes cast for that
    side, added up in the order of the list. *)
Fixpoint sum_powers (votes : list Vote) (acc : Py64.float) : result Py64.float :=
  match votes with
  | [] => Ok acc
  | v :: votes =>
      match calculate_vote_power (tokens_spent v) with
      | Raise e => Raise e
      | Ok power => sum_powers votes (Py64.add acc power)
      end
  end.

Definition side_power (side : string) (votes : list Vote) : result Py64.float :=
  sum_powers (List.filter (fun v => String.eqb (vote v) side) votes) Py64.zero.

(** Approval = [for_power / (for_power + against_power)], times 100,
    and 0 when no power was cast. *)
Definition approval_share (votes : list Vote) : result Py64.float :=
  match side_power "for" votes, side_power "against" votes with
  | Ok for_power, Ok against_power =>
      let total_power := Py64.add for_power against_power in
      Ok (if Py64.ltb Py64.zero total_power
          then Py64.mul (Py64.div for_power total_power) (Py64.lit 100)
          else Py64.zero)
  | Raise e, _ => Raise e
  | _, Raise e => Raise e
  end.

(** "approved iff at least 3 distinct voters took part and the approval
    percentage reaches the quorum percentage". *)
Definition approved_by_distinct_voters
    (self : QuadraticVotingService) (votes : list Vote) : Prop :=
  forall t share,
    tally_votes self votes = Ok t ->
    approval_share votes = Ok share ->
    (approved t = true <->
     (3 <= Governance.distinct_voters votes)%nat /\
     Py64.leb (quorum_percentage self) share = true).

(** Three votes on each side with the same tokens, in another order. *)
Definition tied_votes : list Vote :=
  [ Governance.mkVote "a" 5 "for"; Governance.mkVote "b" 7 "for";
    Governance.mkVote "c" 10 "for"; Governance.mkVote "d" 5 "against";
    Governance.mkVote "e" 10 "against"; Governance.mkVote "f" 7 "against" ].

End Governance64.

(* ================================================================== *)
(** * utils.py: CircuitBreaker                                          *)
(* ================================================================== *)

Module Breaker.
Import Engine.

Inductive CircuitState := CLOSED | OPEN | HALF_OPEN.

Record CircuitBreaker := mkBreaker {
  name : string;
  failure_threshold : Z;
  recovery_timeout : Z;
  success_threshold : Z;
  state : CircuitState;
  failure_count : Z;
  success_count : Z;
  last_failure_time : option Z
}.

(** [CircuitBreaker(name, failure_threshold, recovery_timeout, success_threshold)] *)
Definition init (name : string) (failure_threshold recovery_timeout
    success_threshold : Z) : CircuitBreaker :=
  {| name := name; failure_threshold := failure_threshold;
     recovery_timeout := recovery_timeout;
     success_threshold := success_threshold;
     state := CLOSED; failure_count := 0; success_count := 0;
     last_failure_time := None |}.

(** [dodo_circuit = CircuitBreaker(name="dodo_payments", failure_threshold=5)] *)
Definition dodo_circuit : CircuitBreaker := init "dodo_payments" 5 30 2.
Definition twilio_circuit : CircuitBreaker := init "twilio" 5 30 2.
Definition groq_circuit : CircuitBreaker := init "groq" 3 30 2.
Definition blockchain_circuit : CircuitBreaker := init "blockchain" 3 30 2.

Definition set_state (self : CircuitBreaker) (s : CircuitState)
    (failures successes : Z) (last : option Z) : CircuitBreaker :=
  {| name := name self; failure_threshold := failure_threshold self;
     recovery_timeout := recovery_timeout self;
     success_threshold := success_threshold self;
     state := s; failure_count := failures; success_count := successes;
     last_failure_time := last |}.

(** [__aenter__] at time [now] (seconds): the breaker afterwards and
    whether the body of the [async with] may run. *)
Definition __aenter__ (self : CircuitBreaker) (now : Z)
    : CircuitBreaker * result unit :=
  match state self with
  | OPEN =>
      match last_failure_time self with
      | Some last =>
          let elapsed := Py.timedelta_seconds (now - last) in
          if (recovery_timeout self <=? elapsed)%Z then
            (set_state self HALF_OPEN (failure_count self) 0
                       (last_failure_time self), Ok tt)
          else (self, Raise "CircuitOpenError")
      | None => (self, Ok tt)
      end
  | _ => (self, Ok tt)
  end.

Definition _record_success (self : CircuitBreaker) : CircuitBreaker :=
  match state self with
  | HALF_OPEN =>
      let successes := (success_count self + 1)%Z in
      if (success_threshold self <=? successes)%Z
      then set_state self CLOSED 0 successes (last_failure_time self)
      else set_state self HALF_OPEN (failure_count self) successes
                     (last_failure_time self)
  | CLOSED =>
      set_state self CLOSED 0 (success_count self) (last_failure_time self)
  | OPEN => self
  end.

Definition _record_failure (self : CircuitBreaker) (now : Z) : CircuitBreaker :=
  let failures := (failure_count self + 1)%Z in
  let self1 := set_state self (state self) failures (success_count self) (Some now) in
  match state self with
  | HALF_OPEN => set_state self1 OPEN failures (success_count self) (Some now)
  | CLOSED =>
      if (failure_threshold self <=? failures)%Z
      then set_state self1 OPEN failures (success_count self) (Some now)
      else self1
  | OPEN => self1
  end.

(** [__aexit__] at time [now]; [raised] tells whether the body raised. *)
Definition __aexit__ (self : CircuitBreaker) (now : Z) (raised : bool)
    : CircuitBreaker :=
  if raised then _record_failure self now else _record_success self.

(** How an [async with breaker: op()] ends. *)
Inductive Outcome :=
| Returned     (* the operation ran and returned *)
| Failed       (* the operation ran and raised *)
| CircuitOpen. (* [CircuitOpenError]: the operation was not run *)

Section Call.
(** The wrapped operation acts on some outer world [W]; it returns
    [false] when it raises. *)
Context {W : Type}.

(** [async with self: op()], entered at [t_enter] and left at [t_exit]. *)
Definition guarded_call (self : CircuitBreaker) (t_enter t_exit : Z)
    (op : W -> W * bool) (w : W) : CircuitBreaker * W * Outcome :=
  match __aenter__ self t_enter with
  | (self1, Raise _) => (self1, w, CircuitOpen)
  | (self1, Ok _) =>
      let '(w', ok) := op w in
      (__aexit__ self1 t_exit (negb ok), w', if ok then Returned else Failed)
  end.
End Call.

(** A run of calls, given by their entry and exit times, each of which
    was let through and then failed.  [None] when one was rejected. *)
Fixpoint failures_in_a_row (self : CircuitBreaker) (calls : list (Z * Z))
    : option CircuitBreaker :=
  match calls with
  | [] => Some self
  | (t_enter, t_exit) :: calls' =>
      match __aenter__ self t_enter with
      | (self1, Ok _) => failures_in_a_row (__aexit__ self1 t_exit true) calls'
      | (_, Raise _) => None
      end
  end.

(** Time of the last failure of such a run. *)
Fixpoint last_exit (calls : list (Z * Z)) : option Z :=
  match calls with
  | [] => None
  | [ (_, t) ] => Some t
  | _ :: calls' => last_exit calls'
  end.

(** "once recoveryTimeout has elapsed exactly one probing call is allowed
    through": when a call entering an open breaker at [t1] is let
    through, a call entering at [t2], while the first is still running,
    is rejected. *)
Definition single_probe (self : CircuitBreaker) (t1 t2 : Z) : Prop :=
  state self = OPEN ->
  forall self1, __aenter__ self t1 = (self1, Ok tt) ->
  snd (__aenter__ self1 t2) = Raise "CircuitOpenError".

(** Two states of one breaker: the settings are the same. *)
Definition same_settings (a b : CircuitBreaker) : Prop :=
  failure_threshold b = failure_threshold a /\
  recovery_timeout b = recovery_timeout a /\
  success_threshold b = success_threshold a.

(** Five payment calls, one per second, that all fail. *)
Definition five_failures : list (Z * Z) :=
  [ (0, 1); (1, 2); (2, 3); (3, 4); (4, 5) ]%Z.

(** The payments breaker after those five failures. *)
Definition dodo_after_five_failures : CircuitBreaker :=
  set_state dodo_circuit OPEN 5 0 (Some 5%Z).

(** ** Calls one after the other *)

(** A call of [async with self: op()]: when it enters, when it leaves,
    and whether the body raised. *)
Record Call := mkCall {
  t_enter : Z;
  t_exit : Z;
  raised : bool
}.

(** The breaker after a run of calls, none of them overlapping; a call
    that is rejected on entry never reaches [__aexit__]. *)
Fixpoint run_calls (self : CircuitBreaker) (calls : list Call) : CircuitBreaker :=
  match calls with
  | [] => self
  | c :: calls' =>
      match __aenter__ self (t_enter c) with
      | (self1, Ok _) => run_calls (__aexit__ self1 (t_exit c) (raised c)) calls'
      | (self1, Raise _) => run_calls self1 calls'
      end
  end.

(** What every breaker built by [CircuitBreaker(...)] satisfies, whatever
    calls went through it. *)
Definition well_formed (self : CircuitBreaker) : Prop :=
  (0 <= failure_count self)%Z /\
  match state self with
  | CLOSED => (failure_count self < failure_threshold self)%Z
  | OPEN => last_failure_time self <> None
  | HALF_OPEN =>
      last_failure_time self <> None /\
      (0 <= success_count self < success_threshold self)%Z
  end.

End Breaker.

(* ================================================================== *)
(** * utils.py: retry_with_backoff                                      *)
(* ================================================================== *)

Module Retry.
Import Engine.
Local Open Scope Q_scope.

(** The arguments of the decorator.  [catches e] tells whether the
    exception [e] is an instance of one of [exceptions]. *)
Record Config := mkConfig {
  max_retries : Z;
  base_delay : Q;
  max_delay : Q;
  catches : string -> bool;
  on_retry : option (nat -> string -> result unit)
}.

(** [retry_with_backoff()] with its defaults: 3 retries, delays from 1 s
    up to 30 s, every [Exception] caught, no callback. *)
Definition defaults : Config :=
  {| max_retries := 3; base_delay := 1; max_delay := 30;
     catches := fun _ => true; on_retry := None |}.

(** What the wrapper meets outside: what the call of [func] in attempt
    [k] does, and what [random.random()] returns in attempt [k]. *)
Record Env (A : Type) := mkEnv {
  func : nat -> result A;
  random : nat -> Q
}.
Arguments func {A} e k.
Arguments random {A} e k.

(** What a run of the wrapper did: how often [func] was called, the
    delays it slept, and how it ended. *)
Record Run (A : Type) := mkRun {
  calls : nat;
  sleeps : list Q;
  outcome : result A
}.
Arguments mkRun {A} calls sleeps outcome.
Arguments calls {A} r.
Arguments sleeps {A} r.
Arguments outcome {A} r.

(** [min(base_delay * (2 ** attempt), max_delay) * (0.5 + random.random())] *)
Definition delay_of (cfg : Config) (attempt : nat) (u : Q) : Q :=
  Py.qmin (base_delay cfg * 2 ^ Z.of_nat attempt) (max_delay cfg) * ((1 # 2) + u).

Section Wrapper.
Context {A : Type}.
Variable cfg : Config.
Variable env : Env A.

(** The [for attempt in range(max_retries + 1)] loop with [todo]
    iterations left, and the [raise last_exception] after it. *)
Fixpoint attempts (todo : nat) (attempt : nat) (last_exception : option string)
    (slept : list Q) : Run A :=
  match todo with
  | O =>
      mkRun attempt slept
            (match last_exception with
             | Some e => Raise e
             | None => Raise "TypeError"
             end)
  | S todo' =>
      match func env attempt with
      | Ok a => mkRun (S attempt) slept (Ok a)
      | Raise e =>
          if catches cfg e then
            if (Z.of_nat attempt =? max_retries cfg)%Z
            then mkRun (S attempt) slept (Raise e)
            else
              let delay := delay_of cfg attempt (random env attempt) in
              match match on_retry cfg with
                    | Some callback => callback attempt e
                    | None => Ok tt
                    end with
              | Raise e' => mkRun (S attempt) slept (Raise e')
              | Ok _ => attempts todo' (S attempt) (Some e) (slept ++ [delay])
              end
          else mkRun (S attempt) slept (Raise e)
      end
  end.

Definition wrapper : Run A :=
  attempts (Z.to_nat (max_retries cfg + 1)) 0 None [].
End Wrapper.

(** The first [k] calls raise exceptions that the decorator catches. *)
Definition fails_before {A} (cfg : Config) (env : Env A) (k : nat) : Prop :=
  forall j, (j < k)%nat -> exists e, func env j = Raise e /\ catches cfg e = true.

(** The delays of the first [k] attempts. *)
Definition delays {A} (cfg : Config) (env : Env A) (k : nat) : list Q :=
  map (fun j => delay_of cfg j (random env j)) (seq 0 k).

End Retry.

(* ================================================================== *)
(** * ai/agents/loan_advisor.py                                         *)
(* ================================================================== *)

Module LoanAdvisor.
Import Json Engine.
Local Open Scope Q_scope.

(** [float(x)] on a number read from a row: [float(None)] raises. *)
Definition float_of (x : option Q) : result Q :=
  match x with Some q => Ok q | None => Raise "TypeError" end.

(** [sum(float(x) for x in xs)] *)
Fixpoint sum_floats (xs : list (option Q)) (acc : Q) : result Q :=
  match xs with
  | [] => Ok acc
  | x :: xs' =>
      match float_of x with
      | Ok q => sum_floats xs' (acc + q)
      | Raise e => Raise e
      end
  end.

(** [xs[-n:]] *)
Definition last_n {A} (n : nat) (xs : list A) : list A :=
  skipn (length xs - n) xs.

Record IncomeAnalysis := mkIncome {
  estimated_monthly : Q;
  income_confidence : Q;
  income_source : string;
  entries_analyzed : option nat
}.

Definition _analyze_income (context : AgentContext) : result IncomeAnalysis :=
  let income_entries :=
    List.filter (fun e => String.eqb (entry_type e) "income")
                (financial_diary context) in
  match income_entries with
  | [] => Ok {| estimated_monthly := 10000; income_confidence := 3 # 10;
                income_source := "default"; entries_analyzed := None |}
  | _ =>
      match sum_floats (map entry_amount (last_n 30 income_entries)) 0 with
      | Raise e => Raise e
      | Ok total =>
          let n := inject_Z (Z.of_nat (length income_entries)) in
          let months := Py.qmin (n / 10) 3 in
          let '(monthly, confidence) :=
            if Qlt_le_dec 0 months
            then (total / months, Py.qmin ((5 # 10) + n * (2 # 100)) (9 # 10))
            else (total, 4 # 10) in
          Ok {| estimated_monthly := monthly; income_confidence := confidence;
                income_source := "diary_analysis";
                entries_analyzed := Some (length income_entries) |}
      end
  end.

Definition is_active (l : Loan) : bool :=
  String.eqb (loan_status l) "disbursed" || String.eqb (loan_status l) "repaying".

Definition _calculate_current_emi (context : AgentContext) : result Q :=
  let active_loans := List.filter is_active (loans context) in
  sum_floats (map loan_emi_amount active_loans) 0.

Definition _get_trust_multiplier (trust_score : Z) : Q :=
  if (80 <=? trust_score)%Z then 2
  else if (60 <=? trust_score)%Z then 15 # 10
  else if (40 <=? trust_score)%Z then 1
  else if (20 <=? trust_score)%Z then 5 # 10
  else 25 # 100.

(** The sentence of the language, without the amounts it quotes. *)
Definition _explain_in_simple_terms (amount : Q) (weeks : Z) (emi : Q)
    (language : string) : string :=
  if String.eqb language "hi" then "explanation (hi)"
  else if String.eqb language "ml" then "explanation (ml)"
  else "explanation (en)".

(** The three shapes of the [recommendation] dict. *)
Definition emi_too_high : dict :=
  [ ("can_borrow", VBool false);
    ("reason", VStr "existing_emi_too_high");
    ("advice", VStr "Pay off current loans first to qualify for new loan");
    ("suggested_action", VStr "wait") ].

Definition trust_too_low : dict :=
  [ ("can_borrow", VBool false);
    ("reason", VStr "trust_too_low");
    ("advice", VStr "Get vouches from circle members to build trust");
    ("suggested_action", VStr "get_vouches") ].

Definition can_borrow_rec (max_loan recommended_amount : Q) (language : string) : dict :=
  let recommended_tenure_weeks := 10%Z in
  let recommended_emi := recommended_amount / inject_Z recommended_tenure_weeks in
  [ ("can_borrow", VBool true);
    ("max_amount", VNum max_loan);
    ("recommended_amount", VNum recommended_amount);
    ("recommended_tenure_weeks", VNum (inject_Z recommended_tenure_weeks));
    ("recommended_emi", VNum recommended_emi);
    ("explanation",
     VStr (_explain_in_simple_terms recommended_amount recommended_tenure_weeks
             recommended_emi language)) ].

Definition income_dict (a : IncomeAnalysis) : dict :=
  [ ("estimated_monthly", VNum (estimated_monthly a));
    ("confidence", VNum (income_confidence a));
    ("source", VStr (income_source a)) ]
  ++ match entries_analyzed a with
     | Some n => [ ("entries_analyzed", VNum (inject_Z (Z.of_nat n))) ]
     | None => []
     end.

Definition self_name : string := "LoanAdvisor".

(** The body of the [try] block of [execute]. *)
Definition execute_body (context : AgentContext) : Tr (AgentContext * AgentResult) :=
  bind (on_trace (fun t => observe t "Analyzing" (95 # 100))) (fun _ =>
  bind (lift (_analyze_income context)) (fun income_analysis =>
  bind (on_trace (fun t => analyze t "Monthly income estimate"
                             (income_confidence income_analysis))) (fun _ =>
  bind (lift (_calculate_current_emi context)) (fun current_emi_burden =>
  let safe_emi := estimated_monthly income_analysis * (3 # 10) - current_emi_burden in
  bind (on_trace (fun t => analyze t "Safe new EMI" (85 # 100))) (fun _ =>
  let trust_multiplier := _get_trust_multiplier (trust_score context) in
  let base_limit := inject_Z (5000 + trust_score context * 450) in
  let max_loan := Py.qmin (base_limit * trust_multiplier) 50000 in
  bind (on_trace (fun t => hypothesize t "Max loan eligibility" (82 # 100))) (fun _ =>
  bind (if Qlt_le_dec 0 safe_emi then
          if (trust_score context <? 20)%Z then
            bind (on_trace (fun t => reflect t "Trust score too low" (88 # 100)))
                 (fun _ => ret trust_too_low)
          else
            let recommended_amount := Py.qmin max_loan (safe_emi * 10 * 4) in
            bind (on_trace (fun t => act t "Recommending" (87 # 100)))
                 (fun _ => ret (can_borrow_rec max_loan recommended_amount
                                  (language context)))
        else
          bind (on_trace (fun t => reflect t "User already has high EMI burden"
                                     (9 # 10)))
               (fun _ => ret emi_too_high))
       (fun recommendation =>
  bind (on_trace (fun t => conclude t "Recommendation" (88 # 100))) (fun _ =>
  fun trace =>
    (trace,
     Ok (add_trace context trace,
         {| result_agent_name := self_name; success := true;
            result_data :=
              [ ("recommendation", VDict recommendation);
                ("income_analysis", VDict (income_dict income_analysis));
                ("trust_score", VNum (inject_Z (trust_score context))) ];
            reasoning_trace := trace; next_agent := None; actions := [] |})))))))))).

Definition execute (context : AgentContext) : AgentContext * AgentResult :=
  let trace := new_trace self_name self_name "Loan advice for user" in
  try_except self_name [] (3 # 10) trace context (execute_body context).

(** What [execute] recommends once the income and the EMI burden are
    read (steps 2 to 4 of its body, without the trace). *)
Definition recommendation_for (context : AgentContext)
    (income_analysis : IncomeAnalysis) (current_emi_burden : Q) : dict :=
  let safe_emi := estimated_monthly income_analysis * (3 # 10) - current_emi_burden in
  let trust_multiplier := _get_trust_multiplier (trust_score context) in
  let base_limit := inject_Z (5000 + trust_score context * 450) in
  let max_loan := Py.qmin (base_limit * trust_multiplier) 50000 in
  if Qlt_le_dec 0 safe_emi then
    if (trust_score context <? 20)%Z then trust_too_low
    else can_borrow_rec max_loan (Py.qmin max_loan (safe_emi * 10 * 4))
           (language context)
  else emi_too_high.

Definition LoanAdvisorAgent : BaseAgent :=
  mkAgent self_name execute.

End LoanAdvisor.

(* ================================================================== *)
(** * ai/agents/fraud_guard.py                                          *)
(* ================================================================== *)

Module FraudGuard.
Import Json Engine.
Local Open Scope Q_scope.

(** [self.thresholds] *)
Definition max_loans_per_day : nat := 3.
Definition suspicious_vouch_ratio : Q := 8 # 10.

Record Check := mkCheck {
  check_type : string;
  suspicious : bool;
  risk_weight : Q
}.

Section At.
(** [datetime.utcnow()], in seconds. *)
Variable now : Z.

Definition _is_recent (timestamp : option Z) (hours days : Z) : bool :=
  match timestamp with
  | None => false
  | Some ts => (now - ts <? hours * 3600 + days * 86400)%Z
  end.

Definition _check_velocity (context : AgentContext) : Check :=
  let recent_loans :=
    List.filter (fun l => _is_recent (loan_created_at l) 24 0) (loans context) in
  if (max_loans_per_day <? length recent_loans)%nat
  then mkCheck "velocity" true (3 # 10)
  else mkCheck "velocity" false 0.

(** [voucher_ids.count(max(set(voucher_ids), key=voucher_ids.count))] *)
Definition most_common_count (voucher_ids : list string) : nat :=
  fold_right Nat.max 0%nat
    (map (fun v => count_occ string_dec voucher_ids v) voucher_ids).

Definition _check_collusion (context : AgentContext) : Check :=
  let voucher_ids := map vouch_voucher_id (vouches context) in
  match voucher_ids with
  | [] => mkCheck "collusion" false 0
  | _ =>
      let ratio := inject_Z (Z.of_nat (most_common_count voucher_ids))
                   / inject_Z (Z.of_nat (length voucher_ids)) in
      if Qlt_le_dec suspicious_vouch_ratio ratio
      then mkCheck "collusion" true (4 # 10)
      else mkCheck "collusion" false 0
  end.

Definition _check_behavioral_anomalies (context : AgentContext) : Check :=
  if (80 <? trust_score context)%Z && (length (loans context) <? 2)%nat
  then mkCheck "behavior" true (25 # 100)
  else mkCheck "behavior" false 0.

Definition _check_sybil_attack (context : AgentContext) : Check :=
  match circles context with
  | [] => mkCheck "sybil" false 0
  | _ =>
      let new_circles :=
        List.filter (fun c => _is_recent (circle_created_at c) 0 7)
                    (circles context) in
      if (length new_circles =? length (circles context))%nat
         && (5 <? length (vouches context))%nat
      then mkCheck "sybil" true (35 # 100)
      else mkCheck "sybil" false 0
  end.

(** One of the four [if check['suspicious']:] blocks. *)
Definition account (check : Check) (label : string) (confidence : Q)
    (st : list Check * Q) : Tr (list Check * Q) :=
  if suspicious check then
    bind (on_trace (fun t => analyze t label confidence)) (fun _ =>
    ret (fst st ++ [check], snd st + risk_weight check))
  else ret st.

Definition verdict_of (risk_level : Q) : string :=
  if Qle_bool (8 # 10) risk_level then "BLOCK"
  else if Qle_bool (5 # 10) risk_level then "REVIEW"
  else if Qle_bool (3 # 10) risk_level then "WARN"
  else "CLEAR".

Definition verdict_confidence (verdict : string) : Q :=
  if String.eqb verdict "BLOCK" then 92 # 100
  else if String.eqb verdict "REVIEW" then 85 # 100
  else if String.eqb verdict "WARN" then 88 # 100
  else 9 # 10.

Definition check_dict (c : Check) : value :=
  VDict [ ("type", VStr (check_type c));
          ("suspicious", VBool (suspicious c));
          ("risk_weight", VNum (risk_weight c)) ].

Definition self_name : string := "FraudGuard".

Definition execute_body (context : AgentContext) : Tr (AgentContext * AgentResult) :=
  bind (on_trace (fun t => observe t "Analyzing activity patterns" (95 # 100)))
       (fun _ =>
  bind (account (_check_velocity context) "Velocity anomaly" (9 # 10) ([], 0))
       (fun st =>
  bind (account (_check_collusion context) "Collusion pattern" (85 # 100) st)
       (fun st =>
  bind (account (_check_behavioral_anomalies context) "Behavioral anomaly"
                (8 # 10) st)
       (fun st =>
  bind (account (_check_sybil_attack context) "Sybil indicator" (75 # 100) st)
       (fun st =>
  let fraud_signals := fst st in
  let risk_level := Py.qmin (snd st) 1 in
  let verdict := verdict_of risk_level in
  bind (on_trace (fun t => act t "Verdict action" (verdict_confidence verdict)))
       (fun _ =>
  bind (on_trace (fun t => conclude t ("Verdict: " ++ verdict) (88 # 100)))
       (fun _ =>
  fun trace =>
    (trace,
     Ok (add_trace context trace,
         {| result_agent_name := self_name; success := true;
            result_data :=
              [ ("verdict", VStr verdict);
                ("risk_level", VNum risk_level);
                ("fraud_signals", VList (map check_dict fraud_signals));
                ("can_proceed",
                 VBool (String.eqb verdict "CLEAR" || String.eqb verdict "WARN")) ];
            reasoning_trace := trace; next_agent := None;
            actions :=
              if String.eqb verdict "CLEAR" then []
              else [ [ ("type", VStr "log_fraud_check");
                       ("verdict", VStr verdict);
                       ("risk", VNum risk_level) ] ] |}))))))))).

Definition execute (context : AgentContext) : AgentContext * AgentResult :=
  let trace := new_trace self_name self_name "Fraud check for user" in
  try_except self_name [ ("verdict", VStr "REVIEW") ] (3 # 10) trace context
             (execute_body context).

(** The four checks in the order [execute] runs them, the signals it
    collects ([fraud_signals]) and the risk level it ends with. *)
Definition checks (context : AgentContext) : list Check :=
  [ _check_velocity context; _check_collusion context;
    _check_behavioral_anomalies context; _check_sybil_attack context ].

Definition fraud_signals (context : AgentContext) : list Check :=
  List.filter suspicious (checks context).

Definition risk_level (context : AgentContext) : Q :=
  Py.qmin (fold_left (fun risk check => risk + risk_weight check)
                     (fraud_signals context) 0) 1.

Definition FraudGuardAgent : BaseAgent :=
  mkAgent self_name execute.
End At.

End FraudGuard.

(* ================================================================== *)
(** * ai/agents/risk_oracle.py                                          *)
(* ================================================================== *)

Module RiskOracle.
Import Json Engine.
Local Open Scope R_scope.

(** [float(x)] on a number read from a row. *)
Definition float_of (x : option Q) : result R :=
  match x with Some q => Ok (Q2R q) | None => Raise "TypeError" end.

(** [sum(f(x) for x in xs)] where [f] may raise. *)
Fixpoint sum_floats {A} (f : A -> result R) (xs : list A) (acc : R) : result R :=
  match xs with
  | [] => Ok acc
  | x :: xs' =>
      match f x with
      | Ok r => sum_floats f xs' (acc + r)
      | Raise e => Raise e
      end
  end.

(** [len(xs)] as a float. *)
Definition len {A} (xs : list A) : R := INR (length xs).

Record Factors := mkFactors {
  f_trust_score : R;
  f_repayment_history : R;
  f_income_stability : R;
  f_vouch_strength : R;
  f_circle_health : R;
  f_loan_to_income : R
}.

Definition has_status (s : string) (l : Loan) : bool := String.eqb (loan_status l) s.
Definition is_active (l : Loan) : bool :=
  has_status "disbursed" l || has_status "repaying" l.

(** [e.get('type') == 'income' and e.get('amount')] *)
Definition is_income (e : DiaryEntry) : bool :=
  String.eqb (entry_type e) "income" &&
  match entry_amount e with
  | Some q => negb (Qeq_bool q 0)
  | None => false
  end.

Definition amount_of (e : DiaryEntry) : R :=
  match entry_amount e with Some q => Q2R q | None => 0 end.

Definition thirty_days : Z := 30 * 86400.

Section At.
(** [datetime.utcnow()], in seconds. *)
Variable now : Z.

(** *** 1. Trust score *)
Definition trust_factor (context : AgentContext) : R :=
  Py.rmin (IZR (trust_score context) / 100) 1.

(** *** 2. Repayment history *)
Definition repayment_factor (context : AgentContext) : R :=
  let completed_loans := List.filter (has_status "completed") (loans context) in
  let defaulted_loans := List.filter (has_status "defaulted") (loans context) in
  let total_historical := (length completed_loans + length defaulted_loans)%nat in
  if (0 <? total_historical)%nat then
    let base_factor := len completed_loans / INR total_historical in
    let bonus := Py.rmin (len completed_loans * (5 / 100)) (2 / 10) in
    let penalty := len defaulted_loans * (15 / 100) in
    Py.rmax 0 (Py.rmin (base_factor + bonus - penalty) 1)
  else 5 / 10.

(** *** 3. Income stability *)

(** The loop that fills [recent_incomes]: an entry is kept when it
    was recorded at most 30 days ago, and also when its date does not
    parse (the [except] branch appends it as well). *)
Definition keeps_entry (e : DiaryEntry) : bool :=
  match entry_recorded_at e with
  | Some ts => (now - ts <=? thirty_days)%Z
  | None => true
  end.

Definition recent_incomes (income_entries : list DiaryEntry) : list R :=
  map amount_of (List.filter keeps_entry income_entries).

Definition income_stability (context : AgentContext) : R :=
  let income_entries := List.filter is_income (financial_diary context) in
  if (4 <=? length income_entries)%nat then
    let recent_incomes := recent_incomes income_entries in
    if (2 <=? length recent_incomes)%nat then
      let mean := Py.rsum recent_incomes / len recent_incomes in
      if Rlt_dec 0 mean then
        let variance :=
          Py.rsum (map (fun x => (x - mean) ^ 2) recent_incomes)
          / len recent_incomes in
        let std_dev := sqrt variance in
        let cv := std_dev / mean in
        Py.rmax (3 / 10) (Py.rmin 1 (1 - cv * (7 / 10)))
      else 3 / 10
    else 4 / 10
  else 3 / 10.

(** *** 4. Vouch strength *)
Definition vouch_level_score (v : Vouch) : R :=
  match vouch_level v with
  | Some l => if String.eqb l "strong" then 2
              else if String.eqb l "maximum" then 3 else 1
  | None => 1
  end.

Definition vouch_factor (context : AgentContext) : result R :=
  let active_vouches :=
    List.filter (fun v => String.eqb (vouch_status v) "active") (vouches context) in
  match active_vouches with
  | [] => Ok (15 / 100)
  | _ =>
      match sum_floats (fun v => float_of (vouch_saathi_staked v)) active_vouches 0 with
      | Raise e => Raise e
      | Ok total_staked =>
          let level_scores := map vouch_level_score active_vouches in
          let avg_level := Py.rsum level_scores / len level_scores in
          let num_vouches_factor := Py.rmin (len active_vouches / 5) 1 * (3 / 10) in
          let level_factor := avg_level / 3 * (35 / 100) in
          let stake_factor := Py.rmin (total_staked / 500) 1 * (35 / 100) in
          Ok (Py.rmin (num_vouches_factor + level_factor + stake_factor) 1)
      end
  end.

(** *** 5. Circle health.  A row whose joined circle is null gives no
    score. *)
Definition circle_scores (cs : list Circle) : list R :=
  flat_map (fun c => match circle_member_count c with
                     | Some member_count => [ Py.rmin (Q2R member_count / 10) 1 ]
                     | None => []
                     end) cs.

Definition circle_factor (context : AgentContext) : R :=
  match circles context with
  | [] => 2 / 10
  | _ =>
      let circle_scores := circle_scores (circles context) in
      match circle_scores with
      | [] => 5 / 10
      | _ =>
          let avg_health := Py.rsum circle_scores / len circle_scores in
          let multi_circle_bonus :=
            Py.rmin ((len (circles context) - 1) * (1 / 10)) (2 / 10) in
          Py.rmin (avg_health * (8 / 10) + multi_circle_bonus + 2 / 10) 1
      end
  end.

(** *** 6. Loan to income.  Here an entry whose date does not parse
    is dropped ([except: pass]). *)
Definition within_30d (e : DiaryEntry) : bool :=
  match entry_recorded_at e with
  | Some ts => (now - ts <=? thirty_days)%Z
  | None => false
  end.

Definition lti_factor (context : AgentContext) : result R :=
  let income_entries_30d :=
    map amount_of
        (List.filter (fun e => is_income e && within_30d e)
                     (financial_diary context)) in
  let monthly_income := Py.rsum income_entries_30d in
  match sum_floats (fun l => match float_of (loan_emi_amount l) with
                             | Ok r => Ok (r * 4)
                             | Raise e => Raise e
                             end)
                   (List.filter is_active (loans context)) 0 with
  | Raise e => Raise e
  | Ok current_emi =>
      if Rlt_dec 0 monthly_income then
        let lti_ratio := current_emi / monthly_income in
        Ok (Py.rmax (2 / 10) (Py.rmin 1 (1 - lti_ratio * (16 / 10))))
      else if Rlt_dec 0 current_emi then Ok (3 / 10)
      else Ok (5 / 10)
  end.

Definition _calculate_risk_factors (context : AgentContext) : Tr Factors :=
  let f1 := trust_factor context in
  bind (on_trace (fun t => analyze t "Trust factor" (95 # 100))) (fun _ =>
  let f2 := repayment_factor context in
  bind (on_trace (fun t => analyze t "Repayment factor" (92 # 100))) (fun _ =>
  let f3 := income_stability context in
  bind (on_trace (fun t => analyze t "Income stability" (80 # 100))) (fun _ =>
  bind (lift (vouch_factor context)) (fun f4 =>
  bind (on_trace (fun t => analyze t "Vouch strength" (88 # 100))) (fun _ =>
  let f5 := circle_factor context in
  bind (on_trace (fun t => analyze t "Circle health" (82 # 100))) (fun _ =>
  bind (lift (lti_factor context)) (fun f6 =>
  bind (on_trace (fun t => analyze t "Loan-to-Income" (78 # 100))) (fun _ =>
  ret (mkFactors f1 f2 f3 f4 f5 f6))))))))).

(** [self.weights], in the order of the [factors] dict. *)
Definition weighted (f : Factors) : list (R * R) :=
  [ (f_trust_score f, 25 / 100); (f_repayment_history f, 25 / 100);
    (f_income_stability f, 15 / 100); (f_vouch_strength f, 15 / 100);
    (f_circle_health f, 10 / 100); (f_loan_to_income f, 10 / 100) ].

Definition _calculate_weighted_score (factors : Factors) : R :=
  let '(score, total_weight) :=
    fold_left (fun acc vw => (fst acc + fst vw * snd vw, snd acc + snd vw))
              (weighted factors) (0, 0) in
  let score := if Rlt_dec 0 total_weight then score / total_weight else score in
  Py.rmax 0 (Py.rmin score 1).

Definition _categorize_risk (score : R) : string :=
  if Rge_dec score (8 / 10) then "LOW_RISK"
  else if Rge_dec score (6 / 10) then "MODERATE_RISK"
  else if Rge_dec score (4 / 10) then "ELEVATED_RISK"
  else "HIGH_RISK".

Record Rec := mkRec {
  rec_action : string;
  rec_reason : string;
  rec_max_loan : Z;
  rec_interest_tier : Z;
  rec_interest_rate : Q
}.

Definition recommendations (category : string) : Rec :=
  if String.eqb category "LOW_RISK" then
    mkRec "APPROVE" "Excellent repayment history and strong trust network"
          50000 1 8
  else if String.eqb category "MODERATE_RISK" then
    mkRec "APPROVE_WITH_CONDITIONS"
          "Good profile, recommend starting with smaller amount" 25000 2 10
  else if String.eqb category "ELEVATED_RISK" then
    mkRec "APPROVE_LIMITED" "Limited history, recommend building trust first"
          10000 3 12
  else
    mkRec "NEEDS_MORE_VOUCHES"
          "Insufficient trust network, get more community support" 5000 4 15.

Definition _generate_recommendation (score : R) (category : string)
    (context : AgentContext) : result Rec :=
  let rec := recommendations category in
  match LoanAdvisor.sum_floats
          (map loan_amount (List.filter is_active (loans context))) 0 with
  | Raise e => Raise e
  | Ok total_outstanding =>
      if Qlt_le_dec 0 total_outstanding then
        let reduction_factor :=
          Py.qmax (3 # 10) (1 - total_outstanding / 50000)%Q in
        Ok (mkRec (rec_action rec) (rec_reason rec)
                  (Py.int_of (inject_Z (rec_max_loan rec) * reduction_factor)%Q)
                  (rec_interest_tier rec) (rec_interest_rate rec))
      else Ok rec
  end.

Definition rec_dict (r : Rec) : dict :=
  [ ("action", VStr (rec_action r)); ("reason", VStr (rec_reason r));
    ("max_loan", VNum (inject_Z (rec_max_loan r)));
    ("interest_tier", VNum (inject_Z (rec_interest_tier r)));
    ("interest_rate", VNum (rec_interest_rate r)) ].

Definition factors_dict (f : Factors) : dict :=
  [ ("trust_score", VReal (f_trust_score f));
    ("repayment_history", VReal (f_repayment_history f));
    ("income_stability", VReal (f_income_stability f));
    ("vouch_strength", VReal (f_vouch_strength f));
    ("circle_health", VReal (f_circle_health f));
    ("loan_to_income", VReal (f_loan_to_income f)) ].

(** [int(x)] for a float that is not negative. *)
Definition int_of (x : R) : Z := Zfloor x.

(** [oracle_data] before it is signed. *)
Definition oracle_data (risk_score : R) (risk_category : string)
    (recommendation : Rec) (factors : Factors) : dict :=
  [ ("risk_score", VNum (inject_Z (int_of (risk_score * 10000))));
    ("category", VStr risk_category);
    ("max_recommended_loan", VNum (inject_Z (rec_max_loan recommendation)));
    ("interest_tier", VNum (inject_Z (rec_interest_tier recommendation)));
    ("timestamp", VNum (inject_Z now));
    ("factors",
     VDict (map (fun kv => (fst kv,
                            match snd kv with
                            | VReal v => VNum (inject_Z (int_of (v * 100)))
                            | other => other
                            end))
                (factors_dict factors))) ].

(** [get_oracle_signature]: the digest or signature of the payload,
    computed by libraries outside this repository; it raises when
    they cannot be imported. *)
Variable get_oracle_signature : dict -> result string.

Definition self_name : string := "RiskOracle".

Definition execute_body (context : AgentContext) : Tr (AgentContext * AgentResult) :=
  bind (on_trace (fun t => observe t "Collecting risk factors" (95 # 100))) (fun _ =>
  bind (_calculate_risk_factors context) (fun factors =>
  let risk_score := _calculate_weighted_score factors in
  bind (on_trace (fun t => analyze t "Risk factors" (88 # 100))) (fun _ =>
  let risk_category := _categorize_risk risk_score in
  bind (on_trace (fun t => hypothesize t ("Risk category: " ++ risk_category)
                             (90 # 100))) (fun _ =>
  bind (lift (_generate_recommendation risk_score risk_category context))
       (fun recommendation =>
  bind (on_trace (fun t => act t "Recommendation" (87 # 100))) (fun _ =>
  let oracle_data := oracle_data risk_score risk_category recommendation factors in
  bind (lift (get_oracle_signature oracle_data)) (fun oracle_signature =>
  let oracle_data := oracle_data ++ [ ("signature", VStr oracle_signature) ] in
  bind (on_trace (fun t => conclude t "Assessment complete" (92 # 100))) (fun _ =>
  fun trace =>
    (trace,
     Ok (add_trace context trace,
         {| result_agent_name := self_name; success := true;
            result_data :=
              [ ("risk_score", VReal risk_score);
                ("risk_category", VStr risk_category);
                ("factors", VDict (factors_dict factors));
                ("recommendation", VDict (rec_dict recommendation));
                ("oracle_data", VDict oracle_data) ];
            reasoning_trace := trace; next_agent := None;
            actions := [ [ ("type", VStr "update_blockchain_oracle");
                           ("data", VDict oracle_data) ] ] |})))))))))).

Definition execute (context : AgentContext) : AgentContext * AgentResult :=
  let trace := new_trace self_name self_name "Risk assessment for user" in
  try_except self_name [] (2 # 10) trace context (execute_body context).

Definition RiskOracleAgent : BaseAgent := mkAgent self_name execute.
End At.

(** ** The income-stability factor in the words of the specification *)

Definition clamp (x lo hi : R) : R := Rmax lo (Rmin x hi).

Definition total (xs : list R) : R := fold_right Rplus 0 xs.
Definition mean (xs : list R) : R := total xs / INR (length xs).

(** Population coefficient of variation: standard deviation over mean. *)
Definition population_cv (xs : list R) : R :=
  sqrt (total (map (fun x => (x - mean xs) * (x - mean xs)) xs)
        / INR (length xs))
  / mean xs.

(** Amounts of the diary's income entries recorded in the last 30 days. *)
Definition incomes_last_30_days (now : Z) (context : AgentContext) : list R :=
  map amount_of
      (List.filter (fun e => is_income e && within_30d now e)
                   (financial_diary context)).

(** "with at least 2 income entries in the last 30 days the factor is
    clamp(1 - 0.7 cv, 0.3, 1.0), and 0.3 when the mean is not positive". *)
Definition stability_from_recent_samples (now : Z) (context : AgentContext) : Prop :=
  let samples := incomes_last_30_days now context in
  (2 <= length samples)%nat ->
  income_stability now context =
    if Rlt_dec 0 (mean samples)
    then clamp (1 - 7 / 10 * population_cv samples) (3 / 10) 1
    else 3 / 10.

End RiskOracle.

(* ================================================================== *)
(** * ai/agents/trust_analyzer.py                                       *)
(* ================================================================== *)

Module TrustAnalyzer.
Import Json Engine.
Local Open Scope Z_scope.

Definition count {A} (p : A -> bool) (xs : list A) : Z :=
  Z.of_nat (length (List.filter p xs)).

Definition is_active_vouch (v : Vouch) : bool := String.eqb (vouch_status v) "active".
Definition is_active_loan (l : Loan) : bool :=
  String.eqb (loan_status l) "disbursed" || String.eqb (loan_status l) "repaying".

Record Components := mkComponents {
  c_base : Z; c_vouches : Z; c_repayments : Z; c_learning : Z;
  c_circle_participation : Z
}.

Definition _calculate_trust_components (context : AgentContext) : Components :=
  let base := 10 in
  let vouches_part := Z.min (count is_active_vouch (vouches context) * 5) 30 in
  let repayments :=
    Z.min (count (fun l => String.eqb (loan_status l) "completed") (loans context) * 10)
          40 in
  let circle_participation := Z.min (Z.of_nat (length (circles context)) * 5) 15 in
  let accounted := base + vouches_part + repayments + 0 + circle_participation in
  let learning := Z.max 0 (trust_score context - accounted) in
  mkComponents base vouches_part repayments learning circle_participation.

Definition level_in (levels : list string) (v : Vouch) : bool :=
  match vouch_level v with
  | Some l => existsb (String.eqb l) levels
  | None => false
  end.

Record VouchQuality := mkQuality {
  grade : string;
  strong_vouches : Z;
  basic_vouches : Z;
  total_staked : Q
}.

Definition _analyze_vouch_quality (context : AgentContext) : result VouchQuality :=
  let vs := vouches context in
  let strong := count (level_in ["strong"; "maximum"]) vs in
  let basic := count (level_in ["basic"]) vs in
  match LoanAdvisor.sum_floats (map vouch_saathi_staked vs) 0 with
  | Raise e => Raise e
  | Ok total_staked =>
      let grade :=
        if (3 <=? strong) && Qle_bool 200 total_staked then "A"
        else if (2 <=? strong) || Qle_bool 100 total_staked then "B"
        else if (2 <=? length vs)%nat then "C"
        else "D" in
      Ok (mkQuality grade strong basic total_staked)
  end.

Record Prediction := mkPrediction {
  predicted_score : Z;
  change : Z;
  prediction_confidence : Q
}.

Definition _predict_trust_trajectory (context : AgentContext) : Prediction :=
  let current := trust_score context in
  let active_vouches := count is_active_vouch (vouches context) in
  let active_loans := count is_active_loan (loans context) in
  let predicted_change :=
    (if 0 <? active_loans then 5 else 0)
    + (if 0 <? active_vouches then 3 else 0)
    + (if (1 <? length (circles context))%nat then 2 else 0) in
  mkPrediction (Z.min (current + predicted_change) 100) predicted_change (7 # 10).

Definition tip (text gain difficulty : string) : value :=
  VDict [ ("tip", VStr text); ("potential_gain", VStr gain);
          ("difficulty", VStr difficulty) ].

Definition _generate_improvement_tips (context : AgentContext)
    (components : Components) : list value :=
  firstn 3
    ((if c_vouches components <? 20
      then [ tip "Ask circle members to vouch for you" "+5 to +15 points" "easy" ]
      else [])
     ++ (if (c_repayments components <? 20) && (length (loans context) =? 0)%nat
         then [ tip "Take a small loan and repay on time" "+10 points per loan"
                    "medium" ]
         else [])
     ++ (if c_learning components <? 10
         then [ tip "Complete financial literacy modules"
                    "+2 to +5 points per module" "easy" ]
         else [])
     ++ (if (length (circles context) <? 2)%nat
         then [ tip "Join or create another trust circle" "+5 points" "easy" ]
         else [])).

Definition _generate_bharosa_visual (score : Z) : dict :=
  let dots := Z.min (score / 10) 10 in
  let '(level, level_name, message, color) :=
    if 80 <=? score then
      ("pakka_bharosa", "Pakka Bharosa", "You are highly trusted!", "green")
    else if 60 <=? score then
      ("bhrosemand", "Bhrosemand", "People trust you well", "lime")
    else if 40 <=? score then
      ("building", "Building Trust", "Keep going, almost there!", "yellow")
    else if 20 <=? score then
      ("new", "New Member", "Get vouches to grow trust", "orange")
    else ("starting", "Just Started", "Join circles to begin", "gray") in
  [ ("score", VNum (inject_Z score)); ("level", VStr level);
    ("level_name", VStr level_name); ("message", VStr message);
    ("color", VStr color); ("green_dots", VNum (inject_Z dots));
    ("gray_dots", VNum (inject_Z (10 - dots)));
    ("display", VStr (pretty dots ++ " out of 10 people trust you")) ].

Definition components_dict (c : Components) : dict :=
  [ ("base", VNum (inject_Z (c_base c)));
    ("vouches", VNum (inject_Z (c_vouches c)));
    ("repayments", VNum (inject_Z (c_repayments c)));
    ("learning", VNum (inject_Z (c_learning c)));
    ("circle_participation", VNum (inject_Z (c_circle_participation c))) ].

Definition quality_dict (q : VouchQuality) : dict :=
  [ ("grade", VStr (grade q));
    ("strong_vouches", VNum (inject_Z (strong_vouches q)));
    ("basic_vouches", VNum (inject_Z (basic_vouches q)));
    ("total_staked", VNum (total_staked q)) ].

Definition prediction_dict (p : Prediction) : dict :=
  [ ("predicted_score", VNum (inject_Z (predicted_score p)));
    ("change", VNum (inject_Z (change p)));
    ("confidence", VNum (prediction_confidence p)) ].

Definition self_name : string := "TrustAnalyzer".

Definition execute_body (context : AgentContext) : Tr (AgentContext * AgentResult) :=
  bind (on_trace (fun t => observe t "Trust score" (95 # 100))) (fun _ =>
  let components := _calculate_trust_components context in
  bind (on_trace (fun t => analyze t "Trust breakdown" (88 # 100))) (fun _ =>
  bind (lift (_analyze_vouch_quality context)) (fun vouch_quality =>
  bind (on_trace (fun t => analyze t ("Vouch quality: " ++ grade vouch_quality)
                             (85 # 100))) (fun _ =>
  let prediction := _predict_trust_trajectory context in
  bind (on_trace (fun t => hypothesize t "30-day prediction"
                             (prediction_confidence prediction))) (fun _ =>
  let tips := _generate_improvement_tips context components in
  bind (on_trace (fun t => act t "Top tip" (82 # 100))) (fun _ =>
  let bharosa_visual := _generate_bharosa_visual (trust_score context) in
  bind (on_trace (fun t => conclude t "Trust level" (9 # 10))) (fun _ =>
  fun trace =>
    (trace,
     Ok (add_trace context trace,
         {| result_agent_name := self_name; success := true;
            result_data :=
              [ ("trust_score", VNum (inject_Z (trust_score context)));
                ("components", VDict (components_dict components));
                ("vouch_quality", VDict (quality_dict vouch_quality));
                ("prediction", VDict (prediction_dict prediction));
                ("tips", VList tips);
                ("bharosa_visual", VDict bharosa_visual) ];
            reasoning_trace := trace; next_agent := None; actions := [] |}))))))))).

Definition execute (context : AgentContext) : AgentContext * AgentResult :=
  let trace := new_trace self_name self_name "Trust analysis for user" in
  try_except self_name [] (3 # 10) trace context (execute_body context).

Definition TrustAnalyzerAgent : BaseAgent := mkAgent self_name execute.

End TrustAnalyzer.

(* ================================================================== *)
(** * ai/agents/action_agent.py                                         *)
(* ================================================================== *)

Module ActionAgent.
Import Json Engine.

(** [x.get(...)] on something that may not be a dict. *)
Definition as_dict (v : value) : result dict :=
  match v with
  | VDict d => Ok d
  | _ => Raise "AttributeError"
  end.

Definition _find_best_circle (circles : list Circle) : option Circle :=
  match circles with
  | [] => None
  | c :: _ => Some c
  end.

Definition no_circle : dict :=
  [ ("success", VBool false);
    ("message", VStr "You need to join a Circle first to get a loan.");
    ("action", VStr "NAVIGATE");
    ("target", VStr "/circles") ].

Definition guide_step (text target : string) : value :=
  VDict [ ("text", VStr text); ("target", VStr target); ("overlay", VBool true) ].

(** The draft returned for a user who is in a circle. *)
Definition loan_draft (best_circle : Circle) (draft_amount : value) : dict :=
  [ ("action", VStr "GUIDE_FLOW");
    ("screen", VStr "/loans/apply");
    ("state", VDict [ ("amount", draft_amount);
                      ("circle_id", of_option_str (circle_id best_circle));
                      ("purpose", VStr "Emergency Support") ]);
    ("guide_steps",
     VList [ guide_step "I've selected the circle for you." "#circle-select";
             guide_step "I've filled in your safe limit." "#amount-input";
             guide_step "Just click here to submit!" "#submit-btn" ]) ].

Definition _create_loan_draft (context : AgentContext) : Tr dict :=
  match _find_best_circle (circles context) with
  | None =>
      bind (on_trace (fun t => analyze t "No eligible circle found for loan." (8 # 10)))
           (fun _ => ret no_circle)
  | Some best_circle =>
      bind (on_trace (fun t => analyze t "Selected best circle" (8 # 10))) (fun _ =>
      let risk_res :=
        match agent_results context !! "RiskOracle" with
        | Some d => d
        | None => []
        end in
      bind (lift (as_dict (get risk_res "recommendation" (VDict [])))) (fun rec =>
      let max_amount := get rec "max_loan" (VNum 10000) in
      let draft_amount := max_amount in
      bind (on_trace (fun t => act t "Drafting loan application" (85 # 100))) (fun _ =>
      ret (loan_draft best_circle draft_amount))))
  end.

(** The intent the agent acts on. *)
Definition detect_intent (context : AgentContext) : value :=
  let intent :=
    match agent_results context !! "Nova" with
    | Some nova => get nova "intent" (VStr "general")
    | None => VStr "general"
    end in
  if negb (truthy intent) || is_str intent "general" then
    match agent_results context !! "intent" with
    | Some d => VDict d
    | None => VStr "general"
    end
  else intent.

Definition self_name : string := "ActionAgent".

Definition execute_body (context : AgentContext) : Tr (AgentContext * AgentResult) :=
  let intent := detect_intent context in
  bind (on_trace (fun t => observe t "Detected intent for action" (9 # 10))) (fun _ =>
  bind (if is_str intent "loan_request" then _create_loan_draft context
        else if is_str intent "check_score" then
          ret [ ("action", VStr "NAVIGATE"); ("target", VStr "/trust");
                ("message", VStr "Let's check your trust score.") ]
        else
          bind (on_trace (fun t =>
                  analyze t "No specific database action required for this intent."
                          (8 # 10)))
               (fun _ => ret []))
       (fun result_data =>
  bind (on_trace (fun t => conclude t "Action execution complete" (85 # 100))) (fun _ =>
  fun trace =>
    (trace,
     Ok (context,
         {| result_agent_name := self_name; success := true;
            result_data := result_data;
            reasoning_trace := trace; next_agent := None; actions := [] |}))))).

Definition execute (context : AgentContext) : AgentContext * AgentResult :=
  let trace := new_trace self_name self_name "Processing action for request" in
  try_except self_name [] 0 trace context (execute_body context).

Definition ActionAgentInstance : BaseAgent := mkAgent self_name execute.

End ActionAgent.

(* ================================================================== *)
(** * ai/agents/nova.py                                                 *)
(* ================================================================== *)

Module Nova.
Import Json Engine.

(** The language model behind Nova ([services/groq.py]): what
    [_detect_intent] gets back for a message (the parsed JSON, or the
    default it falls back to), and the reply it writes. *)
Record LLM := mkLLM {
  detect : string -> string -> result value;
  reply : AgentContext -> value -> result string
}.

(** [intent['intent']] *)
Definition intent_of (intent : value) : result value :=
  match intent with
  | VDict d => match lookup d "intent" with
               | Some v => Ok v
               | None => Raise "KeyError"
               end
  | _ => Raise "TypeError"
  end.

(** [intent.get('confidence', 0.8)] as the confidence of a step. *)
Definition intent_confidence (intent : value) : result Q :=
  match intent with
  | VDict d => match get d "confidence" (VNum (8 # 10)) with
               | VNum q => Ok q
               | _ => Raise "ValidationError"
               end
  | _ => Raise "AttributeError"
  end.

Definition self_name : string := "Nova".

Definition handoff (intent_name : value) (to : string) (trace : ReasoningTrace)
    : AgentResult :=
  {| result_agent_name := self_name; success := true;
     result_data := [ ("needs_specialist", VBool true); ("intent", intent_name) ];
     reasoning_trace := trace; next_agent := Some to; actions := [] |}.

Section With_llm.
Variable llm : LLM.

Definition execute_body (context : AgentContext) : Tr (AgentContext * AgentResult) :=
  let request := match current_request context with Some r => r | None => "" end in
  bind (on_trace (fun t => observe t "User says" (95 # 100))) (fun _ =>
  bind (lift (detect llm request (language context))) (fun intent =>
  bind (lift (intent_of intent)) (fun intent_name =>
  bind (lift (intent_confidence intent)) (fun confidence =>
  bind (on_trace (fun t => analyze t "Detected intent" confidence)) (fun _ =>
  if is_str intent_name "loan_request" || is_str intent_name "loan_inquiry" then
    bind (on_trace (fun t => hypothesize t "User asking about loans" (85 # 100)))
         (fun _ => fun trace =>
            (trace, Ok (context, handoff intent_name "LoanAdvisor" trace)))
  else if is_str intent_name "trust_score" || is_str intent_name "reputation" then
    bind (on_trace (fun t => hypothesize t "User asking about trust" (85 # 100)))
         (fun _ => fun trace =>
            (trace, Ok (context, handoff intent_name "TrustAnalyzer" trace)))
  else
    bind (on_trace (fun t => act t "Generating empathetic response" (9 # 10))) (fun _ =>
    bind (lift (reply llm context intent)) (fun response =>
    bind (on_trace (fun t => conclude t "Response ready" (88 # 100))) (fun _ =>
    fun trace =>
      (trace,
       Ok (add_trace context trace,
           {| result_agent_name := self_name; success := true;
              result_data := [ ("response", VStr response);
                               ("intent", intent_name);
                               ("language", VStr (language context)) ];
              reasoning_trace := trace; next_agent := None;
              actions := [] |})))))))))).

Definition execute (context : AgentContext) : AgentContext * AgentResult :=
  let trace := new_trace self_name self_name "Respond to" in
  try_except self_name [] (3 # 10) trace context (execute_body context).

Definition NovaAgent : BaseAgent := mkAgent self_name execute.
End With_llm.

End Nova.

(* ================================================================== *)
(** * ai/orchestrator.py                                                *)
(* ================================================================== *)

Module Orchestrator.
Import Json Engine.

(** [self.agents] *)
Record Agents := mkAgents {
  Nova : BaseAgent;
  RiskOracle : BaseAgent;
  FraudGuard : BaseAgent;
  LoanAdvisor : BaseAgent;
  TrustAnalyzer : BaseAgent;
  ActionAgent : BaseAgent
}.

(** [self.agents.get(name)] *)
Definition agent_named (agents : Agents) (n : string) : option BaseAgent :=
  if String.eqb n "Nova" then Some (Nova agents)
  else if String.eqb n "RiskOracle" then Some (RiskOracle agents)
  else if String.eqb n "FraudGuard" then Some (FraudGuard agents)
  else if String.eqb n "LoanAdvisor" then Some (LoanAdvisor agents)
  else if String.eqb n "TrustAnalyzer" then Some (TrustAnalyzer agents)
  else if String.eqb n "ActionAgent" then Some (ActionAgent agents)
  else None.

(** [self.workflows.get(intent)] *)
Definition workflows (intent : string) : option (list string) :=
  if String.eqb intent "loan_request"
  then Some [ "FraudGuard"; "RiskOracle"; "LoanAdvisor"; "ActionAgent" ]
  else if String.eqb intent "trust_inquiry"
  then Some [ "TrustAnalyzer"; "ActionAgent" ]
  else if String.eqb intent "vouch_request"
  then Some [ "FraudGuard"; "TrustAnalyzer" ]
  else if String.eqb intent "emergency_request"
  then Some [ "FraudGuard"; "RiskOracle"; "ActionAgent" ]
  else None.

(** The optional outer orchestration service ([services/mastra.py]):
    its configured address and what its loan workflow answers. *)
Record Mastra := mkMastra {
  mastra_service_url : string;
  run_loan_workflow : string -> Q -> string -> dict -> dict
}.

(** The state of a pipeline: the shared context, and the names of the
    agents whose [execute] has been called so far (each call adds one
    trace to that agent's own [traces]). *)
Definition PipelineState : Type := AgentContext * list string.

Definition run_agent (agents : Agents) (pick : Agents -> BaseAgent)
    (label : string) (st : PipelineState) : PipelineState * AgentResult :=
  let '(context', r) := execute (pick agents) (fst st) in
  ((context', snd st ++ [label]), r).

(** ** process_loan_request *)

(** The four [return] statements. *)
Inductive LoanResponse :=
| MastraDecision (approved approved_amount : value) (requested_amount : Q)
    (risk_category recommendation : value) (steps : list value)
| SecurityDecline (reason : string) (traces : list ReasoningTrace)
| Approval (approved_amount : value) (requested_amount : Q)
    (risk_category : value) (recommendation : dict) (traces : list ReasoningTrace)
| Decline (requested_amount : Q) (reason advice suggested_action : value)
    (traces : list ReasoningTrace).

(** The ["approved"] and ["approved_amount"] entries of the response. *)
Definition approved (r : LoanResponse) : value :=
  match r with
  | MastraDecision a _ _ _ _ _ => a
  | SecurityDecline _ _ => VBool false
  | Approval _ _ _ _ _ => VBool true
  | Decline _ _ _ _ _ => VBool false
  end.

Definition approved_amount (r : LoanResponse) : option value :=
  match r with
  | MastraDecision _ a _ _ _ _ => Some a
  | Approval a _ _ _ _ => Some a
  | _ => None
  end.

Definition as_dict := ActionAgent.as_dict.

(** [a < b] between numbers; anything else raises. *)
Definition num_lt (a b : value) : result bool :=
  match a, b with
  | VNum x, VNum y => Ok (if Qlt_le_dec x y then true else false)
  | VNum x, VReal y => Ok (if Rlt_dec (Q2R x) y then true else false)
  | VReal x, VNum y => Ok (if Rlt_dec x (Q2R y) then true else false)
  | VReal x, VReal y => Ok (if Rlt_dec x y then true else false)
  | _, _ => Raise "TypeError"
  end.

(** [min(a, b, c)]: the first of the smallest. *)
Definition py_min3 (a b c : value) : result value :=
  match num_lt b a with
  | Raise e => Raise e
  | Ok ba =>
      let m := if ba then b else a in
      match num_lt c m with
      | Raise e => Raise e
      | Ok cm => Ok (if cm then c else m)
      end
  end.

(** [for s in v]: the elements of a list, the keys of a dict, the
    characters of a string. *)
Definition iterate (v : value) : result (list value) :=
  match v with
  | VList l => Ok l
  | VDict d => Ok (map (fun kv => VStr (fst kv)) d)
  | VStr s => Ok (map (fun c => VStr (String c EmptyString)) (list_ascii_of_string s))
  | _ => Raise "TypeError"
  end.

(** [s['step'] for s in steps] *)
Fixpoint step_names (steps : list value) : result (list value) :=
  match steps with
  | [] => Ok []
  | VDict s :: rest =>
      match lookup s "step" with
      | None => Raise "KeyError"
      | Some n =>
          match step_names rest with
          | Ok ns => Ok (n :: ns)
          | Raise e => Raise e
          end
      end
  | _ :: _ => Raise "TypeError"
  end.

Definition status_count (s : string) (ls : list Loan) : Q :=
  inject_Z (Z.of_nat (length (List.filter (fun l => String.eqb (loan_status l) s) ls))).

Definition user_data (context : AgentContext) : dict :=
  [ ("trustScore", VNum (inject_Z (trust_score context)));
    ("completedLoans", VNum (status_count "completed" (loans context)));
    ("defaultedLoans", VNum (status_count "defaulted" (loans context)));
    ("activeVouches",
     VNum (inject_Z (Z.of_nat (length (List.filter
             (fun v => String.eqb (vouch_status v) "active") (vouches context))))));
    ("recentRequests", VNum 1);
    ("accountAgeDays", VNum 30) ].

(** The answer built from a successful Mastra run. *)
Definition mastra_response (mastra_result : dict) (amount : Q) : result LoanResponse :=
  match lookup mastra_result "result" with
  | None => Raise "KeyError"
  | Some res =>
      match as_dict res with
      | Raise e => Raise e
      | Ok res =>
          match iterate (get mastra_result "steps" (VList [])) with
          | Raise e => Raise e
          | Ok steps =>
              match step_names steps with
              | Raise e => Raise e
              | Ok names =>
                  Ok (MastraDecision (get res "approved" (VBool false))
                        (get res "approved_amount" (VNum 0)) amount
                        (get_none res "risk_category")
                        (get res "recommendation" (VDict [])) names)
              end
          end
      end
  end.

Section Pipelines.
Variable agents : Agents.
Variable mastra : Mastra.
(** [build_context]: the snapshot read from the store. *)
Variable build_context : string -> AgentContext.

(** The steps of [process_loan_request] after the Mastra attempt. *)
Definition local_loan_pipeline (context : AgentContext) (amount : Q)
    : list string * result LoanResponse :=
  let st : PipelineState := (context, []) in
  let '(st, fraud_result) := run_agent agents FraudGuard "FraudGuard" st in
  let all_traces := [ reasoning_trace fraud_result ] in
  if is_str (get_none (result_data fraud_result) "verdict") "BLOCK" then
    (snd st, Ok (SecurityDecline "Security check failed" all_traces))
  else
    let '(st, risk_result) := run_agent agents RiskOracle "RiskOracle" st in
    let all_traces := all_traces ++ [ reasoning_trace risk_result ] in
    let '(st, advisor_result) := run_agent agents LoanAdvisor "LoanAdvisor" st in
    let all_traces := all_traces ++ [ reasoning_trace advisor_result ] in
    (snd st,
     match as_dict (get (result_data advisor_result) "recommendation" (VDict [])) with
     | Raise e => Raise e
     | Ok recommendation =>
         let can_borrow := get recommendation "can_borrow" (VBool false) in
         if truthy can_borrow then
           match as_dict (get (result_data risk_result) "recommendation" (VDict [])) with
           | Raise e => Raise e
           | Ok risk_recommendation =>
               match py_min3 (VNum amount)
                             (get recommendation "max_amount" (VNum 0))
                             (get risk_recommendation "max_loan" (VNum 0)) with
               | Raise e => Raise e
               | Ok max_approved =>
                   Ok (Approval max_approved amount
                         (get_none (result_data risk_result) "risk_category")
                         recommendation all_traces)
               end
           end
         else
           Ok (Decline amount (get_none recommendation "reason")
                 (get_none recommendation "advice")
                 (get_none recommendation "suggested_action") all_traces)
     end).

Definition process_loan_request (user_id : string) (amount : Q)
    (purpose circle_id : string) : list string * result LoanResponse :=
  let context := build_context user_id in
  let context := set_current_request context "Loan request" in
  let after_mastra :=
    if negb (String.eqb (mastra_service_url mastra) "") then
      let mastra_result :=
        run_loan_workflow mastra user_id amount purpose (user_data context) in
      if truthy (get_none mastra_result "success")
      then Some (mastra_response mastra_result amount)
      else None
    else None in
  match after_mastra with
  | Some r => ([], r)
  | None => local_loan_pipeline context amount
  end.

(** ** process_vouch_request *)

Inductive VouchResponse :=
| VouchBlocked (reason : string) (traces : list ReasoningTrace)
| VouchAdvice (recommended : bool) (vouchee_trust_score : Z)
    (vouch_quality_grade : value) (traces : list ReasoningTrace).

Definition recommended (r : VouchResponse) : bool :=
  match r with
  | VouchBlocked _ _ => false
  | VouchAdvice b _ _ _ => b
  end.

Definition process_vouch_request (voucher_id vouchee_id circle_id vouch_level : string)
    : list string * result VouchResponse :=
  let context := build_context vouchee_id in
  let context := set_current_request context ("Vouch request: " ++ vouch_level ++ " level") in
  let st : PipelineState := (context, []) in
  let '(st, fraud_result) := run_agent agents FraudGuard "FraudGuard" st in
  let all_traces := [ reasoning_trace fraud_result ] in
  let verdict := get_none (result_data fraud_result) "verdict" in
  if is_str verdict "BLOCK" then
    (snd st, Ok (VouchBlocked "Security concerns with this user" all_traces))
  else
    let '(st, trust_result) := run_agent agents TrustAnalyzer "TrustAnalyzer" st in
    let all_traces := all_traces ++ [ reasoning_trace trust_result ] in
    (snd st,
     match as_dict (get (result_data trust_result) "vouch_quality" (VDict [])) with
     | Raise e => Raise e
     | Ok vouch_quality =>
         Ok (VouchAdvice (negb (is_str verdict "BLOCK"))
               (trust_score (fst st))
               (get vouch_quality "grade" (VStr "C"))
               all_traces)
     end).

(** ** _synthesize_response *)

(** [context.agent_results.get(name, {})] *)
Definition agent_result_of (context : AgentContext) (n : string) : dict :=
  match agent_results context !! n with
  | Some d => d
  | None => []
  end.

Definition _synthesize_response (context : AgentContext) : result dict :=
  let action_result := agent_result_of context "ActionAgent" in
  if truthy (get_none action_result "action") then
    Ok [ ("message", get action_result "message" (VStr "I'm on it!"));
         ("action", get_none action_result "action");
         ("target", get_none action_result "target");
         ("data", get_none action_result "state");
         ("guide_steps", get_none action_result "guide_steps") ]
  else if truthy (get_none (agent_result_of context "Nova") "response") then
    Ok [ ("message", get_none (agent_result_of context "Nova") "response") ]
  else if truthy (get_none (agent_result_of context "LoanAdvisor") "recommendation") then
    match as_dict (get_none (agent_result_of context "LoanAdvisor") "recommendation") with
    | Raise e => Raise e
    | Ok rec =>
        let msg :=
          if truthy (get_none rec "can_borrow")
          then get rec "explanation" (VStr "You can apply for a loan!")
          else get rec "advice" (VStr "Let me help you qualify.") in
        Ok [ ("message", msg) ]
    end
  else if truthy (get_none (agent_result_of context "TrustAnalyzer") "bharosa_visual") then
    match as_dict (get_none (agent_result_of context "TrustAnalyzer") "bharosa_visual") with
    | Raise e => Raise e
    | Ok visual =>
        match lookup visual "display", lookup visual "message" with
        | Some d, Some m => Ok [ ("message", VStr (str d ++ " - " ++ str m)) ]
        | _, _ => Raise "KeyError"
        end
    end
  else Ok [ ("message", VStr "How can I help you today?") ].

(** ** process_message, from the fallback to the local agents on *)

(** [self.workflows.get(intent, [next_agent_name])]: the key must be
    hashable. *)
Definition workflow_for (intent : value) (next_agent_name : string)
    : result (list string) :=
  match intent with
  | VStr i => Ok (match workflows i with Some w => w | None => [ next_agent_name ] end)
  | VList _ | VDict _ => Raise "TypeError"
  | _ => Ok [ next_agent_name ]
  end.

(** The [for agent_name in workflow] loop. *)
Fixpoint run_workflow (workflow : list string) (st : PipelineState)
    (all_traces : list ReasoningTrace) : PipelineState * list ReasoningTrace :=
  match workflow with
  | [] => (st, all_traces)
  | agent_name :: rest =>
      match agent_named agents agent_name with
      | Some agent =>
          let '(context', r) := execute agent (fst st) in
          let context' := set_agent_result context' agent_name (result_data r) in
          run_workflow rest (context', snd st ++ [agent_name])
                       (all_traces ++ [ reasoning_trace r ])
      | None => run_workflow rest st all_traces
      end
  end.

Record ChatResponse := mkChat {
  response : value;
  chat_action : value;
  chat_target : value;
  chat_guide_steps : value;
  chat_screen : value;
  chat_data : value;
  chat_traces : list ReasoningTrace;
  agents_used : list string;
  chat_intent : value
}.

Definition local_message_pipeline (context : AgentContext)
    : list string * result ChatResponse :=
  let st : PipelineState := (context, []) in
  let '(st, nova_result) := run_agent agents Nova "Nova" st in
  let st : PipelineState :=
    (set_agent_result (fst st) "Nova" (result_data nova_result), snd st) in
  let all_traces := [ reasoning_trace nova_result ] in
  let ran :=
    match next_agent nova_result with
    | Some next_agent_name =>
        match workflow_for (get (result_data nova_result) "intent" (VStr ""))
                           next_agent_name with
        | Raise e => Raise e
        | Ok workflow => Ok (run_workflow workflow st all_traces)
        end
    | None => Ok (st, all_traces)
    end in
  match ran with
  | Raise e => (snd st, Raise e)
  | Ok (st, all_traces) =>
      (snd st,
       match _synthesize_response (fst st) with
       | Raise e => Raise e
       | Ok final_response =>
           Ok {| response := get_none final_response "message";
                 chat_action := get_none final_response "action";
                 chat_target := get_none final_response "target";
                 chat_guide_steps := get_none final_response "guide_steps";
                 chat_screen := get_none final_response "screen";
                 chat_data := get_none final_response "data";
                 chat_traces := all_traces;
                 agents_used := map agent_name all_traces;
                 chat_intent := get_none (result_data nova_result) "intent" |}
       end)
  end.

(** ** The loan decision in the words of the specification *)

(** [m] is the minimum of [a], [x] and [y]. *)
Definition min_of (m a x y : Q) : Prop :=
  (m <= a /\ m <= x /\ m <= y)%Q /\ (m = a \/ m = x \/ m = y).

(** "If FraudGuard's verdict is BLOCK a decline is returned before
    RiskOracle and LoanAdvisor run; otherwise the approved flag equals
    LoanAdvisor's can_borrow, and when approved the approved amount is the
    minimum of the requested amount, LoanAdvisor's max_amount and
    RiskOracle's max_loan."  [out] is what the pipeline returned for the
    request: the agents that ran, and the response. *)
Definition follows_local_agents (context : AgentContext) (amount : Q)
    (out : list string * result LoanResponse) : Prop :=
  let fraud := execute (FraudGuard agents) context in
  let risk := execute (RiskOracle agents) (fst fraud) in
  let advisor := execute (LoanAdvisor agents) (fst risk) in
  let verdict := get_none (result_data (snd fraud)) "verdict" in
  (is_str verdict "BLOCK" = true ->
   out = ([ "FraudGuard" ],
          Ok (SecurityDecline "Security check failed"
                [ reasoning_trace (snd fraud) ]))) /\
  (is_str verdict "BLOCK" = false ->
   fst out = [ "FraudGuard"; "RiskOracle"; "LoanAdvisor" ] /\
   forall recommendation,
     get (result_data (snd advisor)) "recommendation" (VDict []) = VDict recommendation ->
     let can_borrow := truthy (get recommendation "can_borrow" (VBool false)) in
     (can_borrow = false ->
      exists resp, snd out = Ok resp /\ approved resp = VBool false /\
                   approved_amount resp = None) /\
     (can_borrow = true ->
      forall risk_recommendation x y,
        get (result_data (snd risk)) "recommendation" (VDict [])
          = VDict risk_recommendation ->
        get recommendation "max_amount" (VNum 0) = VNum x ->
        get risk_recommendation "max_loan" (VNum 0) = VNum y ->
        exists resp m, snd out = Ok resp /\ approved resp = VBool true /\
                       approved_amount resp = Some (VNum m) /\
                       min_of m amount x y)).

(** The context a loan request is processed on. *)
Definition loan_context (user_id : string) : AgentContext :=
  set_current_request (build_context user_id) "Loan request".

Definition loan_decision_follows_agents (user_id : string) (amount : Q)
    (purpose circle_id : string) : Prop :=
  follows_local_agents (loan_context user_id) amount
    (process_loan_request user_id amount purpose circle_id).

(** No Mastra address is configured, or its workflow did not report
    success. *)
Definition mastra_skipped (user_id : string) (amount : Q) (purpose : string) : Prop :=
  mastra_service_url mastra = "" \/
  truthy (get_none (run_loan_workflow mastra user_id amount purpose
                      (user_data (loan_context user_id))) "success") = false.

End Pipelines.

(** [AgentOrchestrator.__init__]: the six agents, given the clock, the
    signer of the oracle payload and the language model. *)
Definition kredefy_agents (now : Z) (sign : dict -> result string)
    (llm : Nova.LLM) : Agents :=
  {| Nova := Nova.NovaAgent llm;
     RiskOracle := RiskOracle.RiskOracleAgent now sign;
     FraudGuard := FraudGuard.FraudGuardAgent now;
     LoanAdvisor := LoanAdvisor.LoanAdvisorAgent;
     TrustAnalyzer := TrustAnalyzer.TrustAnalyzerAgent;
     ActionAgent := ActionAgent.ActionAgentInstance |}.

End Orchestrator.

(* ================================================================== *)
(** * domain/services.py (PaymentDomainService), api/v1/payments.py,
      services/supabase.py                                             *)
(* ================================================================== *)

Module Payments.
Import Json Engine.

(** ** The store *)

(** The rows that repayments are concerned with.  [all_loans] is the
    list of that name in [loans.json] and [profiles] the values of
    [profile_cache.json]; the calls to the Supabase client, each inside
    [try ... except: pass], are taken to fail, which leaves these files
    as the store.  [repayments] are the repayment records, which no
    method of [SupabaseService] reads or writes.  [gamification] logs the
    events handed to [services/gamification.py]. *)
Record Store := mkStore {
  all_loans : list dict;
  profiles : list dict;
  repayments : list dict;
  gamification : list (value * string)
}.

(** A call that reads or writes the store and may raise. *)
Definition St (A : Type) : Type := Store -> Store * result A.

Definition ret {A} (a : A) : St A := fun s => (s, Ok a).
Definition raise {A} (e : string) : St A := fun s => (s, Raise e).
Definition lift {A} (r : result A) : St A := fun s => (s, r).
Definition bind {A B} (m : St A) (k : A -> St B) : St B :=
  fun s => match m s with
           | (s', Ok a) => k a s'
           | (s', Raise e) => (s', Raise e)
           end.

(** [d[k] = v]: an existing key keeps its place. *)
Fixpoint set_key (d : dict) (k : string) (v : value) : dict :=
  match d with
  | [] => [ (k, v) ]
  | (k', v') :: d' =>
      if String.eqb k' k then (k', v) :: d' else (k', v') :: set_key d' k v
  end.

(** [d.update(updates)] *)
Definition dict_update (d updates : dict) : dict :=
  fold_left (fun d kv => set_key d (fst kv) (snd kv)) updates d.

(** [v[k]] *)
Definition getitem (v : value) (k : string) : result value :=
  match v with
  | VDict d => match lookup d k with
               | Some x => Ok x
               | None => Raise "KeyError"
               end
  | _ => Raise "TypeError"
  end.

(** [a == b] on ids: strings, numbers and [None]. *)
Definition id_eqb (a b : value) : bool :=
  match a, b with
  | VStr x, VStr y => String.eqb x y
  | VNum x, VNum y => Qeq_bool x y
  | VNone, VNone => true
  | _, _ => false
  end.

(** ** services/supabase.py: the methods the payment code looks up *)

(** The loop of [update_loan]: the first loan with the given id is
    updated in place and becomes the target. *)
Fixpoint update_first (loans : list dict) (loan_id : value) (updates : dict)
    : result (list dict * option dict) :=
  match loans with
  | [] => Ok ([], None)
  | l :: rest =>
      match getitem (VDict l) "id" with
      | Raise e => Raise e
      | Ok id =>
          if id_eqb id loan_id
          then let l' := dict_update l updates in Ok (l' :: rest, Some l')
          else match update_first rest loan_id updates with
               | Raise e => Raise e
               | Ok (rest', target) => Ok (l :: rest', target)
               end
      end
  end.

(** [SupabaseService.update_loan(loan_id, updates)] *)
Definition update_loan_body (args : list value) : St value :=
  fun s =>
    match args with
    | [ loan_id; VDict updates ] =>
        match update_first (all_loans s) loan_id updates with
        | Raise e => (s, Raise e)
        | Ok (loans', Some target) =>
            if truthy (VDict target)
            then ({| all_loans := loans'; profiles := profiles s;
                     repayments := repayments s;
                     gamification := gamification s |}, Ok (VDict target))
            else (s, Ok (VDict []))
        | Ok (_, None) => (s, Ok (VDict []))
        end
    | _ => (s, Raise "TypeError")
    end.

(** The profiles whose id reads like [user_id]; the first of them gets
    the new score. *)
Fixpoint set_first_score (ps : list dict) (user_id new_score : value) : list dict :=
  match ps with
  | [] => []
  | p :: rest =>
      if String.eqb (str (get_none p "id")) (str user_id)
      then set_key p "trust_score" new_score :: rest
      else p :: set_first_score rest user_id new_score
  end.

(** [SupabaseService.update_trust_score(user_id, new_score, reason)]:
    the score is set, not changed by a delta. *)
Definition update_trust_score_body (args : list value) : St value :=
  fun s =>
    match args with
    | [ user_id; new_score; reason ] =>
        ({| all_loans := all_loans s;
            profiles := set_first_score (profiles s) user_id new_score;
            repayments := repayments s;
            gamification := gamification s |}, Ok VNone)
    | _ => (s, Raise "TypeError")
    end.

(** The attributes of [supabase_service] that [process_repayment] and
    the webhook tasks look up. *)
Inductive Attr :=
| get_loan
| create_repayment
| update_repayment
| update_trust_score
| get_loan_repayments
| update_loan.

(** A method: the number of its parameters after [self], and its body. *)
Record Method := mkMethod {
  params : nat;
  run : list value -> St value
}.

(** [getattr(supabase_service, name)].  [class SupabaseService] defines
    [update_loan] and [update_trust_score]; it defines no [get_loan],
    [create_repayment], [update_repayment] or [get_loan_repayments], and
    no [__getattr__]. *)
Definition supabase_service (name : Attr) : option Method :=
  match name with
  | update_loan => Some (mkMethod 2 update_loan_body)
  | update_trust_score => Some (mkMethod 3 update_trust_score_body)
  | get_loan | create_repayment | update_repayment | get_loan_repayments => None
  end.

(** [await supabase_service.name(args)]: a missing attribute raises
    [AttributeError], a wrong number of arguments [TypeError]. *)
Definition call (name : Attr) (args : list value) : St value :=
  fun s =>
    match supabase_service name with
    | None => (s, Raise "AttributeError")
    | Some m =>
        if (length args =? params m)%nat then run m args s
        else (s, Raise "TypeError")
    end.

(** [gamification_service.process_event(user_id, 'repayment', ...)] *)
Definition process_event (user : value) (event : string) : St unit :=
  fun s =>
    ({| all_loans := all_loans s; profiles := profiles s;
        repayments := repayments s;
        gamification := gamification s ++ [ (user, event) ] |}, Ok tt).

(** The blockchain service, when there is one: whether it can sign, and
    the hash (or the empty string) its two calls return. *)
Record Chain := mkChain {
  is_configured : bool;
  record_repayment : string -> Z -> result string;
  mark_loan_completed : string -> result string
}.

(** The dict that [process_repayment] returns. *)
Record Receipt := mkReceipt {
  receipt_repayment : value;
  total_repaid : Py64.float;
  receipt_loan_status : value
}.

Section With_environment.
(** [get_advanced_blockchain_service()] *)
Variable blockchain : option Chain.
(** The number a string denotes for [Decimal(s)] and for [float(s)],
    if it denotes one. *)
Variable decimal_of_str : string -> option Q.
Variable float_of_str : string -> option Py64.float.

(** [Decimal(str(v))] *)
Definition decimal_of (v : value) : result Q :=
  match v with
  | VNum q => Ok q
  | VStr s => match decimal_of_str s with
              | Some q => Ok q
              | None => Raise "InvalidOperation"
              end
  | _ => Raise "InvalidOperation"
  end.

(** [float(v)] for a value of a row. *)
Definition float_of (v : value) : result Py64.float :=
  match v with
  | VNum q => match Py64.of_Q q with
              | S754_infinity _ => Raise "OverflowError"
              | x => Ok x
              end
  | VBool b => Ok (Py64.lit (if b then 1 else 0))
  | VStr s => match float_of_str s with
              | Some x => Ok x
              | None => Raise "ValueError"
              end
  | _ => Raise "TypeError"
  end.

(** [sum(float(r["amount"]) for r in repayments)] *)
Fixpoint sum_amounts (rows : list value) (acc : Py64.float) : result Py64.float :=
  match rows with
  | [] => Ok acc
  | r :: rows =>
      match getitem r "amount" with
      | Raise e => Raise e
      | Ok a => match float_of a with
                | Raise e => Raise e
                | Ok x => sum_amounts rows (Py64.add acc x)
                end
      end
  end.

Definition rows_of (v : value) : result (list value) :=
  match v with
  | VList rows => Ok rows
  | _ => Raise "TypeError"
  end.

(** [blockchain and blockchain.is_configured] *)
Definition chain_ready : option Chain :=
  match blockchain with
  | Some chain => if is_configured chain then Some chain else None
  | None => None
  end.

(** [PaymentDomainService.process_repayment] *)
Definition process_repayment (loan_id : value) (amount : Q)
    (dodo_payment_id : value) : St Receipt :=
  bind (call get_loan [ loan_id ]) (fun loan =>
  if negb (truthy loan) then raise "ValueError" else
  (* 1. Create repayment record *)
  bind (call create_repayment
          [ VDict [ ("loan_id", VStr (str loan_id));
                    ("amount", VNum amount);
                    ("dodo_payment_id", dodo_payment_id);
                    ("status", VStr "completed") ] ]) (fun repayment =>
  (* 2. Record on blockchain *)
  bind (lift (match chain_ready with
              | Some chain =>
                  match record_repayment chain (str loan_id) (Py.int_of amount) with
                  | Ok h => Ok (VStr h)
                  | Raise e => Raise e
                  end
              | None => Ok VNone
              end)) (fun tx_hash =>
  bind (if truthy tx_hash
        then bind (lift (getitem repayment "id")) (fun id =>
             call update_repayment
                  [ id; VDict [ ("blockchain_tx_hash", tx_hash) ] ])
        else ret VNone) (fun _ =>
  (* 3. Update trust score *)
  bind (lift (getitem loan "borrower_id")) (fun borrower_id =>
  bind (call update_trust_score
          [ borrower_id; VNum 5; VStr "On-time repayment"; tx_hash ]) (fun _ =>
  (* 4. Check if loan is fully repaid *)
  bind (call get_loan_repayments [ loan_id ]) (fun repayments =>
  bind (lift (rows_of repayments)) (fun rows =>
  bind (lift (sum_amounts rows Py64.zero)) (fun total_repaid =>
  bind (lift (getitem loan "amount")) (fun principal =>
  bind (lift (float_of principal)) (fun principal =>
  bind (if Py64.leb (Py64.mul principal (Py64.of_Q (11 # 10))) total_repaid
        then bind (call update_loan
                     [ loan_id; VDict [ ("status", VStr "completed") ] ]) (fun _ =>
             match chain_ready with
             | Some chain =>
                 lift (match mark_loan_completed chain (str loan_id) with
                       | Ok _ => Ok VNone
                       | Raise e => Raise e
                       end)
             | None => ret VNone
             end)
        else ret VNone) (fun _ =>
  bind (lift (getitem loan "status")) (fun loan_status =>
  ret (mkReceipt repayment total_repaid loan_status)))))))))))))).

(** [d.get(k, default)] on a value that need not be a dict. *)
Definition get_attr (v : value) (k : string) (default : value) : result value :=
  match v with
  | VDict d => Ok (get d k default)
  | _ => Raise "AttributeError"
  end.

(** The body of [try:] in [process_payment_completed]. *)
Definition payment_completed_body (payment_data : value) : St unit :=
  bind (lift (get_attr payment_data "metadata" (VDict []))) (fun metadata =>
  bind (lift (get_attr metadata "loan_id" VNone)) (fun loan_id =>
  bind (lift (get_attr metadata "user_id" VNone)) (fun user_id =>
  bind (lift (get_attr payment_data "amount" (VNum 0))) (fun paise =>
  bind (lift (decimal_of paise)) (fun paise =>
  let amount := (paise / 100)%Q in
  if truthy loan_id then
    bind (lift (get_attr payment_data "id" VNone)) (fun payment_id =>
    bind (process_repayment loan_id amount payment_id) (fun result =>
    (* TRIGGER GAMIFICATION *)
    if truthy user_id
    then fun s => match process_event user_id "repayment" s with
                  | (s', Ok _) => (s', Ok tt)
                  | (s', Raise _) => (s', Ok tt)
                  end
    else ret tt))
  else ret tt))))).

(** The background task for a completed payment; whatever is raised
    inside is logged and dropped. *)
Definition process_payment_completed (s : Store) (payment_data : value) : Store :=
  fst (payment_completed_body payment_data s).

(** The body of [try:] in [process_payment_failed].  The method is
    looked up before its argument is built. *)
Definition payment_failed_body (payment_data : value) : St unit :=
  bind (lift (get_attr payment_data "metadata" (VDict []))) (fun metadata =>
  bind (lift (get_attr metadata "loan_id" VNone)) (fun loan_id =>
  if truthy loan_id then
    match supabase_service create_repayment with
    | None => raise "AttributeError"
    | Some _ =>
        bind (lift (get_attr payment_data "amount" (VNum 0))) (fun paise =>
        bind (lift (match paise with
                    | VNum q => Ok (VNum (q / 100))
                    | VBool b => Ok (VNum ((if b then 1 else 0) / 100))
                    | _ => Raise "TypeError"
                    end)) (fun amount =>
        bind (lift (get_attr payment_data "id" VNone)) (fun payment_id =>
        bind (call create_repayment
                [ VDict [ ("loan_id", loan_id); ("amount", amount);
                          ("dodo_payment_id", payment_id);
                          ("status", VStr "failed") ] ]) (fun _ =>
        ret tt))))
    end
  else ret tt)).

(** The background task for a failed payment. *)
Definition process_payment_failed (s : Store) (payment_data : value) : Store :=
  fst (payment_failed_body payment_data s).

(** A delivery to [POST /payments/webhook]: whether [X-Dodo-Signature]
    is the HMAC of the raw body, and the body as [json.loads] reads it
    ([None] when it is not JSON). *)
Record Delivery := mkDelivery {
  signature_valid : bool;
  body : option value
}.

Inductive WebhookReply :=
| Unauthorized   (* 401 "Invalid signature" *)
| ServerError    (* 500: an exception left the handler *)
| Received.      (* {"received": True, ...} *)

(** [handle_webhook], with its background task run to the end. *)
Definition handle_webhook (s : Store) (d : Delivery) : Store * WebhookReply :=
  if signature_valid d then
    match body d with
    | Some (VDict data) =>
        let event_type := get_none data "type" in
        let payment_data := get data "data" (VDict []) in
        match get_attr payment_data "id" VNone with
        | Raise _ => (s, ServerError)
        | Ok _ =>
            if is_str event_type "payment.completed"
            then (process_payment_completed s payment_data, Received)
            else if is_str event_type "payment.failed"
            then (process_payment_failed s payment_data, Received)
            else (s, Received)
        end
    | _ => (s, ServerError)
    end
  else (s, Unauthorized).

(** The payment id a delivery carries. *)
Definition payment_id_of (d : Delivery) : value :=
  match body d with
  | Some (VDict data) =>
      match get data "data" (VDict []) with
      | VDict payment_data => get_none payment_data "id"
      | _ => VNone
      end
  | _ => VNone
  end.

(** The store after the same delivery has been handled [n] times. *)
Fixpoint redeliver (n : nat) (s : Store) (d : Delivery) : Store :=
  match n with
  | O => s
  | S n => redeliver n (fst (handle_webhook s d)) d
  end.

End With_environment.

(** ** The webhook of scenario 6 *)

(** Loan L of 5000 to borrower u1, whose trust score is 55, with the
    repayment of payment p-42 on record. *)
Definition store_with_repayment : Store :=
  {| all_loans := [ [ ("id", VStr "L"); ("borrower_id", VStr "u1");
                      ("amount", VNum 5000); ("status", VStr "repaying") ] ];
     profiles := [ [ ("id", VStr "u1"); ("trust_score", VNum 55) ] ];
     repayments := [ [ ("id", VStr "r1"); ("loan_id", VStr "L");
                       ("amount", VNum 550); ("dodo_payment_id", VStr "p-42");
                       ("status", VStr "completed") ] ];
     gamification := [] |}.

(** Payment p-42, completed, 55000 paise, for loan L. *)
Definition delivery_p42 : Delivery :=
  {| signature_valid := true;
     body := Some (VDict
               [ ("type", VStr "payment.completed");
                 ("data", VDict [ ("id", VStr "p-42");
                                  ("amount", VNum 55000);
                                  ("metadata", VDict [ ("loan_id", VStr "L");
                                                       ("user_id", VStr "u1") ]) ]) ]) |}.

End Payments.

(* ================================================================== *)
(** * api/v1/loans.py: vote_on_loan                                     *)
(* ================================================================== *)

Module LoansApi.
Import Governance.

(** A row of [loan_votes] as [vote_on_loan] reads it back: [tokens] is
    [None] when the row has no [tokens_spent] entry. *)
Record LoanVoteRow := mkVoteRow {
  row_voter_id : string;
  row_vote : bool;
  row_tokens : option Z
}.

(** [vote_data]: the row written for a request.  The request model
    [LoanVote] has the single field [vote], so both [hasattr] tests fail
    and the vote spends the default of one token. *)
Definition vote_data (user_id : string) (request_vote : bool) : LoanVoteRow :=
  {| row_voter_id := user_id; row_vote := request_vote; row_tokens := Some 1%Z |}.

(** The list comprehension "convert to quadratic voting format". *)
Definition qv_votes (votes : list LoanVoteRow) : list Vote :=
  map (fun v => {| voter_id := row_voter_id v;
                   tokens_spent := match row_tokens v with
                                   | Some t => t
                                   | None => 1%Z
                                   end;
                   vote := if row_vote v then "for" else "against" |})
      votes.

(** The tally [vote_on_loan] takes after a vote was recorded; the loan
    becomes "approved" when its [approved] entry is true. *)
Definition qv_result (votes : list LoanVoteRow) : Tally :=
  tally_votes quadratic_voting_service (qv_votes votes).

(** The number of rows that vote for the loan. *)
Definition votes_for (votes : list LoanVoteRow) : nat :=
  length (List.filter row_vote votes).

End LoansApi.

(* ================================================================== *)
(** * Concrete users and requests                                       *)
(* ================================================================== *)

Module Scenarios.
Import Json Engine.

Definition blank_context (user : string) (trust : Z) : AgentContext :=
  {| user_id := user; trust_score := trust; saathi_balance := 0;
     circles := []; loans := []; vouches := []; financial_diary := [];
     language := "en"; current_request := None; agent_results := ∅;
     reasoning_traces := [] |}.

(** A user whose only diary entry is an income row with a null amount. *)
Definition null_income_context : AgentContext :=
  {| user_id := "u-null"; trust_score := 50; saathi_balance := 0;
     circles := []; loans := []; vouches := [];
     financial_diary := [ mkEntry "income" None (Some 0%Z) ];
     language := "en"; current_request := None; agent_results := ∅;
     reasoning_traces := [] |}.

(** A user with exactly two income entries, both of 100 and both
    recorded a day before [now = 100 days]. *)
Definition now_day_100 : Z := 100 * 86400.
Definition two_incomes_context : AgentContext :=
  {| user_id := "u-two"; trust_score := 50; saathi_balance := 0;
     circles := []; loans := []; vouches := [];
     financial_diary :=
       [ mkEntry "income" (Some 100%Q) (Some (99 * 86400)%Z);
         mkEntry "income" (Some 100%Q) (Some (99 * 86400)%Z) ];
     language := "en"; current_request := None; agent_results := ∅;
     reasoning_traces := [] |}.

(** The outer services of the scenarios: a signer that returns a fixed
    digest, a language model that reads every message as a loan request,
    no Mastra service, and a Mastra service that approves every loan in
    full. *)
Definition fixed_signer (payload : dict) : result string := Ok "digest".

Definition loan_llm : Nova.LLM :=
  {| Nova.detect := fun _ _ =>
       Ok (VDict [ ("intent", VStr "loan_request"); ("confidence", VNum (9 # 10)) ]);
     Nova.reply := fun _ _ => Ok "reply" |}.

Definition agents_at (now : Z) : Orchestrator.Agents :=
  Orchestrator.kredefy_agents now fixed_signer loan_llm.

Definition no_mastra : Orchestrator.Mastra :=
  {| Orchestrator.mastra_service_url := "";
     Orchestrator.run_loan_workflow := fun _ _ _ _ => [] |}.

Definition approving_mastra : Orchestrator.Mastra :=
  {| Orchestrator.mastra_service_url := "http://localhost:4000";
     Orchestrator.run_loan_workflow := fun _ amount _ _ =>
       [ ("success", VBool true);
         ("result", VDict [ ("approved", VBool true);
                            ("approved_amount", VNum amount) ]) ] |}.

(** A store in which every user is new, with trust score 10. *)
Definition newcomers (user : string) : AgentContext := blank_context user 10.

(** The context as it stands when ActionAgent runs in a loan_request
    pipeline: the user is in circle c1, Nova has handed the request on and
    RiskOracle has recommended at most 10000. *)
Definition draft_context : AgentContext :=
  {| user_id := "u-draft"; trust_score := 50; saathi_balance := 0;
     circles := [ mkCircle (Some "c1") (Some "Family") None (Some 5%Q) ];
     loans := []; vouches := []; financial_diary := [];
     language := "en"; current_request := Some "I need a loan urgently";
     agent_results :=
       {[ "Nova" := [ ("needs_specialist", VBool true);
                      ("intent", VStr "loan_request") ];
          "RiskOracle" := [ ("risk_category", VStr "ELEVATED_RISK");
                            ("recommendation",
                             VDict [ ("action", VStr "APPROVE_LIMITED");
                                     ("max_loan", VNum 10000) ]) ] ]};
     reasoning_traces := [] |}.

(** A member of circle c1 who writes to the chat. *)
Definition member_context : AgentContext :=
  {| user_id := "u-member"; trust_score := 50; saathi_balance := 0;
     circles := [ mkCircle (Some "c1") (Some "Family") None (Some 5%Q) ];
     loans := []; vouches := []; financial_diary := [];
     language := "en"; current_request := Some "I need a loan urgently";
     agent_results := ∅; reasoning_traces := [] |}.

(** A user with trust score 50 whose single vouch, by u9, is active and
    has a null stake. *)
Definition one_vouch_context : AgentContext :=
  {| user_id := "u-vouched"; trust_score := 50; saathi_balance := 0;
     circles := []; loans := [];
     vouches := [ mkVouch "u9" "active" (Some "basic") None ];
     financial_diary := [];
     language := "en"; current_request := None; agent_results := ∅;
     reasoning_traces := [] |}.

(** A user who is repaying a loan of 20000 with a weekly EMI of 500. *)
Definition indebted_context : AgentContext :=
  {| user_id := "u-debt"; trust_score := 60; saathi_balance := 0;
     circles := [];
     loans := [ mkLoan "repaying" (Some 20000%Q) (Some 500%Q) (Some 0%Z) ];
     vouches := []; financial_diary := [];
     language := "en"; current_request := None; agent_results := ∅;
     reasoning_traces := [] |}.

(** A short run of trace operations that ends with [conclude]. *)
Definition concluded_ops : list trace_op :=
  [ Thought OBSERVATION "seen" (95 # 100);
    Thought ANALYSIS "thought" (8 # 10);
    Conclude "done" (88 # 100) ].

End Scenarios.

(* ================================================================== *)
(** * Theorems                                                          *)
(* ================================================================== *)

Section GovernanceFacts.
Import Governance.
Local Open Scope R_scope.

Lemma calculate_vote_power_sqrt (t : Z) :
  calculate_vote_power t = sqrt (IZR t).
Proof.
  unfold calculate_vote_power.
  destruct (Z.leb_spec t 0) as [Hle|Hlt]; [|reflexivity].
  symmetry. apply sqrt_neg_0. apply IZR_le in Hle. exact Hle.
Qed.

Lemma calculate_vote_power_nonneg (t : Z) : 0 <= calculate_vote_power t.
Proof. rewrite calculate_vote_power_sqrt. apply sqrt_pos. Qed.

Lemma side_power_nonneg side votes : 0 <= side_power side votes.
Proof.
  unfold side_power.
  induction votes as [|v votes IH]; simpl; [lra|].
  destruct (String.eqb (vote v) side); simpl; [|exact IH].
  pose proof (sqrt_pos (IZR (tokens_spent v))). lra.
Qed.

Lemma side_power_cons side v votes :
  side_power side (v :: votes) =
  (if String.eqb (vote v) side then sqrt (IZR (tokens_spent v)) else 0)
  + side_power side votes.
Proof.
  unfold side_power. simpl.
  destruct (String.eqb (vote v) side); simpl; lra.
Qed.

Lemma side_power_app side l1 l2 :
  side_power side (l1 ++ l2) = side_power side l1 + side_power side l2.
Proof.
  induction l1 as [|v l1 IH]; [unfold side_power at 2; simpl; lra|].
  simpl app. rewrite !side_power_cons, IH. lra.
Qed.

(** The loop of [tally_votes] computes the two side sums. *)
Lemma tally_loop votes : forall acc,
  fold_left tally_step votes acc =
  (fst acc + side_power "for" votes, snd acc + side_power "against" votes).
Proof.
  induction votes as [|v votes IH]; intros [f a].
  - unfold side_power. simpl. f_equal; lra.
  - simpl fold_left. rewrite IH, !side_power_cons.
    unfold tally_step. rewrite calculate_vote_power_sqrt. simpl fst; simpl snd.
    destruct (String.eqb_spec (vote v) "for") as [E|NE].
    + rewrite E. simpl. f_equal; lra.
    + destruct (String.eqb_spec (vote v) "against") as [E'|NE'];
        simpl; f_equal; lra.
Qed.

Lemma tally_powers votes :
  fold_left tally_step votes (0, 0) =
  (side_power "for" votes, side_power "against" votes).
Proof. rewrite tally_loop. simpl. f_equal; lra. Qed.

Lemma raw_approval_share votes :
  raw_approval (side_power "for" votes, side_power "against" votes)
  = approval_share votes.
Proof.
  unfold raw_approval, approval_share. simpl.
  pose proof (side_power_nonneg "for" votes) as Hf.
  pose proof (side_power_nonneg "against" votes) as Ha.
  destruct (Rlt_dec 0 _) as [Hpos|Hnpos]; [reflexivity|].
  assert (E : side_power "for" votes + side_power "against" votes = 0) by lra.
  rewrite E. unfold Rdiv. rewrite Rinv_0. lra.
Qed.

(** ** Rounding is monotone *)

Lemma round_half_even_bounds x :
  (Zfloor x <= Py.round_half_even x <= Zfloor x + 1)%Z.
Proof.
  unfold Py.round_half_even.
  destruct (Rlt_dec _ _); [lia|].
  destruct (Rlt_dec _ _); [lia|].
  destruct (Z.even _); lia.
Qed.

Lemma round_half_even_mono x y :
  x <= y -> (Py.round_half_even x <= Py.round_half_even y)%Z.
Proof.
  intros Hxy.
  pose proof (Zfloor_le x y Hxy) as Hf.
  destruct (Z.eq_dec (Zfloor x) (Zfloor y)) as [E|NE].
  - unfold Py.round_half_even. rewrite E.
    assert (x - IZR (Zfloor y) <= y - IZR (Zfloor y)) by lra.
    repeat (destruct (Rlt_dec _ _)); try lia; try lra;
      destruct (Z.even (Zfloor y)); lia.
  - pose proof (round_half_even_bounds x). pose proof (round_half_even_bounds y).
    lia.
Qed.

Lemma round2_mono x y : x <= y -> Py.round2 x <= Py.round2 y.
Proof.
  intros Hxy. unfold Py.round2.
  assert (H : (Py.round_half_even (x * 100) <= Py.round_half_even (y * 100))%Z)
    by (apply round_half_even_mono; lra).
  apply IZR_le in H. lra.
Qed.

(** ** Adding power to one side *)

Lemma frac_le a b c d : 0 < b -> 0 < d -> a * d <= c * b -> a / b <= c / d.
Proof.
  intros Hb Hd H.
  assert (E : c / d - a / b = (c * b - a * d) / (b * d)) by (field; lra).
  assert (0 <= (c * b - a * d) / (b * d)).
  { apply Rmult_le_pos; [lra|]. left. apply Rinv_0_lt_compat. nra. }
  lra.
Qed.

Lemma raw_approval_for_mono f a p :
  0 <= f -> 0 <= a -> 0 <= p ->
  raw_approval (f, a) <= raw_approval (f + p, a).
Proof.
  intros Hf Ha Hp. unfold raw_approval. simpl.
  destruct (Rlt_dec 0 (f + a)) as [H1|H1];
    destruct (Rlt_dec 0 (f + p + a)) as [H2|H2]; try lra.
  - apply Rmult_le_compat_r; [lra|]. apply frac_le; nra.
  - apply Rmult_le_pos; [|lra]. apply Rmult_le_pos; [lra|].
    left. apply Rinv_0_lt_compat. lra.
Qed.

Lemma raw_approval_against_mono f a p :
  0 <= f -> 0 <= a -> 0 <= p ->
  raw_approval (f, a + p) <= raw_approval (f, a).
Proof.
  intros Hf Ha Hp. unfold raw_approval. simpl.
  destruct (Rlt_dec 0 (f + a)) as [H1|H1];
    destruct (Rlt_dec 0 (f + (a + p))) as [H2|H2]; try lra.
  - apply Rmult_le_compat_r; [lra|]. apply frac_le; nra.
  - assert (f = 0) by lra. subst f. unfold Rdiv. lra.
Qed.

Lemma tally_append votes v :
  fold_left tally_step (votes ++ [v]) (0, 0) =
  tally_step (side_power "for" votes, side_power "against" votes) v.
Proof. rewrite fold_left_app, tally_powers. reflexivity. Qed.

Lemma approval_percentage_unfold svc votes :
  approval_percentage (tally_votes svc votes)
  = Py.round2 (raw_approval (side_power "for" votes, side_power "against" votes)).
Proof. unfold tally_votes. simpl. rewrite tally_powers. reflexivity. Qed.

End GovernanceFacts.

Section GovernanceClaims.
Import Governance.
Local Open Scope R_scope.

(** Two values more than one apart do not round to the same integer. *)
Lemma round_half_even_gap x y :
  x + 1 < y -> (Py.round_half_even x + 1 <= Py.round_half_even y)%Z.
Proof.
  intros Hxy.
  assert (Hx : IZR (Py.round_half_even x) <= x + 1 / 2).
  { unfold Py.round_half_even.
    pose proof (Zfloor_bound x) as [Hl Hu].
    destruct (Rlt_dec _ _); [lra|].
    destruct (Rlt_dec _ _); [rewrite plus_IZR; lra|].
    destruct (Z.even _); [lra|rewrite plus_IZR; lra]. }
  assert (Hy : y - 1 / 2 <= IZR (Py.round_half_even y)).
  { unfold Py.round_half_even.
    pose proof (Zfloor_bound y) as [Hl Hu].
    destruct (Rlt_dec _ _); [lra|].
    destruct (Rlt_dec _ _); [rewrite plus_IZR; lra|].
    destruct (Z.even _); [lra|rewrite plus_IZR; lra]. }
  assert (H : IZR (Py.round_half_even x) < IZR (Py.round_half_even y)) by lra.
  apply lt_IZR in H. lia.
Qed.

Lemma round2_gap x y : x + 1 / 100 < y -> Py.round2 x + 1 / 100 <= Py.round2 y.
Proof.
  intros Hxy. unfold Py.round2.
  assert (H : (Py.round_half_even (x * 100) + 1 <= Py.round_half_even (y * 100))%Z)
    by (apply round_half_even_gap; lra).
  apply IZR_le in H. rewrite plus_IZR in H. lra.
Qed.

Lemma approval_percentage_share svc votes :
  approval_percentage (tally_votes svc votes) = Py.round2 (approval_share votes).
Proof. rewrite approval_percentage_unfold, raw_approval_share. reflexivity. Qed.

Lemma approval_share_step votes v :
  approval_share (votes ++ [v])
  = raw_approval (tally_step (side_power "for" votes, side_power "against" votes) v).
Proof.
  rewrite <- raw_approval_share, <- tally_powers, <- tally_append, tally_powers.
  reflexivity.
Qed.

Lemma raw_approval_for_strict f a p :
  0 <= f -> 0 < a -> 0 < p ->
  raw_approval (f, a) < raw_approval (f + p, a).
Proof.
  intros Hf Ha Hp. unfold raw_approval. simpl.
  destruct (Rlt_dec 0 (f + a)) as [H1|H1]; [|lra].
  destruct (Rlt_dec 0 (f + p + a)) as [H2|H2]; [|lra].
  apply Rmult_lt_compat_r; [lra|].
  assert (E : (f + p) / (f + p + a) - f / (f + a)
              = p * a / ((f + a) * (f + p + a))) by (field; lra).
  assert (0 < p * a / ((f + a) * (f + p + a))).
  { apply Rmult_lt_0_compat; [nra|]. apply Rinv_0_lt_compat. nra. }
  lra.
Qed.

Lemma raw_approval_against_strict f a p :
  0 < f -> 0 <= a -> 0 < p ->
  raw_approval (f, a + p) < raw_approval (f, a).
Proof.
  intros Hf Ha Hp. unfold raw_approval. simpl.
  destruct (Rlt_dec 0 (f + a)) as [H1|H1]; [|lra].
  destruct (Rlt_dec 0 (f + (a + p))) as [H2|H2]; [|lra].
  apply Rmult_lt_compat_r; [lra|].
  assert (E : f / (f + a) - f / (f + (a + p))
              = f * p / ((f + a) * (f + (a + p)))) by (field; lra).
  assert (0 < f * p / ((f + a) * (f + (a + p)))).
  { apply Rmult_lt_0_compat; [nra|]. apply Rinv_0_lt_compat. nra. }
  lra.
Qed.

Lemma calculate_vote_power_pos (t : Z) : (0 < t)%Z -> 0 < calculate_vote_power t.
Proof.
  intros Ht. rewrite calculate_vote_power_sqrt. apply sqrt_lt_R0.
  apply IZR_lt in Ht. exact Ht.
Qed.





End GovernanceClaims.

Section Py64Facts.
Import Engine.
Local Open Scope Z_scope.

Lemma digits2_pos_size (p : positive) : digits2_pos p = Pos.size p.
Proof. induction p as [p IH|p IH|]; simpl; rewrite ?IH; reflexivity. Qed.

Lemma Zdigits2_log2 (m : Z) : 0 < m -> Zdigits2 m = Z.log2 m + 1.
Proof.
  destruct m as [|p|p]; try lia. intros _. simpl.
  destruct p as [p|p|]; simpl; rewrite ?digits2_pos_size; lia.
Qed.

Lemma Zdigits2_nonneg (m : Z) : 0 <= Zdigits2 m.
Proof. destruct m; simpl; lia. Qed.

Lemma Zdigits2_succ (m : Z) : 0 <= m -> Zdigits2 (m + 1) <= Zdigits2 m + 1.
Proof.
  intros Hm. destruct (Z.eq_dec m 0) as [->|Hne]; [simpl; lia|].
  rewrite !Zdigits2_log2 by lia.
  pose proof (Z.log2_succ_le m). unfold Z.succ in *. lia.
Qed.

Lemma shr_1_digits (mrs : shr_record) :
  0 <= shr_m mrs ->
  0 <= shr_m (shr_1 mrs) /\
  Zdigits2 (shr_m (shr_1 mrs)) = Z.max 0 (Zdigits2 (shr_m mrs) - 1).
Proof.
  destruct mrs as [m r s]. simpl. intros Hm.
  destruct m as [|[p|p|]|p]; simpl; try lia.
Qed.

Lemma iter_shr_1_digits (p : positive) : forall mrs,
  0 <= shr_m mrs ->
  0 <= shr_m (SpecFloat.iter_pos shr_1 p mrs) /\
  Zdigits2 (shr_m (SpecFloat.iter_pos shr_1 p mrs))
  = Z.max 0 (Zdigits2 (shr_m mrs) - Zpos p).
Proof.
  induction p as [p IH|p IH|]; intros mrs Hm; cbn [SpecFloat.iter_pos].
  - destruct (shr_1_digits mrs Hm) as [H1 E1].
    destruct (IH _ H1) as [H2 E2]. destruct (IH _ H2) as [H3 E3].
    split; [exact H3|]. rewrite E3, E2, E1. lia.
  - destruct (IH _ Hm) as [H2 E2]. destruct (IH _ H2) as [H3 E3].
    split; [exact H3|]. rewrite E3, E2. lia.
  - destruct (shr_1_digits mrs Hm) as [H1 E1]. split; [exact H1|]. rewrite E1. lia.
Qed.

Lemma shr_record_of_loc_m m l : shr_m (shr_record_of_loc m l) = m.
Proof. destruct l as [|[]]; reflexivity. Qed.

(** What one shift to the exponent the format asks for leaves. *)
Lemma shr_fexp_bounds (m e : Z) (l : location) :
  0 <= m ->
  let D := Zdigits2 m + e in
  let r := shr_fexp Py64.prec Py64.emax m e l in
  0 <= shr_m (fst r) /\
  snd r = Z.max e (fexp Py64.prec Py64.emax D) /\
  Zdigits2 (shr_m (fst r)) + snd r <= Z.max D (snd r).
Proof.
  intros Hm D r. subst r. unfold shr_fexp, shr. fold D.
  pose proof (Zdigits2_nonneg m) as Hd.
  destruct (fexp Py64.prec Py64.emax D - e) as [|p|p] eqn:En; cbn [fst snd].
  - rewrite shr_record_of_loc_m. subst D. lia.
  - destruct (iter_shr_1_digits p (shr_record_of_loc m l)) as [H1 E1];
      [rewrite shr_record_of_loc_m; exact Hm|].
    rewrite shr_record_of_loc_m in E1. rewrite E1. subst D. lia.
  - rewrite shr_record_of_loc_m. subst D. lia.
Qed.

Lemma round_nearest_even_bounds (m : Z) (l : location) :
  0 <= m -> m <= round_nearest_even m l <= m + 1.
Proof.
  intros Hm. destruct l as [|[]]; simpl; try lia. destruct (Z.even m); lia.
Qed.

Lemma Zdigits2_mono (a b : Z) : 0 <= a <= b -> Zdigits2 a <= Zdigits2 b.
Proof.
  intros [Ha Hab]. destruct (Z.eq_dec a 0) as [->|Hne];
    [simpl; apply Zdigits2_nonneg|].
  rewrite !Zdigits2_log2 by lia. pose proof (Z.log2_le_mono a b Hab). lia.
Qed.

(** Rounding a number below 2^1023 gives a float, and one that is not
    negative. *)
Lemma binary_round_aux_finite (m e : Z) (l : location) :
  0 <= m -> e <= 971 -> Zdigits2 m + e <= 1023 ->
  match binary_round_aux Py64.prec Py64.emax false m e l with
  | S754_zero false | S754_finite false _ _ => True
  | _ => False
  end.
Proof.
  intros Hm He HD. unfold binary_round_aux.
  pose proof (shr_fexp_bounds m e l Hm) as H1. cbv zeta in H1.
  destruct (shr_fexp Py64.prec Py64.emax m e l) as [mrs' e'].
  cbn [fst snd] in H1. destruct H1 as (Hm1 & He1 & Hd1).
  pose proof (round_nearest_even_bounds (shr_m mrs') (loc_of_shr_record mrs') Hm1)
    as Hr.
  set (m2 := round_nearest_even (shr_m mrs') (loc_of_shr_record mrs')) in *.
  assert (Hm2 : 0 <= m2) by lia.
  pose proof (shr_fexp_bounds m2 e' loc_Exact Hm2) as H2. cbv zeta in H2.
  destruct (shr_fexp Py64.prec Py64.emax m2 e' loc_Exact) as [mrs'' e''].
  cbn [fst snd] in H2. destruct H2 as (Hm3 & He2 & _).
  assert (Hd2 : Zdigits2 m2 <= Zdigits2 (shr_m mrs') + 1).
  { pose proof (Zdigits2_mono m2 (shr_m mrs' + 1) ltac:(lia)).
    pose proof (Zdigits2_succ (shr_m mrs') Hm1). lia. }
  assert (Hbound : e'' <= 971).
  { unfold fexp, emin, Py64.prec, Py64.emax in *. lia. }
  destruct (shr_m mrs'') as [|p|p]; [exact I| |lia].
  unfold Py64.emax, Py64.prec.
  destruct (Z.leb_spec e'' (1024 - 53)); [exact I|lia].
Qed.

Lemma digits2_pos_iter_xO (d p : positive) :
  Zpos (digits2_pos (Pos.iter xO p d)) = Zpos (digits2_pos p) + Zpos d.
Proof.
  induction d as [|d IH] using Pos.peano_ind.
  - simpl. lia.
  - rewrite Pos.iter_succ. cbn [digits2_pos]. lia.
Qed.

(** [float(n)] exists for every [n] from 0 to below 2^1023, and is not
    negative. *)
Lemma of_int_finite (n : Z) :
  0 <= n < 2 ^ 1023 ->
  exists x, Py64.of_int n = Ok x /\ Py64.ltb x Py64.zero = false.
Proof.
  intros [Hn Hlt]. unfold Py64.of_int.
  assert (H : match binary_normalize Py64.prec Py64.emax n 0 false with
              | S754_zero false | S754_finite false _ _ => True
              | _ => False
              end).
  { destruct n as [|p|p]; [exact I| |lia].
    cbn [binary_normalize]. unfold binary_round.
    assert (Hdig : Zpos (digits2_pos p) <= 1023).
    { change (Zpos (digits2_pos p)) with (Zdigits2 (Zpos p)).
      rewrite Zdigits2_log2 by lia.
      apply Z.log2_lt_pow2 in Hlt; lia. }
    unfold shl_align.
    destruct (fexp Py64.prec Py64.emax (Zpos (digits2_pos p) + 0) - 0)
      as [|q|d] eqn:Ed.
    - apply binary_round_aux_finite; [lia|lia|]. cbn [Zdigits2]. lia.
    - apply binary_round_aux_finite; [lia|lia|]. cbn [Zdigits2]. lia.
    - apply binary_round_aux_finite; [lia| |].
      + unfold fexp, emin, Py64.prec, Py64.emax in *. lia.
      + cbn [Zdigits2]. rewrite digits2_pos_iter_xO.
        unfold fexp, emin, Py64.prec, Py64.emax in *. lia. }
  destruct (binary_normalize Py64.prec Py64.emax n 0 false) as [[]|[]| |[] m e];
    try contradiction; eexists; split; reflexivity.
Qed.
End Py64Facts.

Section Governance64Claims.
Import Engine Governance64.

(** The loop of [tally_votes] adds up each side in the order of the
    list. *)
Lemma tally_loop_sides (votes : list Vote) :
  forall acc powers,
    tally_loop votes acc = Ok powers ->
    sum_powers (List.filter (fun v => String.eqb (vote v) "for") votes) (fst acc)
    = Ok (fst powers) /\
    sum_powers (List.filter (fun v => String.eqb (vote v) "against") votes) (snd acc)
    = Ok (snd powers).
Proof.
  induction votes as [|v votes IH]; intros acc powers Hloop; cbn [tally_loop] in Hloop.
  - injection Hloop as <-. split; reflexivity.
  - unfold tally_step in Hloop. cbn [List.filter].
    destruct (calculate_vote_power (tokens_spent v)) as [power|e] eqn:Hp;
      [|discriminate].
    destruct (String.eqb_spec (vote v) "for") as [Hfor|Hnfor].
    + assert (Hna : String.eqb (vote v) "against" = false)
        by (rewrite Hfor; reflexivity).
      rewrite Hna. cbn [sum_powers]. rewrite Hp.
      apply IH in Hloop. exact Hloop.
    + destruct (String.eqb (vote v) "against").
      * cbn [sum_powers]. rewrite Hp. apply IH in Hloop. exact Hloop.
      * apply IH in Hloop. exact Hloop.
Qed.

Lemma tally_votes_share (self : QuadraticVotingService) (votes : list Vote)
    (t : Tally) :
  tally_votes self votes = Ok t ->
  exists share,
    approval_share votes = Ok share /\
    approved t = (3 <=? length votes)%nat && Py64.leb (quorum_percentage self) share.
Proof.
  unfold tally_votes. intros Ht.
  destruct (tally_loop votes (Py64.zero, Py64.zero)) as [powers|e] eqn:Hloop;
    [|discriminate].
  injection Ht as <-.
  destruct (tally_loop_sides _ _ _ Hloop) as [Hfor Hagainst].
  unfold approval_share, side_power. cbn [fst snd] in Hfor, Hagainst.
  rewrite Hfor, Hagainst.
  eexists. split; [reflexivity|]. reflexivity.
Qed.

Lemma calculate_vote_power_ok (tokens : Z) :
  (tokens < 2 ^ 1023)%Z -> exists power, calculate_vote_power tokens = Ok power.
Proof.
  intros Hlt. unfold calculate_vote_power, Py64.sqrt_int.
  destruct (Z.leb_spec tokens 0) as [Hle|Hpos]; [eexists; reflexivity|].
  destruct (of_int_finite tokens) as (x & Hx & Hsign); [lia|].
  rewrite Hx, Hsign. eexists. reflexivity.
Qed.

Lemma tally_loop_ok (votes : list Vote) :
  Forall (fun v => (tokens_spent v < 2 ^ 1023)%Z) votes ->
  forall acc, exists powers, tally_loop votes acc = Ok powers.
Proof.
  induction 1 as [|v votes Hv _ IH]; intros acc; cbn [tally_loop].
  - eexists. reflexivity.
  - unfold tally_step.
    destruct (calculate_vote_power_ok _ Hv) as [power Hp]. rewrite Hp.
    destruct (String.eqb (vote v) "for"); [apply IH|].
    destruct (String.eqb (vote v) "against"); apply IH.
Qed.

(** C3 (as amended).  The tally returns for every list of votes whose
    token counts are below 2^1023 (a count that no float holds raises
    OverflowError).  Whenever it returns, it approves the loan exactly
    when the list holds at least 3 votes (elements of the list, whoever
    cast them) and the approval percentage, the power cast "for" as a
    share of the total power times 100 as the floats give it (0 when no
    power was cast), is at least the quorum percentage. *)
Theorem tally_approved_iff (self : QuadraticVotingService) (votes : list Vote) :
  (Forall (fun v => (tokens_spent v < 2 ^ 1023)%Z) votes ->
   exists t, tally_votes self votes = Ok t) /\
  (forall t,
     tally_votes self votes = Ok t ->
     exists share,
       approval_share votes = Ok share /\
       (approved t = true <->
        (3 <= length votes)%nat /\
        Py64.leb (quorum_percentage self) share = true)).
Proof.
  split.
  - intros Hsmall. unfold tally_votes.
    destruct (tally_loop_ok votes Hsmall (Py64.zero, Py64.zero)) as [powers Hp].
    rewrite Hp. eexists. reflexivity.
  - intros t Ht.
    destruct (tally_votes_share self votes t Ht) as (share & Hshare & Happ).
    exists share. split; [exact Hshare|].
    rewrite Happ, andb_true_iff, Nat.leb_le. reflexivity.
Qed.

(** Two votes in favour and one against are approved. *)
Lemma tally_approved_iff_witness :
  exists t,
    tally_votes quadratic_voting_service
      [ Governance.mkVote "a" 4 "for"; Governance.mkVote "b" 1 "for";
        Governance.mkVote "c" 9 "against" ] = Ok t /\
    approved t = true.
Proof.
  destruct (tally_approved_iff quadratic_voting_service
              [ Governance.mkVote "a" 4 "for"; Governance.mkVote "b" 1 "for";
                Governance.mkVote "c" 9 "against" ]) as [Hreturns Hiff].
  destruct Hreturns as [t Ht].
  { repeat constructor; reflexivity. }
  exists t. split; [exact Ht|].
  destruct (Hiff t Ht) as (share & Hshare & Happroved).
  apply Happroved. split; [simpl; lia|].
  vm_compute in Hshare. injection Hshare as <-. vm_compute. reflexivity.
Defined.

(** Rounding decides a tie.  With the same tokens on both sides, added
    up in another order, the two sums differ in their last bit, the
    approval percentage falls just short of 50 and the loan is not
    approved, although the reported percentage is 50. *)
Lemma tied_votes_not_approved :
  exists t,
    tally_votes quadratic_voting_service tied_votes = Ok t /\
    approved t = false /\
    approval_percentage t = Py64.lit 50 /\
    quorum_met t = true.
Proof. eexists. split; [vm_compute; reflexivity|]. repeat split. Qed.

(** C3 (as stated) fails: three votes of one voter are approved by the
    default service although only one distinct voter took part. *)
Lemma tally_distinct_voters_counterexample :
  ~ approved_by_distinct_voters quadratic_voting_service Governance.same_voter_thrice.
Proof.
  unfold approved_by_distinct_voters. intros Hclaim.
  destruct (tally_votes quadratic_voting_service Governance.same_voter_thrice)
    as [t|e] eqn:Ht; [|vm_compute in Ht; discriminate].
  destruct (approval_share Governance.same_voter_thrice)
    as [share|e] eqn:Hshare; [|vm_compute in Hshare; discriminate].
  destruct (Hclaim t share eq_refl eq_refl) as [Hdistinct _].
  assert (Happ : approved t = true)
    by (vm_compute in Ht; injection Ht as <-; reflexivity).
  destruct (Hdistinct Happ) as [H3 _].
  vm_compute in H3. lia.
Qed.
End Governance64Claims.

Section EngineClaims.
Import Json Engine.
Local Open Scope Q_scope.

Lemma qsum_fold_right (xs : list Q) (a : Q) :
  fold_left Qplus xs a == a + fold_right Qplus 0 xs.
Proof.
  revert a. induction xs as [|x xs IH]; intros a; simpl.
  - ring.
  - rewrite IH. ring.
Qed.

Lemma add_thought_total_confidence t ty c q t' :
  add_thought t ty c q = Ok t' ->
  total_confidence t' = total_confidence t /\
  final_decision t' = final_decision t /\
  steps t' <> [].
Proof.
  unfold add_thought. destruct (valid_confidence q); [|discriminate].
  intros [= <-]. simpl. repeat split.
  destruct (steps t); discriminate.
Qed.

Lemma conclude_confidence_is_mean t d q t' :
  conclude t d q = Ok t' ->
  confidence_is_mean t' /\ final_decision t' = Some d.
Proof.
  unfold conclude.
  destruct (add_thought t CONCLUSION d q) as [t1|e] eqn:E; [|discriminate].
  apply add_thought_total_confidence in E. destruct E as (_ & _ & Hne).
  intros [= <-]. unfold confidence_is_mean, mean_confidence. simpl.
  split; [|reflexivity].
  destruct (steps t1) as [|s1 rest] eqn:Es; [congruence|].
  unfold Py.qsum. rewrite qsum_fold_right. rewrite Qplus_0_l. reflexivity.
Qed.

Lemma apply_ops_app t l1 l2 :
  apply_ops t (l1 ++ l2) =
  match apply_ops t l1 with
  | Ok t' => apply_ops t' l2
  | Raise e => Raise e
  end.
Proof.
  revert t. induction l1 as [|op l1 IH]; intros t; simpl; [reflexivity|].
  destruct (apply_op t op); [apply IH|reflexivity].
Qed.

Lemma apply_ops_valid t ops :
  forallb (fun op => valid_confidence (op_confidence op)) ops = true ->
  exists t', apply_ops t ops = Ok t'.
Proof.
  revert t. induction ops as [|op ops IH]; intros t H; simpl in *.
  - eauto.
  - apply andb_true_iff in H. destruct H as [Hop Hops].
    assert (Hstep : exists t1, apply_op t op = Ok t1).
    { destruct op; simpl in *; unfold conclude, add_thought;
        rewrite Hop; eauto. }
    destruct Hstep as [t1 ->]. apply IH. exact Hops.
Qed.

Lemma apply_ops_unconcluded t ops t' :
  forallb (fun op => negb (is_conclude op)) ops = true ->
  apply_ops t ops = Ok t' ->
  total_confidence t' = total_confidence t /\
  final_decision t' = final_decision t.
Proof.
  revert t. induction ops as [|op ops IH]; intros t H; simpl in *.
  - intros [= <-]. split; reflexivity.
  - apply andb_true_iff in H. destruct H as [Hop Hops].
    destruct op as [ty c q|d q]; [|discriminate]. simpl.
    destruct (add_thought t ty c q) as [t1|e] eqn:E; [|discriminate].
    intros Hrun. destruct (IH _ Hops Hrun) as [-> ->].
    apply add_thought_total_confidence in E. tauto.
Qed.

(** C2 (as amended).  Starting from a fresh trace, any sequence of
    operations with confidences in [0, 1] runs to the end, and then:
    if the last operation was [conclude], total_confidence is the
    arithmetic mean of the confidences of all steps and the final
    decision is set; if no operation was [conclude], total_confidence
    is still 0 and no final decision is set, whatever the steps. *)
Theorem trace_confidence_after_ops (id agent task : string) (ops : list trace_op) :
  forallb (fun op => valid_confidence (op_confidence op)) ops = true ->
  exists t,
    apply_ops (new_trace id agent task) ops = Ok t /\
    (forall ops' d q, ops = ops' ++ [Conclude d q] ->
       confidence_is_mean t /\ final_decision t = Some d) /\
    (forallb (fun op => negb (is_conclude op)) ops = true ->
       total_confidence t = 0 /\ final_decision t = None).
Proof.
  intros Hvalid.
  destruct (apply_ops_valid (new_trace id agent task) ops Hvalid) as [t Ht].
  exists t. split; [exact Ht|]. split.
  - intros ops' d q ->. rewrite apply_ops_app in Ht.
    destruct (apply_ops (new_trace id agent task) ops') as [t1|e]; [|discriminate].
    simpl in Ht. destruct (conclude t1 d q) as [t2|e] eqn:E; [|discriminate].
    injection Ht as <-. eapply conclude_confidence_is_mean; eauto.
  - intros Hnone. apply (apply_ops_unconcluded _ _ _ Hnone Ht).
Qed.

Lemma trace_confidence_after_ops_witness :
  exists t,
    apply_ops (new_trace "t1" "Nova" "reply") Scenarios.concluded_ops = Ok t /\
    confidence_is_mean t /\ final_decision t = Some "done".
Proof.
  destruct (trace_confidence_after_ops "t1" "Nova" "reply"
              Scenarios.concluded_ops eq_refl) as (t & Hrun & Hlast & _).
  exists t. split; [exact Hrun|].
  apply (Hlast [ Thought OBSERVATION "seen" (95 # 100);
                 Thought ANALYSIS "thought" (8 # 10) ] "done" (88 # 100)).
  reflexivity.
Defined.

(** C2 (as stated) fails on a failed execution: LoanAdvisor, reading a
    null income amount, leaves a trace of two steps (0.95 and 0.3) whose
    total_confidence is 0. *)
Lemma failed_execution_confidence_counterexample :
  let r := snd (LoanAdvisor.execute Scenarios.null_income_context) in
  success r = false /\
  confidences (steps (reasoning_trace r)) = [95 # 100; 3 # 10] /\
  ~ confidence_is_mean (reasoning_trace r).
Proof.
  cbv zeta. split; [reflexivity|]. split; [reflexivity|].
  unfold confidence_is_mean. vm_compute. discriminate.
Qed.
End EngineClaims.

Section RiskOracleClaims.
Import Json Engine RiskOracle.
Local Open Scope R_scope.

Lemma rmax_Rmax a b : Py.rmax a b = Rmax a b.
Proof.
  unfold Py.rmax, Rmax.
  destruct (Rlt_dec a b), (Rle_dec a b); lra.
Qed.

Lemma rmin_Rmin a b : Py.rmin a b = Rmin a b.
Proof.
  unfold Py.rmin, Rmin.
  destruct (Rlt_dec b a), (Rle_dec a b); lra.
Qed.

Lemma rsum_fold_right (xs : list R) (a : R) :
  fold_left Rplus xs a = a + total xs.
Proof.
  revert a. induction xs as [|x xs IH]; intros a; simpl.
  - lra.
  - rewrite IH. lra.
Qed.

Lemma rsum_total (xs : list R) : Py.rsum xs = total xs.
Proof. unfold Py.rsum. rewrite rsum_fold_right. lra. Qed.

(** C5 (as amended).  Let the income entries be the diary entries of
    type income with a non-zero amount, and the samples those of them
    recorded at most 30 days ago or whose date does not parse.  With
    fewer than 4 income entries the factor is 0.3, however many samples
    there are.  With at least 4 income entries it is 0.4 when there are
    fewer than 2 samples, and otherwise clamp(1 - 0.7 cv, 0.3, 1.0) for
    the population coefficient of variation cv of the samples, or 0.3
    when their mean is not positive. *)
Theorem income_stability_cases (now : Z) (context : AgentContext) :
  let income_entries := List.filter is_income (financial_diary context) in
  let samples := recent_incomes now income_entries in
  income_stability now context =
    if (4 <=? length income_entries)%nat then
      if (2 <=? length samples)%nat then
        if Rlt_dec 0 (mean samples)
        then clamp (1 - 7 / 10 * population_cv samples) (3 / 10) 1
        else 3 / 10
      else 4 / 10
    else 3 / 10.
Proof.
  intros income_entries samples. unfold income_stability.
  fold income_entries. fold samples.
  destruct (4 <=? length income_entries)%nat; [|reflexivity].
  destruct (2 <=? length samples)%nat; [|reflexivity].
  rewrite !rsum_total. unfold len. fold (mean samples).
  destruct (Rlt_dec 0 (mean samples)); [|reflexivity].
  rewrite rmax_Rmax, rmin_Rmin. unfold clamp, population_cv.
  rewrite Rmin_comm. f_equal. f_equal.
  replace (map (fun x : R => (x - mean samples) ^ 2) samples)
    with (map (fun x : R => (x - mean samples) * (x - mean samples)) samples)
    by (apply map_ext; intros; ring).
  lra.
Qed.

(** C5 (as stated) fails: two equal income entries recorded yesterday
    are two samples with cv = 0, so the stated factor is 1.0, but with
    fewer than 4 income entries the code returns 0.3. *)
Lemma income_stability_two_samples_counterexample :
  ~ stability_from_recent_samples Scenarios.now_day_100
      Scenarios.two_incomes_context.
Proof.
  unfold stability_from_recent_samples. intros H.
  assert (Hs : incomes_last_30_days Scenarios.now_day_100
                 Scenarios.two_incomes_context = [Q2R 100; Q2R 100])
    by reflexivity.
  rewrite Hs in H. specialize (H (le_n 2)).
  assert (Hcode : income_stability Scenarios.now_day_100
                    Scenarios.two_incomes_context = 3 / 10) by reflexivity.
  rewrite Hcode in H.
  assert (Hq : Q2R 100 = 100) by (unfold Q2R; simpl; lra).
  assert (Hmean : mean [Q2R 100; Q2R 100] = 100).
  { unfold mean, total. simpl. rewrite Hq. lra. }
  assert (Hcv : population_cv [Q2R 100; Q2R 100] = 0).
  { unfold population_cv. rewrite Hmean. unfold total. simpl. rewrite Hq.
    replace (((100 - 100) * (100 - 100) + ((100 - 100) * (100 - 100) + 0))
             / (1 + 1)) with 0 by lra.
    rewrite sqrt_0. lra. }
  rewrite Hmean, Hcv in H.
  destruct (Rlt_dec 0 100); [|lra].
  unfold clamp in H.
  rewrite Rmin_left, Rmax_right in H by lra. lra.
Qed.
End RiskOracleClaims.

Section BreakerClaims.
Import Engine Breaker.
Local Open Scope Z_scope.

Lemma aenter_settings self now self1 r :
  __aenter__ self now = (self1, r) -> same_settings self self1.
Proof.
  unfold __aenter__, same_settings.
  destruct (state self); try (intros [= <- _]; auto).
  destruct (last_failure_time self); [|intros [= <- _]; auto].
  destruct (_ <=? _); intros [= <- _]; auto.
Qed.

(** One call that is let through and fails. *)
Lemma failure_step self t_enter t_exit self1 :
  __aenter__ self t_enter = (self1, Ok tt) ->
  let self2 := __aexit__ self1 t_exit true in
  same_settings self self2 /\
  last_failure_time self2 = Some t_exit /\
  (state self2 = OPEN \/
   (state self = CLOSED /\ state self2 = CLOSED /\
    failure_count self2 = failure_count self + 1 /\
    failure_count self2 < failure_threshold self)).
Proof.
  unfold __aenter__, __aexit__, _record_failure, same_settings.
  destruct (state self) eqn:Est.
  - intros [= <-]. rewrite Est. simpl.
    destruct (Z.leb_spec (failure_threshold self) (failure_count self + 1));
      simpl; intuition.
  - destruct (last_failure_time self) as [last|].
    + destruct (_ <=? _); [|discriminate]. intros [= <-]. simpl. intuition.
    + intros [= <-]. rewrite Est. simpl. intuition.
  - intros [= <-]. rewrite Est. simpl. intuition.
Qed.

Lemma failures_in_a_row_inv calls : forall self self',
  calls <> [] ->
  failures_in_a_row self calls = Some self' ->
  same_settings self self' /\
  last_failure_time self' = last_exit calls /\
  (state self' = OPEN \/
   (state self = CLOSED /\ state self' = CLOSED /\
    failure_count self' = failure_count self + Z.of_nat (length calls) /\
    failure_count self' < failure_threshold self)).
Proof.
  induction calls as [|[t_enter t_exit] calls IH]; intros self self' Hne Hrun;
    [congruence|].
  cbn [failures_in_a_row] in Hrun.
  destruct (__aenter__ self t_enter) as [self1 [[]|e]] eqn:Henter; [|discriminate].
  pose proof (failure_step _ _ t_exit _ Henter) as Hstep. cbv zeta in Hstep.
  destruct Hstep as (Hset & Hlast & Hstate).
  destruct calls as [|c calls'].
  - simpl in Hrun. injection Hrun as <-. simpl length.
    split; [exact Hset|]. split; [exact Hlast|]. exact Hstate.
  - assert (Hne' : c :: calls' <> []) by discriminate.
    destruct (IH _ _ Hne' Hrun) as (Hset' & Hlast' & Hstate').
    unfold same_settings in *.
    split; [intuition congruence|].
    split; [rewrite Hlast'; destruct c; reflexivity|].
    destruct Hstate' as [Hopen|(Hc1 & Hc' & Hcount & Hlt)]; [left; exact Hopen|].
    destruct Hstate as [Hopen1|(Hc & _ & Hcount1 & _)]; [congruence|].
    right. repeat split; try assumption.
    + rewrite Hcount, Hcount1.
      change (length ((t_enter, t_exit) :: c :: calls'))
        with (S (length (c :: calls'))).
      lia.
    + destruct Hset as (<- & _). exact Hlt.
Qed.

(** C7 (as amended).  After failureThreshold calls in a row that were let
    through and failed, the breaker is OPEN.  Every call made less than
    recoveryTimeout seconds after the last failure then ends with
    CircuitOpenError, the breaker and the outer world untouched: the
    wrapped operation is not run.  A call made at least recoveryTimeout
    seconds and less than a day after the last failure is let through and
    puts the breaker in HALF_OPEN; while it is HALF_OPEN every further
    call is let through as well. *)
Theorem breaker_fails_fast_then_probes
    (self self' : CircuitBreaker) (calls : list (Z * Z)) :
  1 <= failure_threshold self ->
  0 <= failure_count self ->
  Z.of_nat (length calls) = failure_threshold self ->
  failures_in_a_row self calls = Some self' ->
  exists last,
    last_exit calls = Some last /\
    state self' = OPEN /\
    last_failure_time self' = Some last /\
    (forall (W : Type) (op : W -> W * bool) (w : W) (now t_exit : Z),
       0 <= now - last < recovery_timeout self ->
       guarded_call self' now t_exit op w = (self', w, CircuitOpen)) /\
    (forall now : Z,
       recovery_timeout self <= now - last < 86400 ->
       exists probing,
         __aenter__ self' now = (probing, Ok tt) /\
         state probing = HALF_OPEN /\
         forall now' : Z, __aenter__ probing now' = (probing, Ok tt)).
Proof.
  intros Hthr Hcount Hlen Hrun.
  assert (Hne : calls <> []) by (destruct calls; [simpl in Hlen; lia|discriminate]).
  destruct (failures_in_a_row_inv calls self self' Hne Hrun)
    as ((_ & Hrt & _) & Hlast & Hstate).
  assert (Hopen : state self' = OPEN) by (destruct Hstate as [H|H]; [exact H|lia]).
  destruct (last_failure_time self') as [last|] eqn:Elast.
  2:{ exfalso. clear - Hne Hlast. induction calls as [|[a b] [|c calls] IH];
        simpl in *; try congruence. apply IH; [discriminate|exact Hlast]. }
  exists last. split; [symmetry; exact Hlast|]. split; [exact Hopen|].
  split; [reflexivity|]. split.
  - intros W op w now t_exit Hnow.
    unfold guarded_call, __aenter__. rewrite Hopen, Elast, Hrt.
    unfold Py.timedelta_seconds.
    pose proof (Z.mod_le (now - last) 86400 ltac:(lia) ltac:(lia)).
    destruct (Z.leb_spec (recovery_timeout self) ((now - last) mod 86400));
      [lia|reflexivity].
  - intros now Hnow. unfold __aenter__ at 1. rewrite Hopen, Elast, Hrt.
    unfold Py.timedelta_seconds.
    pose proof (Z.mod_pos_bound (now - last) 86400 ltac:(lia)).
    assert (Hel : recovery_timeout self <= (now - last) mod 86400).
    { destruct (Z.le_gt_cases 0 (now - last));
        [rewrite Z.mod_small by lia; lia|lia]. }
    destruct (Z.leb_spec (recovery_timeout self) ((now - last) mod 86400)); [|lia].
    eexists. split; [reflexivity|]. split; [reflexivity|].
    intros now'. reflexivity.
Qed.

(** The payments breaker after five failed calls: a call 10 seconds
    later is rejected, a call 40 seconds later probes. *)
Lemma breaker_fails_fast_then_probes_witness :
  failures_in_a_row dodo_circuit five_failures = Some dodo_after_five_failures /\
  guarded_call dodo_after_five_failures 15 16 (fun n : nat => (S n, true)) 0%nat
    = (dodo_after_five_failures, 0%nat, CircuitOpen) /\
  exists probing,
    __aenter__ dodo_after_five_failures 45 = (probing, Ok tt) /\
    state probing = HALF_OPEN.
Proof.
  assert (Hrun : failures_in_a_row dodo_circuit five_failures
                 = Some dodo_after_five_failures) by reflexivity.
  destruct (breaker_fails_fast_then_probes dodo_circuit dodo_after_five_failures
              five_failures ltac:(simpl; lia) ltac:(simpl; lia) eq_refl Hrun)
    as (last & Hlast & _ & _ & Hfast & Hprobe).
  injection Hlast as <-.
  split; [exact Hrun|]. split.
  - apply Hfast. simpl. lia.
  - destruct (Hprobe 45 ltac:(simpl; lia)) as (probing & H1 & H2 & _).
    exists probing. split; assumption.
Defined.

(** C7 (as stated) fails in its last part: once the payments breaker has
    let a first call through after the timeout, a second call that enters
    while the first is still running is let through as well. *)
Lemma breaker_single_probe_counterexample :
  failures_in_a_row dodo_circuit five_failures = Some dodo_after_five_failures /\
  ~ single_probe dodo_after_five_failures 35 36.
Proof.
  split; [reflexivity|].
  unfold single_probe. intros H.
  specialize (H eq_refl _ eq_refl). discriminate H.
Qed.

(** [timedelta.seconds] drops whole days: a day and ten seconds after
    the last failure the elapsed time reads as ten seconds and the call
    is still rejected. *)
Remark breaker_rejects_a_day_later :
  guarded_call dodo_after_five_failures (5 + 86400 + 10) (5 + 86400 + 11)
    (fun n : nat => (S n, true)) 0%nat
  = (dodo_after_five_failures, 0%nat, CircuitOpen).
Proof. reflexivity. Qed.
End BreakerClaims.

Section PaymentClaims.
Import Json Engine Payments.
Variable blockchain : option Chain.
Variable decimal_of_str : string -> option Q.
Variable float_of_str : string -> option Py64.float.

(** [process_repayment] fails at its first statement: the attribute
    [get_loan] is looked up on a service that has none. *)
Lemma process_repayment_raises (loan_id : value) (amount : Q) (payment_id : value)
    (s : Store) :
  process_repayment blockchain float_of_str loan_id amount payment_id s
  = (s, Raise "AttributeError").
Proof. reflexivity. Qed.

Lemma lift_keeps {A B} (r : result A) (k : A -> St B) (s : Store) :
  (forall a, fst (k a s) = s) -> fst (bind (lift r) k s) = s.
Proof. intros Hk. unfold bind, lift. destruct r; [apply Hk|reflexivity]. Qed.

Lemma process_payment_completed_keeps (s : Store) (payment_data : value) :
  process_payment_completed blockchain decimal_of_str float_of_str s payment_data = s.
Proof.
  unfold process_payment_completed, payment_completed_body.
  repeat (apply lift_keeps; intros ?).
  destruct (truthy _); [|reflexivity].
  apply lift_keeps; intros payment_id.
  unfold bind at 1. rewrite process_repayment_raises. reflexivity.
Qed.

Lemma process_payment_failed_keeps (s : Store) (payment_data : value) :
  process_payment_failed s payment_data = s.
Proof.
  unfold process_payment_failed, payment_failed_body.
  repeat (apply lift_keeps; intros ?).
  destruct (truthy _); reflexivity.
Qed.

(** No delivery changes the store. *)
Lemma handle_webhook_keeps_store (s : Store) (d : Delivery) :
  fst (handle_webhook blockchain decimal_of_str float_of_str s d) = s.
Proof.
  unfold handle_webhook.
  destruct (signature_valid d); [|reflexivity].
  destruct (body d) as [[| | | | | |data]|]; try reflexivity.
  destruct (get_attr _ _ _); [|reflexivity].
  destruct (is_str _ "payment.completed");
    [apply process_payment_completed_keeps|].
  destruct (is_str _ "payment.failed");
    [apply process_payment_failed_keeps|reflexivity].
Qed.

Lemma redeliver_keeps_store (n : nat) (s : Store) (d : Delivery) :
  redeliver blockchain decimal_of_str float_of_str n s d = s.
Proof.
  induction n as [|n IH]; [reflexivity|].
  cbn [redeliver]. rewrite handle_webhook_keeps_store. exact IH.
Qed.

End PaymentClaims.


Section AgentShapes.
Import Json Engine.

(** ** Steps on a trace, without looking into the trace *)

Lemma add_thought_ok t ty c q :
  valid_confidence q = true -> exists t', add_thought t ty c q = Ok t'.
Proof. intros H. unfold add_thought. rewrite H. eexists. reflexivity. Qed.

Lemma conclude_ok t d q :
  valid_confidence q = true -> exists t', conclude t d q = Ok t'.
Proof.
  intros H. unfold conclude, add_thought. rewrite H. eexists. reflexivity.
Qed.

Lemma on_trace_ok (f : ReasoningTrace -> result ReasoningTrace) t :
  (exists t', f t = Ok t') -> exists t', on_trace f t = (t', Ok tt).
Proof. intros [t' H]. unfold on_trace. rewrite H. eexists. reflexivity. Qed.

Lemma on_trace_invalid t ty c q :
  valid_confidence q = false ->
  on_trace (fun t => add_thought t ty c q) t = (t, Raise "ValidationError").
Proof. intros H. unfold on_trace, add_thought. rewrite H. reflexivity. Qed.

Lemma verdict_confidence_valid (v : string) :
  valid_confidence (FraudGuard.verdict_confidence v) = true.
Proof.
  unfold FraudGuard.verdict_confidence.
  repeat (destruct (String.eqb v _); [reflexivity|]). reflexivity.
Qed.

(** Runs the next step of an agent body whose confidence is known to be
    valid, and names the trace it leaves. *)
Ltac trace_step :=
  match goal with
  | |- context [on_trace ?f ?t] =>
      let E := fresh "E" in
      let t' := fresh "t" in
      assert (E : exists t', on_trace f t = (t', Ok tt));
      [ apply on_trace_ok; unfold observe, analyze, hypothesize, act, reflect;
        first [ apply add_thought_ok | apply conclude_ok ];
        first [ reflexivity | assumption | apply verdict_confidence_valid ]
      | destruct E as [t' E]; rewrite E; clear E; cbv beta iota ]
  end.

Ltac open_body := unfold try_except, bind, lift, ret; cbv beta iota.

(** LoanAdvisor's recommendation is a dict (absent after a failure), and
    when it lets the user borrow it carries a numeric max_amount. *)
Lemma loan_advisor_recommendation (context : AgentContext) :
  exists recommendation,
    get (result_data (snd (LoanAdvisor.execute context))) "recommendation" (VDict [])
    = VDict recommendation /\
    (truthy (get recommendation "can_borrow" (VBool false)) = true ->
     exists x, get recommendation "max_amount" (VNum 0) = VNum x).
Proof.
  unfold LoanAdvisor.execute, LoanAdvisor.execute_body. open_body.
  trace_step.
  destruct (LoanAdvisor._analyze_income context) as [income|e];
    [|eexists; split; [reflexivity|discriminate]].
  cbv beta iota.
  destruct (valid_confidence (LoanAdvisor.income_confidence income)) eqn:Hvalid;
    [|unfold analyze; rewrite on_trace_invalid by exact Hvalid;
      eexists; split; [reflexivity|discriminate]].
  trace_step.
  destruct (LoanAdvisor._calculate_current_emi context) as [emi|e];
    [|eexists; split; [reflexivity|discriminate]].
  cbv beta iota. trace_step. trace_step.
  destruct (Qlt_le_dec 0 _).
  - destruct (trust_score context <? 20)%Z; open_body; trace_step; trace_step.
    + eexists; split; [reflexivity|discriminate].
    + eexists; split; [reflexivity|]. intros _. eexists. reflexivity.
  - open_body. trace_step. trace_step.
    eexists; split; [reflexivity|discriminate].
Qed.

(** RiskOracle's recommendation is a dict (absent after a failure) whose
    max_loan is a number. *)
Lemma risk_oracle_recommendation (now : Z) (sign : dict -> result string)
    (context : AgentContext) :
  exists recommendation,
    get (result_data (snd (RiskOracle.execute now sign context)))
        "recommendation" (VDict [])
    = VDict recommendation /\
    forall default, exists y, get recommendation "max_loan" (VNum default) = VNum y.
Proof.
  unfold RiskOracle.execute, RiskOracle.execute_body,
         RiskOracle._calculate_risk_factors.
  open_body. do 4 trace_step.
  destruct (RiskOracle.vouch_factor context) as [f4|e];
    [|eexists; split; [reflexivity|intros default; eexists; reflexivity]].
  cbv beta iota. do 2 trace_step.
  destruct (RiskOracle.lti_factor now context) as [f6|e];
    [|eexists; split; [reflexivity|intros default; eexists; reflexivity]].
  cbv beta iota. do 3 trace_step.
  match goal with
  | |- context [RiskOracle._generate_recommendation ?a ?b ?c] =>
      destruct (RiskOracle._generate_recommendation a b c) as [rec|e]
  end; [|eexists; split; [reflexivity|intros default; eexists; reflexivity]].
  cbv beta iota. trace_step.
  match goal with
  | |- context [sign ?d] => destruct (sign d) as [sig|e]
  end; [|eexists; split; [reflexivity|intros default; eexists; reflexivity]].
  cbv beta iota. trace_step.
  eexists; split; [reflexivity|intros default; eexists; reflexivity].
Qed.

(** TrustAnalyzer's vouch_quality is a dict (absent after a failure). *)
Lemma trust_analyzer_vouch_quality (context : AgentContext) :
  exists q,
    get (result_data (snd (TrustAnalyzer.execute context))) "vouch_quality" (VDict [])
    = VDict q.
Proof.
  unfold TrustAnalyzer.execute, TrustAnalyzer.execute_body. open_body.
  do 2 trace_step.
  destruct (TrustAnalyzer._analyze_vouch_quality context) as [q|e];
    [|eexists; reflexivity].
  cbv beta iota. do 4 trace_step. eexists. reflexivity.
Qed.

(** ** What an agent run leaves of the context *)

Lemma keeps_data_fields context context' :
  keeps_data context context' ->
  circles context' = circles context /\
  agent_results context' = agent_results context.
Proof. intros [->|[t ->]]; split; reflexivity. Qed.

Lemma fraud_guard_context (now : Z) (context : AgentContext) :
  keeps_data context (fst (FraudGuard.execute now context)).
Proof.
  unfold FraudGuard.execute, FraudGuard.execute_body, FraudGuard.account.
  open_body. trace_step.
  destruct (FraudGuard.suspicious (FraudGuard._check_velocity now context));
    open_body; [trace_step|];
    (destruct (FraudGuard.suspicious (FraudGuard._check_collusion context));
     open_body; [trace_step|]);
    (destruct (FraudGuard.suspicious (FraudGuard._check_behavioral_anomalies context));
     open_body; [trace_step|]);
    (destruct (FraudGuard.suspicious (FraudGuard._check_sybil_attack now context));
     open_body; [trace_step|]);
    cbv zeta; do 2 trace_step; right; eexists; reflexivity.
Qed.

Lemma risk_oracle_context (now : Z) (sign : dict -> result string)
    (context : AgentContext) :
  keeps_data context (fst (RiskOracle.execute now sign context)).
Proof.
  unfold RiskOracle.execute, RiskOracle.execute_body,
         RiskOracle._calculate_risk_factors.
  open_body. do 4 trace_step.
  destruct (RiskOracle.vouch_factor context) as [f4|e]; [|left; reflexivity].
  cbv beta iota. do 2 trace_step.
  destruct (RiskOracle.lti_factor now context) as [f6|e]; [|left; reflexivity].
  cbv beta iota. do 3 trace_step.
  match goal with
  | |- context [RiskOracle._generate_recommendation ?a ?b ?c] =>
      destruct (RiskOracle._generate_recommendation a b c) as [rec|e]
  end; [|left; reflexivity].
  cbv beta iota. trace_step.
  match goal with
  | |- context [sign ?d] => destruct (sign d) as [sig|e]
  end; [|left; reflexivity].
  cbv beta iota. trace_step. right. eexists. reflexivity.
Qed.

Lemma loan_advisor_context (context : AgentContext) :
  keeps_data context (fst (LoanAdvisor.execute context)).
Proof.
  unfold LoanAdvisor.execute, LoanAdvisor.execute_body. open_body.
  trace_step.
  destruct (LoanAdvisor._analyze_income context) as [income|e]; [|left; reflexivity].
  cbv beta iota.
  destruct (valid_confidence (LoanAdvisor.income_confidence income)) eqn:Hvalid;
    [|unfold analyze; rewrite on_trace_invalid by exact Hvalid; left; reflexivity].
  trace_step.
  destruct (LoanAdvisor._calculate_current_emi context) as [emi|e];
    [|left; reflexivity].
  cbv beta iota. do 2 trace_step.
  destruct (Qlt_le_dec 0 _); [destruct (trust_score context <? 20)%Z|];
    open_body; do 2 trace_step; right; eexists; reflexivity.
Qed.

(** The recommendation of LoanAdvisor depends on the data of the context
    only. *)
Lemma loan_advisor_reads_data (context context' : AgentContext) :
  keeps_data context context' ->
  result_data (snd (LoanAdvisor.execute context'))
  = result_data (snd (LoanAdvisor.execute context)).
Proof.
  intros [->|[t ->]]; [reflexivity|].
  unfold LoanAdvisor.execute, LoanAdvisor.execute_body. open_body.
  change (LoanAdvisor._analyze_income (add_trace context t))
    with (LoanAdvisor._analyze_income context).
  change (LoanAdvisor._calculate_current_emi (add_trace context t))
    with (LoanAdvisor._calculate_current_emi context).
  cbn [trust_score language add_trace].
  trace_step.
  destruct (LoanAdvisor._analyze_income context) as [income|e]; [|reflexivity].
  cbv beta iota.
  destruct (valid_confidence (LoanAdvisor.income_confidence income)) eqn:Hvalid;
    [|unfold analyze; rewrite !on_trace_invalid by exact Hvalid; reflexivity].
  trace_step.
  destruct (LoanAdvisor._calculate_current_emi context) as [emi|e]; [|reflexivity].
  cbv beta iota. do 2 trace_step.
  destruct (Qlt_le_dec 0 _); [destruct (trust_score context <? 20)%Z|];
    open_body; do 2 trace_step; reflexivity.
Qed.
(** Nova hands a loan request on to the specialists, and leaves the
    context as it was. *)
Lemma nova_hands_loan_request_on (llm : Nova.LLM) (context : AgentContext)
    (d : dict) (q : Q) :
  Nova.detect llm (match current_request context with Some r => r | None => "" end)
              (language context) = Ok (VDict d) ->
  lookup d "intent" = Some (VStr "loan_request") ->
  get d "confidence" (VNum (8 # 10)) = VNum q ->
  valid_confidence q = true ->
  exists t,
    Nova.execute llm context
    = (context, Nova.handoff (VStr "loan_request") "LoanAdvisor" t).
Proof.
  intros Hdetect Hintent Hconf Hvalid.
  unfold Nova.execute, Nova.execute_body. open_body. trace_step.
  rewrite Hdetect. cbv beta iota.
  unfold Nova.intent_of, Nova.intent_confidence. rewrite Hintent, Hconf.
  cbv beta iota. trace_step.
  change (is_str (VStr "loan_request") "loan_request") with true.
  cbv beta iota. cbn [orb]. open_body. trace_step.
  eexists. reflexivity.
Qed.

(** In a loan_request pipeline, for a user who is in a circle, ActionAgent
    returns the GUIDE_FLOW draft, filled with RiskOracle's max_loan, and
    leaves the context as it was. *)
Lemma action_agent_drafts (context : AgentContext) (c : Circle) (cs : list Circle)
    (nova risk rec : dict) (amount : value) :
  circles context = c :: cs ->
  agent_results context !! "Nova" = Some nova ->
  get nova "intent" (VStr "general") = VStr "loan_request" ->
  agent_results context !! "RiskOracle" = Some risk ->
  get risk "recommendation" (VDict []) = VDict rec ->
  get rec "max_loan" (VNum 10000) = amount ->
  exists t,
    ActionAgent.execute context
    = (context,
       {| result_agent_name := ActionAgent.self_name; success := true;
          result_data := ActionAgent.loan_draft c amount;
          reasoning_trace := t; next_agent := None; actions := [] |}).
Proof.
  intros Hc Hnova Hintent Hrisk Hrec Hamount. subst amount.
  unfold ActionAgent.execute, ActionAgent.execute_body,
         ActionAgent.detect_intent, ActionAgent._create_loan_draft,
         ActionAgent._find_best_circle.
  rewrite Hnova, Hintent, Hc.
  match goal with
  | |- context [get (match ?x with Some d => d | None => [] end) "recommendation" _] =>
      replace x with (Some risk) by (symmetry; exact Hrisk)
  end.
  rewrite Hrec.
  change (is_str (VStr "loan_request") "general") with false.
  change (truthy (VStr "loan_request")) with true.
  cbn [negb orb]. cbv beta iota zeta.
  change (is_str (VStr "loan_request") "loan_request") with true.
  open_body. do 2 trace_step. cbn [ActionAgent.as_dict]. cbv beta iota zeta.
  do 2 trace_step. eexists. reflexivity.
Qed.
End AgentShapes.

Section OrchestratorClaims.
Import Json Engine Orchestrator.

Lemma py_min3_num (a x y : Q) :
  exists m, py_min3 (VNum a) (VNum x) (VNum y) = Ok (VNum m) /\ min_of m a x y.
Proof.
  unfold py_min3, num_lt, min_of.
  destruct (Qlt_le_dec x a) as [Hxa|Hax]; cbn [num_lt].
  - destruct (Qlt_le_dec y x) as [Hyx|Hxy]; eexists; (split; [reflexivity|]);
      split; auto; repeat split; lra.
  - destruct (Qlt_le_dec y a) as [Hya|Hay]; eexists; (split; [reflexivity|]);
      split; auto; repeat split; lra.
Qed.

Variable agents : Agents.
Variable mastra : Mastra.
Variable build_context : string -> AgentContext.

Lemma local_loan_pipeline_follows (context : AgentContext) (amount : Q) :
  follows_local_agents agents context amount
    (local_loan_pipeline agents context amount).
Proof.
  unfold follows_local_agents, local_loan_pipeline, run_agent. cbn [fst snd].
  destruct (execute (FraudGuard agents) context) as [c1 fraud]. cbn [fst snd].
  split.
  - intros ->. reflexivity.
  - intros Hv. rewrite Hv.
    destruct (execute (RiskOracle agents) c1) as [c2 risk]. cbn [fst snd].
    destruct (execute (LoanAdvisor agents) c2) as [c3 advisor]. cbn [fst snd].
    split; [reflexivity|].
    intros recommendation Hrec. rewrite Hrec. cbn [as_dict ActionAgent.as_dict].
    split.
    + intros Hcb. rewrite Hcb. eexists. split; [reflexivity|]. split; reflexivity.
    + intros Hcb risk_recommendation x y Hrisk Hx Hy.
      rewrite Hcb, Hrisk, Hx. cbn [as_dict ActionAgent.as_dict]. rewrite Hy.
      destruct (py_min3_num amount x y) as (m & Hm & Hmin). rewrite Hm.
      eexists. exists m. split; [reflexivity|]. split; [reflexivity|].
      split; [reflexivity|exact Hmin].
Qed.

(** Without a Mastra answer the request is decided by the local agents,
    whichever they are. *)
Lemma loan_request_follows_agents
    (user_id : string) (amount : Q) (purpose circle_id : string) :
  mastra_skipped mastra build_context user_id amount purpose ->
  loan_decision_follows_agents agents mastra build_context
    user_id amount purpose circle_id.
Proof.
  intros Hskip. unfold loan_decision_follows_agents, process_loan_request.
  fold (loan_context build_context user_id).
  assert (E : (if negb (String.eqb (mastra_service_url mastra) "")
               then if truthy (get_none
                         (run_loan_workflow mastra user_id amount purpose
                            (user_data (loan_context build_context user_id)))
                         "success")
                    then Some (mastra_response
                                 (run_loan_workflow mastra user_id amount purpose
                                    (user_data (loan_context build_context user_id)))
                                 amount)
                    else None
               else None) = None).
  { destruct Hskip as [-> | ->]; [reflexivity|].
    destruct (negb _); reflexivity. }
  rewrite E. apply local_loan_pipeline_follows.
Qed.

(** With a Mastra service that reports success its answer is returned and
    no local agent runs. *)
Lemma loan_decision_with_mastra
    (user_id : string) (amount : Q) (purpose circle_id : string) :
  mastra_service_url mastra <> "" ->
  truthy (get_none (run_loan_workflow mastra user_id amount purpose
                      (user_data (loan_context build_context user_id)))
                   "success") = true ->
  process_loan_request agents mastra build_context user_id amount purpose circle_id
  = ([], mastra_response
           (run_loan_workflow mastra user_id amount purpose
              (user_data (loan_context build_context user_id))) amount).
Proof.
  intros Hurl Hok. unfold process_loan_request.
  fold (loan_context build_context user_id). rewrite Hok.
  destruct (String.eqb_spec (mastra_service_url mastra) ""); [contradiction|].
  reflexivity.
Qed.

(** C9.  Whatever agents stand behind FraudGuard and TrustAnalyzer: when
    FraudGuard's verdict on the vouchee is not BLOCK, every response of
    process_vouch_request has recommended = true, whatever TrustAnalyzer
    returned; with a vouch_quality that is a dict (or absent) the response
    is returned, and carries the trust score of the context and the grade
    of the vouch quality (C when absent); and the TrustAnalyzer of this
    repository always returns such a vouch_quality, so that with it a
    response with recommended = true is returned unconditionally. *)
Theorem vouch_recommended_unless_blocked
    (voucher_id vouchee_id circle_id vouch_level : string) :
  let context := set_current_request (build_context vouchee_id)
                   ("Vouch request: " ++ vouch_level ++ " level") in
  let fraud := execute (FraudGuard agents) context in
  let trust := execute (TrustAnalyzer agents) (fst fraud) in
  let out := process_vouch_request agents build_context
               voucher_id vouchee_id circle_id vouch_level in
  is_str (get_none (result_data (snd fraud)) "verdict") "BLOCK" = false ->
  (forall resp, snd out = Ok resp -> recommended resp = true) /\
  (forall vouch_quality,
     get (result_data (snd trust)) "vouch_quality" (VDict []) = VDict vouch_quality ->
     out = ([ "FraudGuard"; "TrustAnalyzer" ],
            Ok (VouchAdvice true (trust_score (fst trust))
                  (get vouch_quality "grade" (VStr "C"))
                  [ reasoning_trace (snd fraud); reasoning_trace (snd trust) ]))) /\
  (TrustAnalyzer agents = TrustAnalyzer.TrustAnalyzerAgent ->
   exists resp, snd out = Ok resp /\ recommended resp = true).
Proof.
  cbv zeta. unfold process_vouch_request, run_agent. cbn [fst snd].
  destruct (execute (FraudGuard agents) _) as [c1 fraud]. cbn [fst snd].
  intros Hv. rewrite Hv. split; [|split].
  - destruct (execute (TrustAnalyzer agents) c1) as [c2 trust]. cbn [fst snd].
    intros resp.
    destruct (as_dict (get (result_data trust) "vouch_quality" (VDict [])));
      [|discriminate].
    intros [= <-]. reflexivity.
  - destruct (execute (TrustAnalyzer agents) c1) as [c2 trust]. cbn [fst snd].
    intros vouch_quality ->. reflexivity.
  - intros ->. cbn [execute TrustAnalyzer.TrustAnalyzerAgent].
    destruct (trust_analyzer_vouch_quality c1) as [q Hq].
    destruct (TrustAnalyzer.execute c1) as [c2 trust]. cbn [fst snd] in *.
    rewrite Hq. eexists. split; reflexivity.
Qed.
End OrchestratorClaims.

Section OrchestratorScenarios.
Import Json Engine Orchestrator Scenarios.

(** C1 (as amended).  For every loan request for which no Mastra address
    is configured or the Mastra workflow does not report success: if
    FraudGuard's verdict is BLOCK a decline is returned after FraudGuard
    alone has run; otherwise FraudGuard, RiskOracle and LoanAdvisor run, a
    response is returned, its approved flag is the truth value of
    LoanAdvisor's can_borrow (false when absent, as after a failure), and
    when approved the approved amount is the minimum of the requested
    amount, LoanAdvisor's max_amount and RiskOracle's max_loan (0 when
    absent). *)
Theorem loan_decision_without_mastra
    (now : Z) (sign : dict -> result string) (llm : Nova.LLM)
    (mastra : Mastra) (build_context : string -> AgentContext)
    (user_id : string) (amount : Q) (purpose circle_id : string) :
  mastra_skipped mastra build_context user_id amount purpose ->
  let agents := kredefy_agents now sign llm in
  let fraud := execute (FraudGuard agents) (loan_context build_context user_id) in
  let risk := execute (RiskOracle agents) (fst fraud) in
  let advisor := execute (LoanAdvisor agents) (fst risk) in
  let out := process_loan_request agents mastra build_context
               user_id amount purpose circle_id in
  let verdict := get_none (result_data (snd fraud)) "verdict" in
  (is_str verdict "BLOCK" = true ->
   out = ([ "FraudGuard" ],
          Ok (SecurityDecline "Security check failed"
                [ reasoning_trace (snd fraud) ]))) /\
  (is_str verdict "BLOCK" = false ->
   fst out = [ "FraudGuard"; "RiskOracle"; "LoanAdvisor" ] /\
   exists resp recommendation risk_recommendation,
     snd out = Ok resp /\
     get (result_data (snd advisor)) "recommendation" (VDict []) = VDict recommendation /\
     get (result_data (snd risk)) "recommendation" (VDict [])
       = VDict risk_recommendation /\
     let can_borrow := truthy (get recommendation "can_borrow" (VBool false)) in
     approved resp = VBool can_borrow /\
     (can_borrow = false -> approved_amount resp = None) /\
     (can_borrow = true ->
      exists m x y,
        approved_amount resp = Some (VNum m) /\
        get recommendation "max_amount" (VNum 0) = VNum x /\
        get risk_recommendation "max_loan" (VNum 0) = VNum y /\
        min_of m amount x y)).
Proof.
  intros Hskip agents fraud risk advisor out verdict.
  pose proof (loan_request_follows_agents agents mastra build_context
                user_id amount purpose circle_id Hskip) as [Hblock Hother].
  fold fraud risk advisor out verdict in Hblock, Hother.
  split; [exact Hblock|].
  intros Hv. destruct (Hother Hv) as [Hran Hrec]. split; [exact Hran|].
  destruct (loan_advisor_recommendation (fst risk)) as (recommendation & Hadv & Hmax).
  destruct (risk_oracle_recommendation now sign (fst fraud))
    as (risk_recommendation & Hrisk & Hnum).
  destruct (Hnum 0%Q) as [y Hy].
  change (LoanAdvisor.execute (fst risk)) with advisor in Hadv.
  change (RiskOracle.execute now sign (fst fraud)) with risk in Hrisk.
  destruct (Hrec recommendation Hadv) as [Hno Hyes].
  destruct (truthy (get recommendation "can_borrow" (VBool false))) eqn:Hcb.
  - destruct (Hmax eq_refl) as [x Hx].
    destruct (Hyes eq_refl risk_recommendation x y Hrisk Hx Hy)
      as (resp & m & Hresp & Happ & Hamt & Hmin).
    exists resp, recommendation, risk_recommendation.
    split; [exact Hresp|]. split; [exact Hadv|]. split; [exact Hrisk|].
    cbv zeta. rewrite Hcb. split; [exact Happ|]. split; [discriminate|].
    intros _. exists m, x, y. auto.
  - destruct (Hno eq_refl) as (resp & Hresp & Happ & Hamt).
    exists resp, recommendation, risk_recommendation.
    split; [exact Hresp|]. split; [exact Hadv|]. split; [exact Hrisk|].
    cbv zeta. rewrite Hcb. split; [exact Happ|]. split; [intros _; exact Hamt|].
    discriminate.
Qed.

Lemma newcomer_verdict_is_clear :
  get_none (result_data (snd (execute (FraudGuard (agents_at 0))
                                (loan_context newcomers "u1")))) "verdict"
  = VStr "CLEAR".
Proof. vm_compute. reflexivity. Qed.

(** A newcomer (trust score 10) asks for 1000 and there is no Mastra
    service: the three agents run and the request is declined. *)
Lemma loan_decision_without_mastra_witness :
  mastra_skipped no_mastra newcomers "u1" 1000 "shop" /\
  let out := process_loan_request (agents_at 0) no_mastra newcomers
               "u1" 1000 "shop" "c1" in
  fst out = [ "FraudGuard"; "RiskOracle"; "LoanAdvisor" ] /\
  exists resp, snd out = Ok resp /\ approved resp = VBool false /\
               approved_amount resp = None.
Proof.
  assert (Hskip : mastra_skipped no_mastra newcomers "u1" 1000 "shop")
    by (left; reflexivity).
  split; [exact Hskip|].
  pose proof (loan_decision_without_mastra 0 fixed_signer loan_llm no_mastra
                newcomers "u1" 1000 "shop" "c1" Hskip) as H.
  cbv zeta in H. destruct H as [_ H].
  fold (agents_at 0) in H. rewrite newcomer_verdict_is_clear in H.
  destruct (H eq_refl) as (Hran & resp & rec & rrec & Hresp & Hadv & _ & Happ & Hamt & _).
  cbv zeta. split; [exact Hran|]. exists resp. split; [exact Hresp|].
  assert (Hrec : rec = LoanAdvisor.trust_too_low).
  { assert (E : get (result_data (snd (LoanAdvisor.execute
                 (fst (execute (RiskOracle (agents_at 0))
                    (fst (execute (FraudGuard (agents_at 0))
                       (loan_context newcomers "u1")))))))) "recommendation" (VDict [])
                = VDict LoanAdvisor.trust_too_low).
    { change (execute (RiskOracle (agents_at 0)))
        with (RiskOracle.execute 0 fixed_signer).
      rewrite (loan_advisor_reads_data _ _
                 (risk_oracle_context 0 fixed_signer
                    (fst (execute (FraudGuard (agents_at 0))
                            (loan_context newcomers "u1"))))).
      vm_compute. reflexivity. }
    change (execute (LoanAdvisor (agents_at 0))) with LoanAdvisor.execute in Hadv.
    rewrite E in Hadv. congruence. }
  subst rec. split; [exact Happ|]. apply Hamt. reflexivity.
Defined.

(** C1 (as stated) fails when the Mastra workflow reports success: its
    approval is returned, no local agent runs, and LoanAdvisor would have
    refused the newcomer (trust score 10). *)
Lemma mastra_decision_counterexample :
  process_loan_request (agents_at 0) approving_mastra newcomers
    "u1" 40000 "shop" "c1"
  = ([], Ok (MastraDecision (VBool true) (VNum 40000) 40000 VNone (VDict []) [])) /\
  get (result_data (snd (LoanAdvisor.execute (loan_context newcomers "u1"))))
      "recommendation" (VDict [])
  = VDict LoanAdvisor.trust_too_low /\
  ~ loan_decision_follows_agents (agents_at 0) approving_mastra newcomers
      "u1" 40000 "shop" "c1".
Proof.
  assert (Hout : process_loan_request (agents_at 0) approving_mastra newcomers
                   "u1" 40000 "shop" "c1"
                 = ([], Ok (MastraDecision (VBool true) (VNum 40000) 40000 VNone
                              (VDict []) []))).
  { rewrite loan_decision_with_mastra; [reflexivity|discriminate|reflexivity]. }
  split; [exact Hout|]. split; [vm_compute; reflexivity|].
  unfold loan_decision_follows_agents, follows_local_agents.
  rewrite Hout. cbv zeta. rewrite newcomer_verdict_is_clear.
  intros [_ Hother]. destruct (Hother eq_refl) as [Hran _].
  discriminate Hran.
Qed.

(** A newcomer without vouches: grade D, and still recommended. *)
Lemma vouch_recommended_unless_blocked_witness :
  process_vouch_request (agents_at 0) newcomers "u2" "u1" "c1" "basic"
  = ([ "FraudGuard"; "TrustAnalyzer" ],
     Ok (VouchAdvice true 10 (VStr "D")
           [ reasoning_trace (snd (execute (FraudGuard (agents_at 0))
               (set_current_request (newcomers "u1") "Vouch request: basic level")));
             reasoning_trace (snd (execute (TrustAnalyzer (agents_at 0))
               (fst (execute (FraudGuard (agents_at 0))
                  (set_current_request (newcomers "u1")
                     "Vouch request: basic level"))))) ])).
Proof.
  pose proof (vouch_recommended_unless_blocked (agents_at 0) newcomers
                "u2" "u1" "c1" "basic") as H.
  cbv zeta in H.
  assert (Hv : is_str (get_none (result_data (snd (execute (FraudGuard (agents_at 0))
                 (set_current_request (newcomers "u1")
                    ("Vouch request: " ++ "basic" ++ " level"))))) "verdict") "BLOCK"
               = false) by (vm_compute; reflexivity).
  destruct (H Hv) as (_ & Hret & _).
  rewrite (Hret (TrustAnalyzer.quality_dict (TrustAnalyzer.mkQuality "D" 0 0 0))).
  - reflexivity.
  - vm_compute. reflexivity.
Defined.

(** The synthesizer, first rule: when ActionAgent's result holds an
    action, the payload is that action with ActionAgent's message (or
    "I'm on it!" when it has none), its [target] entry, its [state] as
    data and its guide steps. *)
Theorem synthesizer_passes_action (context : AgentContext) (action_result : dict) :
  agent_results context !! "ActionAgent" = Some action_result ->
  truthy (get_none action_result "action") = true ->
  _synthesize_response context
  = Ok [ ("message", get action_result "message" (VStr "I'm on it!"));
         ("action", get_none action_result "action");
         ("target", get_none action_result "target");
         ("data", get_none action_result "state");
         ("guide_steps", get_none action_result "guide_steps") ].
Proof.
  intros Hres Hact. unfold _synthesize_response, agent_result_of.
  rewrite Hres, Hact. reflexivity.
Qed.

(** C6 at the loan draft.  For a user in a circle whose request Nova read
    as loan_request, ActionAgent returns a GUIDE_FLOW whose path
    "/loans/apply" sits under the key [screen]; the synthesizer reads the
    key [target], which the draft does not have, so the synthesized
    payload has the prefilled amount, circle and purpose but target None
    (and no screen). *)
Lemma guide_flow_loses_target :
  let r := snd (ActionAgent.execute draft_context) in
  let synthesized :=
    _synthesize_response (set_agent_result draft_context "ActionAgent" (result_data r)) in
  success r = true /\
  get_none (result_data r) "action" = VStr "GUIDE_FLOW" /\
  get_none (result_data r) "screen" = VStr "/loans/apply" /\
  lookup (result_data r) "target" = None /\
  exists payload,
    synthesized = Ok payload /\
    get_none payload "message" = VStr "I'm on it!" /\
    get_none payload "action" = VStr "GUIDE_FLOW" /\
    get_none payload "data"
      = VDict [ ("amount", VNum 10000); ("circle_id", VStr "c1");
                ("purpose", VStr "Emergency Support") ] /\
    get_none payload "target" = VNone /\
    lookup payload "screen" = None.
Proof.
  cbv zeta.
  assert (Hr : result_data (snd (ActionAgent.execute draft_context))
               = ActionAgent.loan_draft
                   (mkCircle (Some "c1") (Some "Family") None (Some 5%Q))
                   (VNum 10000)) by (vm_compute; reflexivity).
  rewrite Hr.
  split; [vm_compute; reflexivity|].
  split; [reflexivity|]. split; [reflexivity|]. split; [reflexivity|].
  eexists. split.
  - apply synthesizer_passes_action.
    + simpl. apply lookup_insert_eq.
    + reflexivity.
  - repeat split; reflexivity.
Qed.
(** C6 through the whole chat pipeline.  For every user who is in a circle
    and every message that the language model reads as a loan_request:
    the loan_request workflow runs after Nova, and the chat response has
    action GUIDE_FLOW, message "I'm on it!", the prefilled state as data,
    ActionAgent's guide steps, but target None and screen None: the path
    "/loans/apply" of the draft is lost. *)
Theorem loan_chat_loses_target (now : Z) (sign : dict -> result string)
    (llm : Nova.LLM) (context : AgentContext) (c : Circle) (cs : list Circle)
    (d : dict) (q : Q) :
  circles context = c :: cs ->
  Nova.detect llm (match current_request context with Some r => r | None => "" end)
              (language context) = Ok (VDict d) ->
  lookup d "intent" = Some (VStr "loan_request") ->
  get d "confidence" (VNum (8 # 10)) = VNum q ->
  valid_confidence q = true ->
  exists resp amount,
    local_message_pipeline (kredefy_agents now sign llm) context
    = ([ "Nova"; "FraudGuard"; "RiskOracle"; "LoanAdvisor"; "ActionAgent" ], Ok resp) /\
    response resp = VStr "I'm on it!" /\
    chat_action resp = VStr "GUIDE_FLOW" /\
    chat_data resp = VDict [ ("amount", VNum amount);
                             ("circle_id", of_option_str (circle_id c));
                             ("purpose", VStr "Emergency Support") ] /\
    chat_guide_steps resp
    = get_none (ActionAgent.loan_draft c (VNum amount)) "guide_steps" /\
    chat_target resp = VNone /\
    chat_screen resp = VNone.
Proof.
  intros Hc Hdetect Hintent Hconf Hvalid.
  destruct (nova_hands_loan_request_on llm context d q Hdetect Hintent Hconf Hvalid)
    as [tN HN].
  unfold local_message_pipeline, run_agent.
  cbn [Nova kredefy_agents execute Nova.NovaAgent fst snd].
  rewrite HN. cbn [fst snd result_data next_agent Nova.handoff reasoning_trace].
  change (get [("needs_specialist", VBool true); ("intent", VStr "loan_request")]
              "intent" (VStr ""))
    with (VStr "loan_request").
  change (workflow_for (VStr "loan_request") "LoanAdvisor")
    with (Ok [ "FraudGuard"; "RiskOracle"; "LoanAdvisor"; "ActionAgent" ]).
  set (novaR := [("needs_specialist", VBool true); ("intent", VStr "loan_request")]).
  set (cN := set_agent_result context "Nova" novaR).
  cbn [run_workflow].
  change (agent_named (kredefy_agents now sign llm) "FraudGuard")
    with (Some (FraudGuard.FraudGuardAgent now)).
  change (agent_named (kredefy_agents now sign llm) "RiskOracle")
    with (Some (RiskOracle.RiskOracleAgent now sign)).
  change (agent_named (kredefy_agents now sign llm) "LoanAdvisor")
    with (Some LoanAdvisor.LoanAdvisorAgent).
  change (agent_named (kredefy_agents now sign llm) "ActionAgent")
    with (Some ActionAgent.ActionAgentInstance).
  cbv beta iota.
  cbn [execute FraudGuard.FraudGuardAgent RiskOracle.RiskOracleAgent
       LoanAdvisor.LoanAdvisorAgent ActionAgent.ActionAgentInstance fst snd].
  pose proof (fraud_guard_context now cN) as KF.
  destruct (FraudGuard.execute now cN) as [cF rF]. cbn [fst snd] in *.
  set (cF' := set_agent_result cF "FraudGuard" (result_data rF)).
  pose proof (risk_oracle_context now sign cF') as KR.
  destruct (risk_oracle_recommendation now sign cF') as (rec & Hrec & Hnum).
  destruct (Hnum 10000%Q) as [amount Hamount].
  destruct (RiskOracle.execute now sign cF') as [cR rR]. cbn [fst snd] in *.
  set (cR' := set_agent_result cR "RiskOracle" (result_data rR)).
  pose proof (loan_advisor_context cR') as KL.
  destruct (LoanAdvisor.execute cR') as [cL rL]. cbn [fst snd] in *.
  set (cL' := set_agent_result cL "LoanAdvisor" (result_data rL)).
  apply keeps_data_fields in KF, KR, KL.
  destruct KF as [KF1 KF2], KR as [KR1 KR2], KL as [KL1 KL2].
  assert (Hcircles : circles cL' = c :: cs).
  { subst cL' cR' cF' cN. cbn [circles set_agent_result] in *.
    congruence. }
  assert (Hres : agent_results cL'
                 = <["LoanAdvisor" := result_data rL]>
                     (<["RiskOracle" := result_data rR]>
                        (<["FraudGuard" := result_data rF]>
                           (<["Nova" := novaR]> (agent_results context))))).
  { subst cL' cR' cF' cN. cbn [agent_results set_agent_result] in *.
    rewrite KL2, KR2, KF2. reflexivity. }
  assert (HlN : agent_results cL' !! "Nova" = Some novaR).
  { rewrite Hres. rewrite !lookup_insert_ne by discriminate.
    apply lookup_insert_eq. }
  assert (HlR : agent_results cL' !! "RiskOracle" = Some (result_data rR)).
  { rewrite Hres. rewrite lookup_insert_ne by discriminate.
    apply lookup_insert_eq. }
  destruct (action_agent_drafts cL' c cs novaR (result_data rR) rec (VNum amount)
              Hcircles HlN eq_refl HlR Hrec Hamount) as [tA HA].
  rewrite HA.
  cbn [fst snd result_data reasoning_trace].
  erewrite synthesizer_passes_action;
    [|cbn [agent_results set_agent_result]; apply lookup_insert_eq|reflexivity].
  eexists. exists amount. split; [reflexivity|].
  repeat split; reflexivity.
Qed.

(** The member of circle c1 asks for a loan in the chat. *)
Lemma loan_chat_loses_target_witness :
  exists resp amount,
    local_message_pipeline (agents_at 0) member_context
    = ([ "Nova"; "FraudGuard"; "RiskOracle"; "LoanAdvisor"; "ActionAgent" ], Ok resp) /\
    response resp = VStr "I'm on it!" /\
    chat_action resp = VStr "GUIDE_FLOW" /\
    chat_data resp = VDict [ ("amount", VNum amount);
                             ("circle_id", VStr "c1");
                             ("purpose", VStr "Emergency Support") ] /\
    chat_guide_steps resp
    = get_none (ActionAgent.loan_draft
                  (mkCircle (Some "c1") (Some "Family") None (Some 5%Q))
                  (VNum amount)) "guide_steps" /\
    chat_target resp = VNone /\
    chat_screen resp = VNone.
Proof.
  apply (loan_chat_loses_target 0 fixed_signer loan_llm member_context
           (mkCircle (Some "c1") (Some "Family") None (Some 5%Q)) []
           [ ("intent", VStr "loan_request"); ("confidence", VNum (9 # 10)) ]
           (9 # 10));
    reflexivity.
Defined.
End OrchestratorScenarios.

(* ================================================================== *)
(** * Further properties of the modelled code                           *)
(* ================================================================== *)

Section EngineInvariants.
Import Json Engine.
Local Open Scope Q_scope.

Lemma forallb_map_eq {A B} (f : B -> bool) (g : A -> B) (l : list A) :
  forallb f (map g l) = forallb (fun x => f (g x)) l.
Proof. induction l as [|x l IH]; simpl; [reflexivity|rewrite IH; reflexivity]. Qed.

Lemma add_thought_steps t ty c q t' :
  add_thought t ty c q = Ok t' ->
  steps t' = steps t ++ [ mkStep (length (steps t) + 1) ty c q ] /\
  valid_confidence q = true.
Proof.
  unfold add_thought. destruct (valid_confidence q); [|discriminate].
  intros [= <-]. split; reflexivity.
Qed.

Lemma apply_op_steps t op t' :
  apply_op t op = Ok t' ->
  exists ty c,
    steps t' = steps t ++ [ mkStep (length (steps t) + 1) ty c (op_confidence op) ] /\
    valid_confidence (op_confidence op) = true.
Proof.
  destruct op as [ty c q|d q]; simpl.
  - intros H. apply add_thought_steps in H. eauto.
  - unfold conclude. destruct (add_thought t CONCLUSION d q) as [t1|e] eqn:E;
      [|discriminate].
    intros [= <-]. simpl. apply add_thought_steps in E. eauto.
Qed.

Lemma apply_ops_steps ops : forall t t',
  apply_ops t ops = Ok t' ->
  map step_number (steps t')
  = map step_number (steps t) ++ seq (length (steps t) + 1) (length ops) /\
  confidences (steps t') = confidences (steps t) ++ map op_confidence ops /\
  forallb valid_confidence (map op_confidence ops) = true.
Proof.
  induction ops as [|op ops IH]; intros t t'; simpl.
  - intros [= <-]. rewrite !app_nil_r. auto.
  - destruct (apply_op t op) as [t1|e] eqn:E; [|discriminate].
    intros Hrun. destruct (apply_op_steps _ _ _ E) as (ty & c & Hs & Hv).
    destruct (IH _ _ Hrun) as (Hn & Hc & Hvs).
    rewrite Hn, Hc, Hv, Hvs, Hs. unfold confidences.
    rewrite !map_app, length_app. simpl.
    rewrite <- !app_assoc. simpl.
    replace (length (steps t) + 1 + 1)%nat with (S (length (steps t) + 1)) by lia.
    auto.
Qed.

(** X1.  Steps are numbered 1, 2, ..., n without gaps: a trace built from
    a fresh one by any run of operations that does not raise holds one
    step per operation, the i-th of them numbered i and carrying the
    confidence of the i-th operation. *)
Theorem steps_numbered_from_one (id agent task : string) (ops : list trace_op)
    (t : ReasoningTrace) :
  apply_ops (new_trace id agent task) ops = Ok t ->
  map step_number (steps t) = seq 1 (length ops) /\
  confidences (steps t) = map op_confidence ops.
Proof.
  intros H. destruct (apply_ops_steps _ _ _ H) as (Hn & Hc & _).
  split; [exact Hn|exact Hc].
Qed.

Lemma steps_numbered_from_one_witness :
  exists t,
    apply_ops (new_trace "t1" "Nova" "reply") Scenarios.concluded_ops = Ok t /\
    map step_number (steps t) = [1; 2; 3]%nat /\
    confidences (steps t) = [95 # 100; 8 # 10; 88 # 100].
Proof.
  eexists. split; [reflexivity|].
  apply (steps_numbered_from_one "t1" "Nova" "reply" Scenarios.concluded_ops).
  reflexivity.
Defined.

(** X2.  A run of trace operations raises exactly when one of its
    confidences lies outside [0, 1], and then with the validation error
    of the step model; otherwise it runs to the end. *)
Theorem run_raises_iff_confidence_invalid (t : ReasoningTrace) (ops : list trace_op) :
  (forallb valid_confidence (map op_confidence ops) = true <->
   exists t', apply_ops t ops = Ok t') /\
  (forallb valid_confidence (map op_confidence ops) = false <->
   apply_ops t ops = Raise "ValidationError").
Proof.
  assert (Hfalse : forall ops t,
            forallb valid_confidence (map op_confidence ops) = false ->
            apply_ops t ops = Raise "ValidationError").
  { clear. induction ops as [|op ops IH]; intros t; simpl; [discriminate|].
    destruct (valid_confidence (op_confidence op)) eqn:Hv; simpl.
    - intros H.
      assert (Hstep : exists t1, apply_op t op = Ok t1).
      { destruct op; simpl in *; unfold conclude, add_thought; rewrite Hv; eauto. }
      destruct Hstep as [t1 ->]. apply IH. exact H.
    - intros _. destruct op; simpl in *; unfold conclude, add_thought;
        rewrite Hv; reflexivity. }
  split; split.
  - intros H. apply apply_ops_valid. rewrite forallb_map_eq in H. exact H.
  - intros [t' H]. apply apply_ops_steps in H. tauto.
  - apply Hfalse.
  - intros H.
    destruct (forallb valid_confidence (map op_confidence ops)) eqn:E; [|reflexivity].
    rewrite forallb_map_eq in E.
    destruct (apply_ops_valid t ops E) as [t' Ht']. congruence.
Qed.

Lemma fold_right_Qplus_app (xs ys : list Q) :
  fold_right Qplus 0 (xs ++ ys) == fold_right Qplus 0 xs + fold_right Qplus 0 ys.
Proof. induction xs as [|x xs IH]; simpl; [ring|rewrite IH; ring]. Qed.

Lemma conclude_total t d q t' :
  conclude t d q = Ok t' ->
  final_decision t' = Some d /\
  total_confidence t'
  == fold_right Qplus 0 (confidences (steps t'))
     / inject_Z (Z.of_nat (length (steps t'))).
Proof.
  unfold conclude. destruct (add_thought t CONCLUSION d q) as [t1|e]; [|discriminate].
  intros [= <-]. simpl. split; [reflexivity|].
  unfold Py.qsum. rewrite qsum_fold_right, Qplus_0_l. reflexivity.
Qed.

(** X3.  The final decision and the total confidence are those of the
    last [conclude]: steps added after it leave both as they are, so that
    the total confidence is the mean of the confidences up to that
    [conclude], not of all the steps the trace then holds, and the last
    step need not be the conclusion. *)
Theorem steps_after_conclude_keep_decision (id agent task : string)
    (before after : list trace_op) (d : string) (q : Q) (t : ReasoningTrace) :
  forallb (fun op => negb (is_conclude op)) after = true ->
  apply_ops (new_trace id agent task) (before ++ Conclude d q :: after) = Ok t ->
  final_decision t = Some d /\
  total_confidence t == mean_of_ops (before ++ [Conclude d q]) /\
  length (steps t) = (length before + 1 + length after)%nat.
Proof.
  intros Hafter Hrun.
  pose proof (apply_ops_steps _ _ _ Hrun) as Hsteps.
  destruct Hsteps as (Hn & _ & _).
  change (before ++ Conclude d q :: after)
    with (before ++ [Conclude d q] ++ after) in Hrun.
  rewrite app_assoc, apply_ops_app in Hrun.
  destruct (apply_ops (new_trace id agent task) (before ++ [Conclude d q]))
    as [t1|e] eqn:E1; [|discriminate].
  destruct (apply_ops_unconcluded _ _ _ Hafter Hrun) as [Htc Hfd].
  pose proof (apply_ops_steps _ _ _ E1) as (_ & Hc1 & _).
  rewrite apply_ops_app in E1.
  destruct (apply_ops (new_trace id agent task) before) as [t0|e] eqn:E0;
    [|discriminate].
  simpl in E1. destruct (conclude t0 d q) as [t2|e] eqn:E2; [|discriminate].
  injection E1 as <-. destruct (conclude_total _ _ _ _ E2) as [Hd Hm].
  rewrite Hfd, Htc. split; [exact Hd|]. split.
  - rewrite Hm. unfold mean_of_ops. simpl in Hc1. rewrite Hc1.
    unfold confidences. rewrite <- (length_map confidence (steps t2)).
    fold (confidences (steps t2)). rewrite Hc1, length_map. reflexivity.
  - apply (f_equal (@length nat)) in Hn. rewrite length_map in Hn.
    rewrite Hn. simpl. rewrite length_seq, length_app. simpl. lia.
Qed.

Lemma steps_after_conclude_keep_decision_witness :
  exists t,
    apply_ops (new_trace "t1" "Nova" "reply")
      ([ Thought OBSERVATION "seen" 1 ] ++ Conclude "done" 1
         :: [ Thought REFLECTION "afterthought" 0 ]) = Ok t /\
    final_decision t = Some "done" /\
    total_confidence t == 1 /\
    length (steps t) = 3%nat.
Proof.
  eexists. split; [reflexivity|].
  destruct (steps_after_conclude_keep_decision "t1" "Nova" "reply"
              [ Thought OBSERVATION "seen" 1 ] [ Thought REFLECTION "afterthought" 0 ]
              "done" 1 _ eq_refl eq_refl) as (H1 & H2 & H3).
  split; [exact H1|]. split; [|exact H3].
  rewrite H2. reflexivity.
Defined.

Lemma mean_bounds (xs : list Q) :
  xs <> [] ->
  forallb valid_confidence xs = true ->
  0 <= fold_right Qplus 0 xs / inject_Z (Z.of_nat (length xs)) <= 1.
Proof.
  intros Hne Hv.
  assert (Hsum : 0 <= fold_right Qplus 0 xs <= inject_Z (Z.of_nat (length xs))).
  { clear Hne. induction xs as [|x xs IH]; cbn [forallb fold_right length] in *.
    - split; apply Qle_refl.
    - apply andb_true_iff in Hv. destruct Hv as [Hx Hxs].
      unfold valid_confidence in Hx. apply andb_true_iff in Hx.
      destruct Hx as [H0 H1]. apply Qle_bool_iff in H0, H1.
      destruct (IH Hxs) as [L U].
      rewrite Nat2Z.inj_succ, <- Z.add_1_r, inject_Z_plus.
      split.
      + replace 0 with (0 + 0) by reflexivity. apply Qplus_le_compat; assumption.
      + rewrite Qplus_comm. apply Qplus_le_compat; assumption. }
  assert (Hpos : 0 < inject_Z (Z.of_nat (length xs))).
  { destruct xs; [congruence|]. cbn [length].
    rewrite Nat2Z.inj_succ. unfold Qlt, inject_Z. simpl. lia. }
  destruct Hsum as [L U]. split.
  - apply Qle_shift_div_l; [exact Hpos|]. rewrite Qmult_0_l. exact L.
  - apply Qle_shift_div_r; [exact Hpos|]. rewrite Qmult_1_l. exact U.
Qed.

Lemma conclude_bounds t d q t' :
  forallb valid_confidence (confidences (steps t)) = true ->
  conclude t d q = Ok t' ->
  0 <= total_confidence t' <= 1.
Proof.
  intros Hv H. destruct (conclude_total _ _ _ _ H) as [_ Hm].
  unfold conclude in H.
  destruct (add_thought t CONCLUSION d q) as [t1|e] eqn:E; [|discriminate].
  injection H as <-. simpl in *. rewrite Hm.
  destruct (add_thought_steps _ _ _ _ _ E) as [Hs Hq].
  rewrite <- (length_map confidence (steps t1)).
  apply mean_bounds.
  - rewrite Hs. destruct (steps t); discriminate.
  - fold (confidences (steps t1)). rewrite Hs. unfold confidences in *.
    rewrite map_app, forallb_app, Hv. simpl. rewrite Hq. reflexivity.
Qed.

Lemma apply_ops_bounds ops : forall t t',
  forallb valid_confidence (confidences (steps t)) = true ->
  0 <= total_confidence t <= 1 ->
  apply_ops t ops = Ok t' ->
  0 <= total_confidence t' <= 1.
Proof.
  induction ops as [|op ops IH]; intros t t' Hv Hb; simpl.
  - intros [= <-]. exact Hb.
  - destruct (apply_op t op) as [t1|e] eqn:E; [|discriminate].
    intros Hrun. apply (IH t1); [| |exact Hrun].
    + destruct (apply_op_steps _ _ _ E) as (ty & c & Hs & Hq).
      rewrite Hs. unfold confidences in *. rewrite map_app, forallb_app, Hv.
      simpl. rewrite Hq. reflexivity.
    + destruct op as [ty c q|d q]; simpl in E.
      * apply add_thought_total_confidence in E. destruct E as [-> _]. exact Hb.
      * eapply conclude_bounds; eauto.
Qed.

(** X4.  The total confidence of a trace never leaves [0, 1]: whatever
    operations were run on a fresh trace, concluded or not. *)
Theorem total_confidence_in_unit_interval (id agent task : string)
    (ops : list trace_op) (t : ReasoningTrace) :
  apply_ops (new_trace id agent task) ops = Ok t ->
  0 <= total_confidence t <= 1.
Proof.
  apply apply_ops_bounds; [reflexivity|].
  split; [apply Qle_refl|discriminate].
Qed.

Lemma total_confidence_in_unit_interval_witness :
  exists t,
    apply_ops (new_trace "t1" "Nova" "reply") Scenarios.concluded_ops = Ok t /\
    0 <= total_confidence t <= 1.
Proof.
  eexists. split; [reflexivity|].
  apply (total_confidence_in_unit_interval "t1" "Nova" "reply"
           Scenarios.concluded_ops).
  reflexivity.
Defined.
End EngineInvariants.

Section BreakerInvariants.
Import Engine Breaker.
Local Open Scope Z_scope.

Lemma aenter_well_formed self now self1 r :
  1 <= success_threshold self ->
  well_formed self ->
  __aenter__ self now = (self1, r) ->
  well_formed self1.
Proof.
  unfold well_formed, __aenter__. intros Hs (Hf & Hst).
  destruct (state self) eqn:Est; try (intros [= <- _]; rewrite Est; auto).
  destruct (last_failure_time self) as [last|] eqn:El; [|congruence].
  destruct (_ <=? _); intros [= <- _]; simpl.
  - split; [exact Hf|]. split; [rewrite ?El; discriminate|lia].
  - rewrite Est, ?El. split; [exact Hf|discriminate].
Qed.

Lemma aexit_well_formed self now raised :
  1 <= failure_threshold self ->
  well_formed self ->
  well_formed (__aexit__ self now raised).
Proof.
  unfold well_formed, __aexit__, _record_failure, _record_success.
  intros Hthr (Hf & Hst).
  destruct raised, (state self) eqn:Est; simpl in *;
    repeat match goal with
           | |- context [(?a <=? ?b)] => destruct (Z.leb_spec a b); simpl
           end;
    rewrite ?Est; simpl;
    intuition (try lia; try congruence; try discriminate).
Qed.

Lemma aexit_settings self now raised :
  same_settings self (__aexit__ self now raised).
Proof.
  unfold same_settings, __aexit__, _record_failure, _record_success.
  destruct raised; destruct (state self); simpl; auto;
    destruct (_ <=? _); simpl; auto.
Qed.

Lemma run_calls_inv calls : forall self,
  1 <= failure_threshold self ->
  1 <= success_threshold self ->
  well_formed self ->
  same_settings self (run_calls self calls) /\ well_formed (run_calls self calls).
Proof.
  induction calls as [|c calls IH]; intros self Hf Hs Hwf; simpl.
  - split; [unfold same_settings; auto|exact Hwf].
  - destruct (__aenter__ self (t_enter c)) as [self1 r] eqn:Henter.
    pose proof (aenter_settings _ _ _ _ Henter) as (S1 & S2 & S3).
    pose proof (aenter_well_formed _ _ _ _ Hs Hwf Henter) as Hwf1.
    destruct r as [[]|e].
    + pose proof (aexit_settings self1 (t_exit c) (raised c)) as (E1 & E2 & E3).
      destruct (IH (__aexit__ self1 (t_exit c) (raised c))) as ((R1 & R2 & R3) & Hwf').
      * lia.
      * lia.
      * apply aexit_well_formed; [lia|exact Hwf1].
      * split; [unfold same_settings; repeat split; congruence|exact Hwf'].
    + destruct (IH self1) as ((R1 & R2 & R3) & Hwf'); [lia|lia|exact Hwf1|].
      split; [unfold same_settings; repeat split; congruence|exact Hwf'].
Qed.

(** X5.  Whatever calls went through a breaker built with thresholds of
    at least 1 (succeeding, failing or rejected, at any times): while it
    is CLOSED it has counted fewer failures than its threshold, while it
    is OPEN or HALF_OPEN the time of the last failure is known (so an
    OPEN breaker always checks the elapsed time before it lets a call
    in), and while it is HALF_OPEN it has seen fewer successes than its
    success threshold. *)
Theorem breaker_states_are_consistent
    (name : string) (failure_threshold recovery_timeout success_threshold : Z)
    (calls : list Call) :
  1 <= failure_threshold ->
  1 <= success_threshold ->
  well_formed (run_calls (init name failure_threshold recovery_timeout
                                success_threshold) calls).
Proof.
  intros Hf Hs.
  apply (run_calls_inv calls
           (init name failure_threshold recovery_timeout success_threshold));
    [exact Hf|exact Hs|].
  unfold well_formed, init. simpl. lia.
Qed.

Lemma breaker_states_are_consistent_witness :
  well_formed (run_calls dodo_circuit
                 [ mkCall 0 1 true; mkCall 1 2 false; mkCall 2 3 true ]).
Proof.
  apply (breaker_states_are_consistent "dodo_payments" 5 30 2); lia.
Defined.

(** The breaker after [n] calls in a row that were let through and
    returned. *)
Lemma successes_in_half_open calls : forall self,
  state self = HALF_OPEN ->
  0 <= success_count self ->
  Forall (fun c => raised c = false) calls ->
  success_count self + Z.of_nat (length calls) < success_threshold self ->
  let self' := run_calls self calls in
  state self' = HALF_OPEN /\
  success_count self' = success_count self + Z.of_nat (length calls) /\
  failure_count self' = failure_count self /\
  last_failure_time self' = last_failure_time self /\
  same_settings self self'.
Proof.
  induction calls as [|c calls IH]; intros self Hst Hc Hall Hlt; cbn [run_calls].
  - cbv zeta. simpl. unfold same_settings. repeat split; auto; lia.
  - inversion Hall as [|c' calls' Hr Hall']; subst.
    unfold __aenter__. rewrite Hst. unfold __aexit__. rewrite Hr.
    unfold _record_success. rewrite Hst.
    cbn [length] in Hlt. rewrite Nat2Z.inj_succ in Hlt.
    destruct (Z.leb_spec (success_threshold self) (success_count self + 1)); [lia|].
    set (self1 := set_state self HALF_OPEN (failure_count self)
                            (success_count self + 1) (last_failure_time self)).
    destruct (IH self1) as (I1 & I2 & I3 & I4 & I5 & I6 & I7);
      [reflexivity|simpl; lia|exact Hall'|simpl; lia|].
    cbv zeta. simpl in *. unfold same_settings.
    cbn [length]. rewrite Nat2Z.inj_succ.
    repeat split; try assumption; try lia.
Qed.

(** X6.  Recovery.  A breaker that has just turned HALF_OPEN stays
    HALF_OPEN through the first successThreshold - 1 calls that return,
    and the successThreshold-th closes it and clears the failure count;
    a single call that raises while it is HALF_OPEN opens it again at
    once, however many calls had returned before. *)
Theorem half_open_closes_after_success_threshold
    (self : CircuitBreaker) (calls : list Call) (last : Call) :
  state self = HALF_OPEN ->
  success_count self = 0 ->
  Forall (fun c => raised c = false) calls ->
  Z.of_nat (length calls) + 1 = success_threshold self ->
  state (run_calls self calls) = HALF_OPEN /\
  (raised last = false ->
   state (run_calls self (calls ++ [last])) = CLOSED /\
   failure_count (run_calls self (calls ++ [last])) = 0) /\
  (forall k, (k <= length calls)%nat ->
     raised last = true ->
     state (run_calls self (firstn k calls ++ [last])) = OPEN /\
     last_failure_time (run_calls self (firstn k calls ++ [last]))
     = Some (t_exit last)).
Proof.
  intros Hst Hc Hall Hlen.
  assert (Happ : forall l1 l2 s, run_calls s (l1 ++ l2) = run_calls (run_calls s l1) l2).
  { clear. induction l1 as [|c l1 IH]; intros l2 s; simpl; [reflexivity|].
    destruct (__aenter__ s (t_enter c)) as [s1 [[]|e]]; apply IH. }
  destruct (successes_in_half_open calls self Hst ltac:(lia) Hall ltac:(lia))
    as (H1 & H2 & H3 & H4 & H5 & H6 & H7).
  split; [exact H1|]. split.
  - intros Hr. rewrite Happ. cbn [run_calls].
    unfold __aenter__. rewrite H1. unfold __aexit__. rewrite Hr.
    unfold _record_success. rewrite H1, H2, H7.
    destruct (Z.leb_spec (success_threshold self)
                (success_count self + Z.of_nat (length calls) + 1)); [|lia].
    split; reflexivity.
  - intros k Hk Hr. rewrite Happ.
    assert (Hall' : Forall (fun c => raised c = false) (firstn k calls))
      by (apply Forall_take; exact Hall).
    assert (Hlenk : length (firstn k calls) = k) by (rewrite length_firstn; lia).
    destruct (successes_in_half_open (firstn k calls) self Hst ltac:(lia) Hall'
                ltac:(lia)) as (K1 & _).
    cbn [run_calls]. unfold __aenter__. rewrite K1. unfold __aexit__. rewrite Hr.
    unfold _record_failure. rewrite K1. split; reflexivity.
Qed.

Lemma half_open_closes_after_success_threshold_witness :
  let probing := set_state dodo_circuit HALF_OPEN 5 0 (Some 5) in
  state (run_calls probing [ mkCall 40 41 false ]) = HALF_OPEN /\
  state (run_calls probing [ mkCall 40 41 false; mkCall 42 43 false ]) = CLOSED /\
  state (run_calls probing [ mkCall 40 41 false; mkCall 42 43 true ]) = OPEN.
Proof.
  cbv zeta.
  destruct (half_open_closes_after_success_threshold
              (set_state dodo_circuit HALF_OPEN 5 0 (Some 5))
              [ mkCall 40 41 false ] (mkCall 42 43 false)
              eq_refl eq_refl ltac:(repeat constructor) eq_refl) as (H1 & H2 & _).
  destruct (half_open_closes_after_success_threshold
              (set_state dodo_circuit HALF_OPEN 5 0 (Some 5))
              [ mkCall 40 41 false ] (mkCall 42 43 true)
              eq_refl eq_refl ltac:(repeat constructor) eq_refl) as (_ & _ & H3).
  split; [exact H1|]. split; [exact (proj1 (H2 eq_refl))|].
  exact (proj1 (H3 1%nat (le_n 1) eq_refl)).
Defined.

Lemma failures_in_closed calls : forall self,
  state self = CLOSED ->
  0 <= failure_count self ->
  Forall (fun c => raised c = true) calls ->
  failure_count self + Z.of_nat (length calls) < failure_threshold self ->
  state (run_calls self calls) = CLOSED /\
  failure_count (run_calls self calls) = failure_count self + Z.of_nat (length calls).
Proof.
  induction calls as [|c calls IH]; intros self Hst Hc Hall Hlt; cbn [run_calls].
  - simpl. split; [exact Hst|lia].
  - inversion Hall as [|c' calls' Hr Hall']; subst.
    unfold __aenter__. rewrite Hst. unfold __aexit__. rewrite Hr.
    unfold _record_failure. rewrite Hst.
    cbn [length] in *. rewrite Nat2Z.inj_succ in *.
    destruct (Z.leb_spec (failure_threshold self) (failure_count self + 1)); [lia|].
    set (self1 := set_state self CLOSED (failure_count self + 1) (success_count self)
                            (Some (t_exit c))).
    destruct (IH self1) as (I1 & I2);
      [reflexivity|simpl; lia|exact Hall'|simpl; lia|].
    split; [exact I1|]. rewrite I2. simpl. lia.
Qed.

(** X7.  Only failures in a row open the breaker.  While it is CLOSED a
    call that returns clears the failure count, whatever it was: after
    such a call, fewer than failureThreshold failing calls leave the
    breaker CLOSED, counting just these. *)
Theorem success_clears_failure_count
    (self : CircuitBreaker) (ok : Call) (failing : list Call) :
  state self = CLOSED ->
  raised ok = false ->
  Forall (fun c => raised c = true) failing ->
  Z.of_nat (length failing) < failure_threshold self ->
  state (run_calls self (ok :: failing)) = CLOSED /\
  failure_count (run_calls self (ok :: failing)) = Z.of_nat (length failing).
Proof.
  intros Hst Hok Hall Hlt. cbn [run_calls].
  unfold __aenter__. rewrite Hst. unfold __aexit__. rewrite Hok.
  unfold _record_success. rewrite Hst.
  apply (failures_in_closed failing
           (set_state self CLOSED 0 (success_count self) (last_failure_time self)));
    [reflexivity|simpl; lia|exact Hall|simpl; lia].
Qed.

Lemma success_clears_failure_count_witness :
  let four := [ mkCall 0 1 true; mkCall 1 2 true; mkCall 2 3 true; mkCall 3 4 true ] in
  state (run_calls (run_calls dodo_circuit four) (mkCall 4 5 false :: four)) = CLOSED /\
  failure_count (run_calls (run_calls dodo_circuit four) (mkCall 4 5 false :: four)) = 4.
Proof.
  cbv zeta.
  apply (success_clears_failure_count
           (run_calls dodo_circuit
              [ mkCall 0 1 true; mkCall 1 2 true; mkCall 2 3 true; mkCall 3 4 true ])
           (mkCall 4 5 false)
           [ mkCall 0 1 true; mkCall 1 2 true; mkCall 2 3 true; mkCall 3 4 true ]);
    [reflexivity|reflexivity|repeat constructor|reflexivity].
Defined.
End BreakerInvariants.

Section RetryFacts.
Import Engine Retry.
Local Open Scope Q_scope.

Section Runs.
Context {A : Type}.
Variable cfg : Config.
Variable env : Env A.

Lemma attempts_calls todo : forall attempt last slept,
  (attempt <= calls (attempts cfg env todo attempt last slept) <= attempt + todo)%nat /\
  (length (sleeps (attempts cfg env todo attempt last slept))
   + attempt
   <= length slept + calls (attempts cfg env todo attempt last slept))%nat.
Proof.
  induction todo as [|todo IH]; intros attempt last slept; cbn [attempts].
  - simpl. lia.
  - destruct (func env attempt) as [a|e]; [simpl; lia|].
    destruct (catches cfg e); [|simpl; lia].
    destruct (_ =? _)%Z; [simpl; lia|].
    destruct (match on_retry cfg with Some _ => _ | None => _ end); [|simpl; lia].
    destruct (IH (S attempt) (Some e)
                 (slept ++ [delay_of cfg attempt (random env attempt)])) as [H1 H2].
    rewrite length_app in H2. simpl in H2. lia.
Qed.

(** The loop up to the first call that does not raise a caught
    exception. *)
Lemma attempts_skip k : forall todo attempt last slept,
  on_retry cfg = None ->
  (forall j, (j < k)%nat ->
     exists e, func env (attempt + j) = Raise e /\ catches cfg e = true) ->
  (Z.of_nat (attempt + k) <= max_retries cfg)%Z ->
  exists last',
    attempts cfg env (k + todo) attempt last slept
    = attempts cfg env todo (attempt + k) last'
        (slept ++ map (fun j => delay_of cfg j (random env j)) (seq attempt k)) /\
    (k = 0%nat -> last' = last) /\
    (forall e, func env (attempt + k - 1) = Raise e -> (0 < k)%nat -> last' = Some e).
Proof.
  induction k as [|k IH]; intros todo attempt last slept Hcb Hfail Hle.
  - exists last. simpl. rewrite Nat.add_0_r, app_nil_r.
    split; [reflexivity|]. split; [reflexivity|lia].
  - destruct (Hfail 0%nat ltac:(lia)) as (e & He & Hc).
    rewrite Nat.add_0_r in He.
    cbn [Nat.add attempts]. rewrite He, Hc, Hcb.
    destruct (Z.eqb_spec (Z.of_nat attempt) (max_retries cfg)); [lia|].
    destruct (IH todo (S attempt) (Some e)
                 (slept ++ [delay_of cfg attempt (random env attempt)]) Hcb)
      as (last' & Hrun & H0 & Hlast).
    + intros j Hj. destruct (Hfail (S j) ltac:(lia)) as (e' & He' & Hc').
      exists e'. rewrite <- He'. split; [f_equal; lia|exact Hc'].
    + lia.
    + exists last'. rewrite Hrun. split.
      * replace (S attempt + k)%nat with (attempt + S k)%nat by lia.
        rewrite <- app_assoc. reflexivity.
      * split; [discriminate|]. intros e' He' _.
        destruct k as [|k'].
        -- rewrite (H0 eq_refl). replace (attempt + 1 - 1)%nat with attempt in He' by lia.
           congruence.
        -- apply Hlast; [|lia].
           replace (S attempt + S k' - 1)%nat with (attempt + S (S k') - 1)%nat by lia.
           exact He'.
Qed.
End Runs.

(** X8.  The wrapper calls the function at most max_retries + 1 times
    and sleeps only between two calls; with a negative max_retries it
    never calls it and ends in a TypeError (it raises the exception it
    never caught). *)
Theorem retry_calls_are_bounded {A : Type} (cfg : Config) (env : Env A) :
  (Z.of_nat (calls (wrapper cfg env)) <= Z.max 0 (max_retries cfg + 1))%Z /\
  (length (sleeps (wrapper cfg env)) <= calls (wrapper cfg env))%nat /\
  ((max_retries cfg < 0)%Z ->
   wrapper cfg env = mkRun 0 [] (Raise "TypeError")).
Proof.
  unfold wrapper.
  destruct (attempts_calls cfg env (Z.to_nat (max_retries cfg + 1)) 0 None [])
    as [[_ H1] H2].
  simpl in H1, H2. split; [lia|]. split; [lia|].
  intros Hneg. replace (Z.to_nat (max_retries cfg + 1)) with 0%nat by lia.
  reflexivity.
Qed.







Lemma delay_of_bounds (cfg : Config) (attempt : nat) (u : Q) :
  0 <= base_delay cfg -> 0 <= max_delay cfg -> 0 <= u -> u < 1 ->
  0 <= delay_of cfg attempt u /\
  delay_of cfg attempt u <= (3 # 2) * max_delay cfg /\
  delay_of cfg attempt u <= (3 # 2) * (base_delay cfg * 2 ^ Z.of_nat attempt) /\
  (1 # 2) * Py.qmin (base_delay cfg * 2 ^ Z.of_nat attempt) (max_delay cfg)
  <= delay_of cfg attempt u.
Proof.
  intros Hb Hm Hu0 Hu1. unfold delay_of.
  assert (Hp : 0 <= base_delay cfg * 2 ^ Z.of_nat attempt).
  { apply Qmult_le_0_compat; [exact Hb|].
    apply Qpower.Qpower_0_le. discriminate. }
  set (p := base_delay cfg * 2 ^ Z.of_nat attempt) in *.
  assert (Hmin : 0 <= Py.qmin p (max_delay cfg) /\
                 Py.qmin p (max_delay cfg) <= max_delay cfg /\
                 Py.qmin p (max_delay cfg) <= p).
  { unfold Py.qmin. destruct (Qlt_le_dec (max_delay cfg) p) as [H|H].
    - split; [exact Hm|]. split; [apply Qle_refl|apply Qlt_le_weak; exact H].
    - split; [exact Hp|]. split; [exact H|apply Qle_refl]. }
  destruct Hmin as (M0 & M1 & M2).
  set (m := Py.qmin p (max_delay cfg)) in *.
  assert (L : (1 # 2) * m <= m * ((1 # 2) + u))
    by (rewrite (Qmult_comm m); apply Qmult_le_compat_r; [lra|exact M0]).
  assert (U : m * ((1 # 2) + u) <= (3 # 2) * m)
    by (rewrite (Qmult_comm m); apply Qmult_le_compat_r; [lra|exact M0]).
  repeat split; lra.
Qed.

Lemma sum_bounded (B : Q) (l : list Q) :
  Forall (fun d => 0 <= d /\ d <= B) l ->
  fold_right Qplus 0 l <= B * inject_Z (Z.of_nat (length l)).
Proof.
  induction 1 as [|d l [H0 H1] Hall IH]; cbn [fold_right length].
  - simpl. rewrite Qmult_0_r. apply Qle_refl.
  - rewrite Nat2Z.inj_succ, <- Z.add_1_r, inject_Z_plus.
    change (inject_Z 1) with 1. lra.
Qed.

Lemma attempts_sleeps {A : Type} (cfg : Config) (env : Env A) (P : Q -> Prop) :
  (forall k, (Z.of_nat k < max_retries cfg)%Z ->
             P (delay_of cfg k (random env k))) ->
  forall todo attempt last slept,
    Forall P slept ->
    (Z.of_nat (length slept) <= Z.max 0 (max_retries cfg))%Z ->
    (length slept <= attempt)%nat ->
    (Z.of_nat (attempt + todo) <= Z.max 0 (max_retries cfg + 1))%Z ->
    Forall P (sleeps (attempts cfg env todo attempt last slept)) /\
    (Z.of_nat (length (sleeps (attempts cfg env todo attempt last slept)))
     <= Z.max 0 (max_retries cfg))%Z.
Proof.
  intros HP. induction todo as [|todo IH]; intros attempt last slept Hall Hlen Hat Hto;
    cbn [attempts].
  - simpl. auto.
  - destruct (func env attempt) as [a|e]; [simpl; auto|].
    destruct (catches cfg e); [|simpl; auto].
    destruct (Z.eqb_spec (Z.of_nat attempt) (max_retries cfg)); [simpl; auto|].
    destruct (match on_retry cfg with Some _ => _ | None => _ end); [|simpl; auto].
    apply IH.
    + apply Forall_app. split; [exact Hall|]. constructor; [|constructor].
      apply HP. lia.
    + rewrite length_app. simpl. lia.
    + rewrite length_app. simpl. lia.
    + lia.
Qed.

(** X12.  Backoff with jitter stays within bounds.  With delays that are
    not negative and random draws in [0, 1), the wrapper sleeps at most
    max_retries times, each time for at most 1.5 * max_delay, so that all
    its sleeps together take at most 1.5 * max_delay * max_retries. *)
Theorem retry_sleeps_are_bounded {A : Type} (cfg : Config) (env : Env A) :
  0 <= base_delay cfg ->
  0 <= max_delay cfg ->
  (forall k, 0 <= random env k /\ random env k < 1) ->
  Forall (fun d => 0 <= d /\ d <= (3 # 2) * max_delay cfg) (sleeps (wrapper cfg env)) /\
  (Z.of_nat (length (sleeps (wrapper cfg env))) <= Z.max 0 (max_retries cfg))%Z /\
  fold_right Qplus 0 (sleeps (wrapper cfg env))
  <= (3 # 2) * max_delay cfg * inject_Z (Z.max 0 (max_retries cfg)).
Proof.
  intros Hb Hm Hrand.
  destruct (attempts_sleeps cfg env
              (fun d => 0 <= d /\ d <= (3 # 2) * max_delay cfg)) with
    (todo := Z.to_nat (max_retries cfg + 1)) (attempt := 0%nat)
    (last := @None string) (slept := @nil Q) as [Hall Hlen].
  - intros k _. destruct (Hrand k) as [U0 U1].
    destruct (delay_of_bounds cfg k _ Hb Hm U0 U1) as (D0 & D1 & _). auto.
  - constructor.
  - simpl. lia.
  - simpl. lia.
  - simpl. lia.
  - fold (wrapper cfg env) in Hall, Hlen.
    split; [exact Hall|]. split; [exact Hlen|].
    eapply Qle_trans; [apply sum_bounded; exact Hall|].
    rewrite !(Qmult_comm ((3 # 2) * max_delay cfg)).
    apply Qmult_le_compat_r; [|lra].
    rewrite <- Zle_Qle. exact Hlen.
Qed.

Lemma retry_sleeps_are_bounded_witness :
  fold_right Qplus 0
    (sleeps (wrapper defaults
               {| func := fun k => Raise "ConnectError" : result Z;
                  random := fun _ => 9 # 10 |}))
  <= (3 # 2) * 30 * 3.
Proof.
  apply (retry_sleeps_are_bounded defaults
           {| func := fun k => Raise "ConnectError" : result Z;
              random := fun _ => 9 # 10 |}).
  - discriminate.
  - discriminate.
  - intros k. split; [discriminate|reflexivity].
Defined.
End RetryFacts.

Section GovernanceExtras.
Import Governance LoansApi.
Local Open Scope R_scope.

(** X13.  Vote power has diminishing returns: four times the tokens
    give twice the power, and more tokens never give less power. *)
Theorem vote_power_is_quadratic (t t' : Z) :
  calculate_vote_power (4 * t) = 2 * calculate_vote_power t /\
  ((t <= t')%Z -> calculate_vote_power t <= calculate_vote_power t').
Proof.
  split.
  - unfold calculate_vote_power.
    destruct (Z.leb_spec t 0), (Z.leb_spec (4 * t) 0); try lia; [lra|].
    rewrite mult_IZR, sqrt_mult by (try apply IZR_le; lra + lia).
    replace (IZR 4) with (2 * 2) by lra. rewrite sqrt_square by lra. reflexivity.
  - intros Hle. unfold calculate_vote_power.
    destruct (Z.leb_spec t 0), (Z.leb_spec t' 0); try lia.
    + lra.
    + apply sqrt_pos.
    + apply sqrt_le_1_alt. apply IZR_le. exact Hle.
Qed.



Lemma raw_approval_bounds (p : R * R) :
  0 <= fst p -> 0 <= snd p -> 0 <= raw_approval p <= 100.
Proof.
  intros Hf Ha. unfold raw_approval.
  destruct (Rlt_dec 0 (fst p + snd p)) as [Hpos|_]; [|lra].
  assert (0 <= fst p / (fst p + snd p) <= 1).
  { split.
    - apply Rmult_le_pos; [exact Hf|]. left. apply Rinv_0_lt_compat. exact Hpos.
    - apply Rmult_le_reg_r with (fst p + snd p); [exact Hpos|].
      unfold Rdiv. rewrite Rmult_assoc, Rinv_l by lra. lra. }
  lra.
Qed.

Lemma fold_tally_nonneg votes : forall acc,
  0 <= fst acc -> 0 <= snd acc ->
  0 <= fst (fold_left tally_step votes acc) /\
  0 <= snd (fold_left tally_step votes acc).
Proof.
  induction votes as [|v votes IH]; intros acc Hf Ha; simpl; [auto|].
  apply IH; unfold tally_step;
    pose proof (calculate_vote_power_nonneg (tokens_spent v));
    destruct (String.eqb (vote v) "for"); simpl; try lra;
    destruct (String.eqb (vote v) "against"); simpl; lra.
Qed.

(** X15.  Whatever the votes (also with tokens that are zero or
    negative, or directions that are neither "for" nor "against"), the
    reported approval percentage lies between 0 and 100 and the reported
    powers are not negative. *)
Theorem approval_percentage_in_range (self : QuadraticVotingService)
    (votes : list Vote) :
  0 <= approval_percentage (tally_votes self votes) <= 100 /\
  0 <= for_power (tally_votes self votes) /\
  0 <= against_power (tally_votes self votes).
Proof.
  unfold tally_votes. cbn [approval_percentage for_power against_power].
  destruct (fold_tally_nonneg votes (0, 0)) as [Hf Ha]; [simpl; lra|simpl; lra|].
  pose proof (raw_approval_bounds _ Hf Ha) as [L U].
  assert (Hint : forall z, Py.round_half_even (IZR z) = z).
  { intros z. unfold Py.round_half_even. rewrite ZfloorZ.
    destruct (Rlt_dec (IZR z - IZR z) (1 / 2)); [reflexivity|lra]. }
  assert (R0 : Py.round2 0 = 0).
  { unfold Py.round2. rewrite Rmult_0_l, Hint. lra. }
  assert (R100 : Py.round2 100 = 100).
  { unfold Py.round2. replace (100 * 100) with (IZR 10000) by lra.
    rewrite Hint. lra. }
  pose proof (round2_mono _ _ L) as L'.
  pose proof (round2_mono _ _ U) as U'.
  pose proof (round2_mono _ _ Hf) as Hf'.
  pose proof (round2_mono _ _ Ha) as Ha'.
  rewrite R0 in L', Hf', Ha'. rewrite R100 in U'.
  repeat split; assumption.
Qed.

Lemma qv_unit_powers votes : forall f a,
  Forall (fun v => row_tokens v = None \/ row_tokens v = Some 1%Z) votes ->
  fold_left tally_step (qv_votes votes) (f, a)
  = (f + INR (votes_for votes),
     a + INR (length votes - votes_for votes)).
Proof.
  induction votes as [|v votes IH]; intros f a Hall.
  - simpl. f_equal; lra.
  - inversion Hall as [|v' votes' Hv Hall']; subst.
    cbn [qv_votes map fold_left]. fold (qv_votes votes).
    assert (Hp : calculate_vote_power
                   (match row_tokens v with Some t => t | None => 1%Z end) = 1).
    { destruct Hv as [-> | ->]; unfold calculate_vote_power; simpl; apply sqrt_1. }
    unfold tally_step at 2. cbn [tokens_spent vote]. rewrite Hp.
    assert (Hle : (votes_for votes <= length votes)%nat)
      by (unfold votes_for; apply filter_length_le).
    unfold votes_for in *. cbn [List.filter length].
    destruct (row_vote v); cbn [String.eqb Ascii.eqb Bool.eqb fst snd length].
    + rewrite IH by exact Hall'. f_equal. rewrite S_INR. lra.
    + rewrite IH by exact Hall'. f_equal.
      rewrite Nat.sub_succ_l by exact Hle. rewrite S_INR. lra.
Qed.

(** X16.  With one token per vote, which is all that [vote_on_loan]
    ever records, the quadratic tally is a plain majority count: the loan
    is approved exactly when at least 3 votes were cast and at least half
    of them are in favour. *)
Theorem unit_votes_are_majority_vote (votes : list LoanVoteRow) :
  Forall (fun v => row_tokens v = None \/ row_tokens v = Some 1%Z) votes ->
  approved (qv_result votes) = true <->
  (3 <= length votes)%nat /\ (length votes <= 2 * votes_for votes)%nat.
Proof.
  intros Hall. unfold qv_result, tally_votes. cbn [approved].
  rewrite qv_unit_powers by exact Hall.
  unfold qv_votes. rewrite length_map. unfold raw_approval. cbn [fst snd].
  assert (Hle : (votes_for votes <= length votes)%nat)
    by (unfold votes_for; apply filter_length_le).
  rewrite !Rplus_0_l, <- plus_INR.
  replace (votes_for votes + (length votes - votes_for votes))%nat
    with (length votes) by lia.
  rewrite andb_true_iff, Nat.leb_le.
  split.
  - intros [Hq Hap]. split; [exact Hq|].
    assert (Hpos : 0 < INR (length votes)) by (apply lt_0_INR; lia).
    destruct (Rlt_dec 0 (INR (length votes))); [|lra].
    destruct (Rge_dec _ _) as [Hge|]; [|discriminate].
    cbn [quorum_percentage quadratic_voting_service] in Hge.
    assert (H2 : INR (length votes) <= 2 * INR (votes_for votes)).
    { apply Rge_le in Hge.
      apply Rmult_le_compat_r with (r := INR (length votes)) in Hge; [|lra].
      unfold Rdiv in Hge.
      replace (INR (votes_for votes) * / INR (length votes) * 100 * INR (length votes))
        with (INR (votes_for votes) * 100 * (/ INR (length votes) * INR (length votes)))
        in Hge by ring.
      rewrite Rinv_l in Hge by lra. lra. }
    replace (2 * INR (votes_for votes)) with (INR (2 * votes_for votes)) in H2
      by (rewrite mult_INR; simpl; lra).
    apply INR_le in H2. exact H2.
  - intros [Hq Hmaj]. split; [exact Hq|].
    assert (Hpos : 0 < INR (length votes)) by (apply lt_0_INR; lia).
    destruct (Rlt_dec 0 (INR (length votes))); [|lra].
    destruct (Rge_dec _ _) as [|Hn]; [reflexivity|]. exfalso. apply Hn.
    cbn [quorum_percentage quadratic_voting_service].
    apply Rle_ge.
    apply le_INR in Hmaj. rewrite mult_INR in Hmaj. simpl INR in Hmaj.
    apply Rmult_le_reg_r with (INR (length votes)); [exact Hpos|].
    unfold Rdiv.
    replace (INR (votes_for votes) * / INR (length votes) * 100 * INR (length votes))
      with (INR (votes_for votes) * 100 * (/ INR (length votes) * INR (length votes)))
      by ring.
    rewrite Rinv_l by lra. lra.
Qed.

Lemma unit_votes_are_majority_vote_witness :
  approved (qv_result [ vote_data "a" true; vote_data "b" false;
                        vote_data "c" true; vote_data "d" false ]) = true.
Proof.
  apply (unit_votes_are_majority_vote
           [ vote_data "a" true; vote_data "b" false;
             vote_data "c" true; vote_data "d" false ]).
  - repeat constructor; right; reflexivity.
  - simpl. lia.
Defined.
End GovernanceExtras.

Section AgentFacts.
Import Json Engine.

(** Runs the next step of an agent body whose confidence is known to be
    valid, and names the trace it leaves. *)
Ltac run_step :=
  match goal with
  | |- context [on_trace ?f ?t] =>
      let E := fresh "E" in
      let t' := fresh "t" in
      assert (E : exists t', on_trace f t = (t', Ok tt));
      [ apply on_trace_ok; unfold observe, analyze, hypothesize, act, reflect;
        first [ apply add_thought_ok | apply conclude_ok ];
        first [ reflexivity | assumption | apply verdict_confidence_valid ]
      | destruct E as [t' E]; rewrite E; clear E; cbv beta iota ]
  end.

Ltac open_steps := unfold try_except, bind, lift, ret; cbv beta iota.

(** ** LoanAdvisor *)

Local Open Scope Q_scope.

Lemma sum_floats_raises xs : forall acc,
  (exists e, LoanAdvisor.sum_floats xs acc = Raise e) <-> In None xs.
Proof.
  induction xs as [|x xs IH]; intros acc; simpl.
  - split; [intros [e H]; discriminate|tauto].
  - destruct x as [q|]; simpl.
    + rewrite IH. split; [auto|intros [H|H]; [discriminate|exact H]].
    + split; [auto|eauto].
Qed.

Lemma sum_floats_error xs : forall acc e,
  LoanAdvisor.sum_floats xs acc = Raise e -> e = "TypeError".
Proof.
  induction xs as [|x xs IH]; intros acc e; simpl; [discriminate|].
  destruct x as [q|]; simpl; [apply IH|congruence].
Qed.

Lemma income_confidence_valid context income :
  LoanAdvisor._analyze_income context = Ok income ->
  valid_confidence (LoanAdvisor.income_confidence income) = true.
Proof.
  unfold LoanAdvisor._analyze_income.
  destruct (List.filter _ (financial_diary context)) as [|e es];
    [intros [= <-]; reflexivity|].
  destruct (LoanAdvisor.sum_floats _ 0) as [total|err]; [|discriminate].
  set (n := inject_Z (Z.of_nat (length (e :: es)))).
  assert (Hn : 1 <= n).
  { unfold n. cbn [length]. rewrite Nat2Z.inj_succ. unfold Qle, inject_Z. simpl. lia. }
  destruct (Qlt_le_dec 0 (Py.qmin (n / 10) 3)); intros [= <-];
    cbn [LoanAdvisor.income_confidence]; [|reflexivity].
  unfold valid_confidence, Py.qmin.
  destruct (Qlt_le_dec (9 # 10) ((5 # 10) + n * (2 # 100))); [reflexivity|].
  apply andb_true_iff. split; apply Qle_bool_iff; lra.
Qed.

(** The result of a run that could read the income and the EMI burden. *)
Lemma loan_advisor_result context income emi :
  LoanAdvisor._analyze_income context = Ok income ->
  LoanAdvisor._calculate_current_emi context = Ok emi ->
  exists t,
    LoanAdvisor.execute context
    = (add_trace context t,
       {| result_agent_name := LoanAdvisor.self_name; success := true;
          result_data :=
            [ ("recommendation",
               VDict (LoanAdvisor.recommendation_for context income emi));
              ("income_analysis", VDict (LoanAdvisor.income_dict income));
              ("trust_score", VNum (inject_Z (trust_score context))) ];
          reasoning_trace := t; next_agent := None; actions := [] |}).
Proof.
  intros Hinc Hemi.
  pose proof (income_confidence_valid _ _ Hinc) as Hvalid.
  unfold LoanAdvisor.execute, LoanAdvisor.execute_body,
         LoanAdvisor.recommendation_for.
  open_steps. run_step. rewrite Hinc. cbv beta iota. run_step.
  rewrite Hemi. cbv beta iota. do 2 run_step.
  destruct (Qlt_le_dec 0 _); [destruct (trust_score context <? 20)%Z|];
    open_steps; do 2 run_step; eexists; reflexivity.
Qed.

(** The result of a run that could not. *)
Lemma loan_advisor_failure context :
  (exists e, LoanAdvisor._analyze_income context = Raise e) \/
  (exists e, LoanAdvisor._calculate_current_emi context = Raise e) ->
  exists t,
    LoanAdvisor.execute context
    = (context,
       {| result_agent_name := LoanAdvisor.self_name; success := false;
          result_data := [ ("error", VStr "TypeError") ];
          reasoning_trace := t; next_agent := None; actions := [] |}).
Proof.
  intros H.
  unfold LoanAdvisor.execute, LoanAdvisor.execute_body. open_steps. run_step.
  destruct (LoanAdvisor._analyze_income context) as [income|e] eqn:Hinc.
  - destruct H as [[e H]|[e Hemi]]; [discriminate|].
    cbv beta iota. rewrite (income_confidence_valid _ _ Hinc) || idtac.
    pose proof (income_confidence_valid _ _ Hinc) as Hvalid.
    run_step. rewrite Hemi.
    unfold LoanAdvisor._calculate_current_emi in Hemi.
    apply sum_floats_error in Hemi. subst e.
    unfold failure_result. eexists. reflexivity.
  - unfold LoanAdvisor._analyze_income in Hinc.
    destruct (List.filter _ (financial_diary context)); [discriminate|].
    destruct (LoanAdvisor.sum_floats _ 0) as [total|err] eqn:Hs.
    + destruct (Qlt_le_dec 0 _); discriminate.
    + injection Hinc as <-. apply sum_floats_error in Hs. subst err.
      unfold failure_result. eexists. reflexivity.
Qed.

(** X17.  LoanAdvisor fails exactly on null amounts: its run ends with
    success = False when one of the last 30 income entries of the diary
    has a null amount or a disbursed or repaying loan has a null EMI, and
    in no other case; the failed run carries a TypeError, no
    recommendation, and leaves the context without a new trace. *)
Theorem loan_advisor_fails_on_null_amounts (context : AgentContext) :
  let income_entries :=
    List.filter (fun e => String.eqb (entry_type e) "income")
                (financial_diary context) in
  let r := LoanAdvisor.execute context in
  (success (snd r) = false <->
   In None (map entry_amount (LoanAdvisor.last_n 30 income_entries)) \/
   In None (map loan_emi_amount (List.filter LoanAdvisor.is_active (loans context)))) /\
  (success (snd r) = false ->
   fst r = context /\
   result_data (snd r) = [ ("error", VStr "TypeError") ]).
Proof.
  cbv zeta.
  assert (Hinc : (exists e, LoanAdvisor._analyze_income context = Raise e) <->
                 In None (map entry_amount
                            (LoanAdvisor.last_n 30
                               (List.filter (fun e => String.eqb (entry_type e) "income")
                                            (financial_diary context))))).
  { unfold LoanAdvisor._analyze_income.
    destruct (List.filter _ (financial_diary context)) as [|e es] eqn:Ef.
    - simpl. split; [intros [e H]; discriminate|tauto].
    - rewrite <- (sum_floats_raises _ 0).
      destruct (LoanAdvisor.sum_floats _ 0) as [total|err].
      + split; intros [x H]; [|discriminate].
        destruct (Qlt_le_dec 0 _); discriminate.
      + split; eauto. }
  assert (Hemi : (exists e, LoanAdvisor._calculate_current_emi context = Raise e) <->
                 In None (map loan_emi_amount
                            (List.filter LoanAdvisor.is_active (loans context)))).
  { unfold LoanAdvisor._calculate_current_emi. apply sum_floats_raises. }
  destruct (LoanAdvisor._analyze_income context) as [income|e1] eqn:E1.
  - destruct (LoanAdvisor._calculate_current_emi context) as [emi|e2] eqn:E2.
    + destruct (loan_advisor_result context income emi E1 E2) as [t ->].
      cbn [fst snd success]. split; [|discriminate].
      split; [discriminate|].
      intros [H|H]; [apply Hinc in H|apply Hemi in H]; destruct H; discriminate.
    + destruct (loan_advisor_failure context) as [t Ht];
        [right; rewrite E2; eauto|].
      rewrite Ht. cbn [fst snd success result_data].
      split; [|auto]. split; [|reflexivity].
      intros _. right. apply Hemi. eauto.
  - destruct (loan_advisor_failure context) as [t Ht];
      [left; rewrite E1; eauto|].
    rewrite Ht. cbn [fst snd success result_data].
    split; [|auto]. split; [|reflexivity].
    intros _. left. apply Hinc. eauto.
Qed.

Lemma trust_multiplier_cases (ts : Z) :
  (20 <= ts)%Z ->
  let m := LoanAdvisor._get_trust_multiplier ts in
  (1 # 2) <= m /\ m <= 2.
Proof.
  intros H. unfold LoanAdvisor._get_trust_multiplier.
  destruct (80 <=? ts)%Z; [split; discriminate|].
  destruct (60 <=? ts)%Z; [split; discriminate|].
  destruct (40 <=? ts)%Z; [split; discriminate|].
  destruct (Z.leb_spec 20 ts); [split; discriminate|lia].
Qed.

Lemma qmin_spec (a b : Q) :
  Py.qmin a b <= a /\ Py.qmin a b <= b /\ (Py.qmin a b = a \/ Py.qmin a b = b).
Proof.
  unfold Py.qmin. destruct (Qlt_le_dec b a) as [H|H].
  - repeat split; [apply Qlt_le_weak; exact H|apply Qle_refl|auto].
  - repeat split; [apply Qle_refl|exact H|auto].
Qed.

Lemma max_loan_range (ts : Z) :
  (20 <= ts)%Z ->
  7000 <= Py.qmin (inject_Z (5000 + ts * 450) * LoanAdvisor._get_trust_multiplier ts) 50000
       <= 50000.
Proof.
  intros Hts.
  destruct (trust_multiplier_cases _ Hts) as [M1 M2]. cbv zeta in M1, M2.
  set (m := LoanAdvisor._get_trust_multiplier ts) in *.
  assert (Hb : 14000 <= inject_Z (5000 + ts * 450)).
  { change 14000 with (inject_Z 14000). rewrite <- Zle_Qle. lia. }
  set (b := inject_Z (5000 + ts * 450)) in *.
  destruct (qmin_spec (b * m) 50000) as (Q1 & Q2 & [Q3|Q3]).
  - rewrite Q3. split; [|rewrite <- Q3; exact Q2].
    assert (14000 * (1 # 2) <= b * m).
    { apply Qmult_le_compat_nonneg; split; try lra; discriminate. }
    lra.
  - rewrite Q3. split; discriminate.
Qed.

(** X18.  LoanAdvisor lets a user borrow only with a trust score of at
    least 20, and then: the maximum amount lies between 7000 and 50000,
    the recommended amount is positive and at most the maximum, and ten
    weekly EMIs are exactly the recommended amount. *)
Theorem loan_advisor_amounts_are_bounded (context : AgentContext)
    (recommendation : dict) :
  get (result_data (snd (LoanAdvisor.execute context))) "recommendation" (VDict [])
  = VDict recommendation ->
  truthy (get recommendation "can_borrow" (VBool false)) = true ->
  (20 <= trust_score context)%Z /\
  exists max_amount recommended_amount recommended_emi,
    get_none recommendation "max_amount" = VNum max_amount /\
    get_none recommendation "recommended_amount" = VNum recommended_amount /\
    get_none recommendation "recommended_emi" = VNum recommended_emi /\
    7000 <= max_amount <= 50000 /\
    0 < recommended_amount <= max_amount /\
    recommended_emi * 10 == recommended_amount.
Proof.
  intros Hrec Hcb.
  destruct (LoanAdvisor._analyze_income context) as [income|e1] eqn:E1;
    [destruct (LoanAdvisor._calculate_current_emi context) as [emi|e2] eqn:E2|].
  - destruct (loan_advisor_result context income emi E1 E2) as [t Ht].
    rewrite Ht in Hrec. cbn in Hrec. injection Hrec as <-.
    unfold LoanAdvisor.recommendation_for in *.
    destruct (Qlt_le_dec 0 _) as [Hsafe|]; [|discriminate].
    destruct (Z.ltb_spec (trust_score context) 20) as [|Hts]; [discriminate|].
    split; [exact Hts|].
    set (max_loan := Py.qmin _ 50000).
    set (safe := LoanAdvisor.estimated_monthly income * (3 # 10) - emi) in *.
    exists max_loan, (Py.qmin max_loan (safe * 10 * 4)),
           (Py.qmin max_loan (safe * 10 * 4) / inject_Z 10).
    split; [reflexivity|]. split; [reflexivity|]. split; [reflexivity|].
    assert (Hmax : 7000 <= max_loan <= 50000) by (apply max_loan_range; exact Hts).
    split; [exact Hmax|]. split.
    + destruct (qmin_spec max_loan (safe * 10 * 4)) as (Q1 & Q2 & [Q3|Q3]);
        rewrite Q3; split; try lra. rewrite <- Q3. exact Q1.
    + change (inject_Z 10) with 10. field.
  - destruct (loan_advisor_failure context) as [t Ht]; [right; eauto|].
    rewrite Ht in Hrec. cbn in Hrec. injection Hrec as <-. discriminate.
  - destruct (loan_advisor_failure context) as [t Ht]; [left; eauto|].
    rewrite Ht in Hrec. cbn in Hrec. injection Hrec as <-. discriminate.
Qed.
Lemma loan_advisor_amounts_are_bounded_witness :
  (20 <= trust_score Scenarios.member_context)%Z /\
  exists max_amount recommended_amount recommended_emi,
    get_none (LoanAdvisor.recommendation_for Scenarios.member_context
                (LoanAdvisor.mkIncome 10000 (3 # 10) "default" None) 0)
             "max_amount" = VNum max_amount /\
    get_none (LoanAdvisor.recommendation_for Scenarios.member_context
                (LoanAdvisor.mkIncome 10000 (3 # 10) "default" None) 0)
             "recommended_amount" = VNum recommended_amount /\
    get_none (LoanAdvisor.recommendation_for Scenarios.member_context
                (LoanAdvisor.mkIncome 10000 (3 # 10) "default" None) 0)
             "recommended_emi" = VNum recommended_emi /\
    7000 <= max_amount <= 50000 /\
    0 < recommended_amount <= max_amount /\
    recommended_emi * 10 == recommended_amount.
Proof.
  apply (loan_advisor_amounts_are_bounded Scenarios.member_context).
  - vm_compute. reflexivity.
  - vm_compute. reflexivity.
Defined.

Lemma max_amount_of context recommendation x :
  get (result_data (snd (LoanAdvisor.execute context))) "recommendation" (VDict [])
  = VDict recommendation ->
  get_none recommendation "max_amount" = VNum x ->
  (20 <= trust_score context)%Z /\
  x = Py.qmin (inject_Z (5000 + trust_score context * 450)
               * LoanAdvisor._get_trust_multiplier (trust_score context)) 50000.
Proof.
  intros Hrec Hx.
  destruct (LoanAdvisor._analyze_income context) as [income|e1] eqn:E1;
    [destruct (LoanAdvisor._calculate_current_emi context) as [emi|e2] eqn:E2|].
  - destruct (loan_advisor_result context income emi E1 E2) as [t Ht].
    rewrite Ht in Hrec. cbn in Hrec. injection Hrec as <-.
    unfold LoanAdvisor.recommendation_for in *.
    destruct (Qlt_le_dec 0 _) as [Hsafe|]; [|discriminate].
    destruct (Z.ltb_spec (trust_score context) 20) as [|Hts]; [discriminate|].
    cbn in Hx. injection Hx as <-. split; [exact Hts|reflexivity].
  - destruct (loan_advisor_failure context) as [t Ht]; [right; eauto|].
    rewrite Ht in Hrec. cbn in Hrec. injection Hrec as <-. discriminate.
  - destruct (loan_advisor_failure context) as [t Ht]; [left; eauto|].
    rewrite Ht in Hrec. cbn in Hrec. injection Hrec as <-. discriminate.
Qed.

Lemma trust_multiplier_mono (a b : Z) :
  (a <= b)%Z ->
  LoanAdvisor._get_trust_multiplier a <= LoanAdvisor._get_trust_multiplier b.
Proof.
  intros H. unfold LoanAdvisor._get_trust_multiplier.
  destruct (Z.leb_spec 80 a), (Z.leb_spec 80 b); try lia; try discriminate;
  destruct (Z.leb_spec 60 a), (Z.leb_spec 60 b); try lia; try discriminate;
  destruct (Z.leb_spec 40 a), (Z.leb_spec 40 b); try lia; try discriminate;
  destruct (Z.leb_spec 20 a), (Z.leb_spec 20 b); try lia; discriminate.
Qed.

(** X19.  A higher trust score never lowers the maximum amount: of two
    users whom LoanAdvisor lets borrow, the one with the higher trust
    score is offered at least as high a maximum, whatever their incomes
    and loans. *)
Theorem loan_advisor_max_amount_grows_with_trust
    (c1 c2 : AgentContext) (rec1 rec2 : dict) (x1 x2 : Q) :
  get (result_data (snd (LoanAdvisor.execute c1))) "recommendation" (VDict [])
  = VDict rec1 ->
  get (result_data (snd (LoanAdvisor.execute c2))) "recommendation" (VDict [])
  = VDict rec2 ->
  get_none rec1 "max_amount" = VNum x1 ->
  get_none rec2 "max_amount" = VNum x2 ->
  (trust_score c1 <= trust_score c2)%Z ->
  x1 <= x2.
Proof.
  intros H1 H2 Hx1 Hx2 Hle.
  destruct (max_amount_of _ _ _ H1 Hx1) as [T1 ->].
  destruct (max_amount_of _ _ _ H2 Hx2) as [T2 ->].
  pose proof (trust_multiplier_mono _ _ Hle) as Hm.
  destruct (trust_multiplier_cases _ T1) as [M1 _]. cbv zeta in M1.
  set (m1 := LoanAdvisor._get_trust_multiplier (trust_score c1)) in *.
  set (m2 := LoanAdvisor._get_trust_multiplier (trust_score c2)) in *.
  assert (Hb : inject_Z (5000 + trust_score c1 * 450)
               <= inject_Z (5000 + trust_score c2 * 450)).
  { rewrite <- Zle_Qle. lia. }
  assert (Hb0 : 0 <= inject_Z (5000 + trust_score c1 * 450)).
  { change 0 with (inject_Z 0). rewrite <- Zle_Qle. lia. }
  set (b1 := inject_Z (5000 + trust_score c1 * 450)) in *.
  set (b2 := inject_Z (5000 + trust_score c2 * 450)) in *.
  assert (Hp : b1 * m1 <= b2 * m2).
  { apply Qmult_le_compat_nonneg; split; try assumption; lra. }
  destruct (qmin_spec (b1 * m1) 50000) as (A1 & A2 & _).
  destruct (qmin_spec (b2 * m2) 50000) as (_ & _ & [B|B]); rewrite B; lra.
Qed.

Lemma loan_advisor_max_amount_grows_with_trust_witness :
  exists x1 x2,
    get_none (LoanAdvisor.recommendation_for (Scenarios.blank_context "u" 20)
                (LoanAdvisor.mkIncome 10000 (3 # 10) "default" None) 0)
             "max_amount" = VNum x1 /\
    get_none (LoanAdvisor.recommendation_for (Scenarios.blank_context "u" 80)
                (LoanAdvisor.mkIncome 10000 (3 # 10) "default" None) 0)
             "max_amount" = VNum x2 /\
    x1 <= x2.
Proof.
  eexists. eexists. split; [reflexivity|]. split; [reflexivity|].
  apply (loan_advisor_max_amount_grows_with_trust
           (Scenarios.blank_context "u" 20) (Scenarios.blank_context "u" 80)
           (LoanAdvisor.recommendation_for (Scenarios.blank_context "u" 20)
              (LoanAdvisor.mkIncome 10000 (3 # 10) "default" None) 0)
           (LoanAdvisor.recommendation_for (Scenarios.blank_context "u" 80)
              (LoanAdvisor.mkIncome 10000 (3 # 10) "default" None) 0)).
  - vm_compute. reflexivity.
  - vm_compute. reflexivity.
  - reflexivity.
  - reflexivity.
  - simpl. lia.
Defined.

(** ** FraudGuard *)

(** FraudGuard never takes its failure path. *)
Lemma fraud_guard_result (now : Z) (context : AgentContext) :
  exists t,
    FraudGuard.execute now context
    = (add_trace context t,
       {| result_agent_name := FraudGuard.self_name; success := true;
          result_data :=
            [ ("verdict", VStr (FraudGuard.verdict_of (FraudGuard.risk_level now context)));
              ("risk_level", VNum (FraudGuard.risk_level now context));
              ("fraud_signals",
               VList (map FraudGuard.check_dict (FraudGuard.fraud_signals now context)));
              ("can_proceed",
               VBool (String.eqb (FraudGuard.verdict_of (FraudGuard.risk_level now context))
                                 "CLEAR"
                      || String.eqb (FraudGuard.verdict_of
                                       (FraudGuard.risk_level now context)) "WARN")) ];
          reasoning_trace := t; next_agent := None;
          actions :=
            if String.eqb (FraudGuard.verdict_of (FraudGuard.risk_level now context))
                          "CLEAR"
            then []
            else [ [ ("type", VStr "log_fraud_check");
                     ("verdict",
                      VStr (FraudGuard.verdict_of (FraudGuard.risk_level now context)));
                     ("risk", VNum (FraudGuard.risk_level now context)) ] ] |}).
Proof.
  unfold FraudGuard.execute, FraudGuard.execute_body, FraudGuard.account,
         FraudGuard.risk_level, FraudGuard.fraud_signals, FraudGuard.checks.
  cbn [List.filter].
  open_steps. run_step.
  destruct (FraudGuard.suspicious (FraudGuard._check_velocity now context));
    open_steps; [run_step|];
    (destruct (FraudGuard.suspicious (FraudGuard._check_collusion context));
     open_steps; [run_step|]);
    (destruct (FraudGuard.suspicious (FraudGuard._check_behavioral_anomalies context));
     open_steps; [run_step|]);
    (destruct (FraudGuard.suspicious (FraudGuard._check_sybil_attack now context));
     open_steps; [run_step|]);
    cbv zeta; do 2 run_step; eexists; reflexivity.
Qed.

Lemma velocity_cases now context :
  FraudGuard._check_velocity now context = FraudGuard.mkCheck "velocity" true (3 # 10) /\
    (3 < length (List.filter (fun l => FraudGuard._is_recent now (loan_created_at l) 24 0)
                             (loans context)))%nat \/
  FraudGuard._check_velocity now context = FraudGuard.mkCheck "velocity" false 0.
Proof.
  unfold FraudGuard._check_velocity, FraudGuard.max_loans_per_day.
  destruct (Nat.ltb_spec 3 (length (List.filter
              (fun l => FraudGuard._is_recent now (loan_created_at l) 24 0)
              (loans context)))); auto.
Qed.

Lemma collusion_cases context :
  FraudGuard._check_collusion context = FraudGuard.mkCheck "collusion" true (4 # 10) /\
    vouches context <> [] /\
    (8 # 10) * inject_Z (Z.of_nat (length (vouches context)))
    < inject_Z (Z.of_nat (FraudGuard.most_common_count
                            (map vouch_voucher_id (vouches context)))) \/
  FraudGuard._check_collusion context = FraudGuard.mkCheck "collusion" false 0.
Proof.
  unfold FraudGuard._check_collusion, FraudGuard.suspicious_vouch_ratio.
  destruct (vouches context) as [|v vs]; [auto|].
  assert (Hpos : 0 < inject_Z (Z.of_nat (length (v :: vs)))).
  { cbn [length]. rewrite Nat2Z.inj_succ. unfold Qlt, inject_Z. simpl. lia. }
  cbn [map].
  change (vouch_voucher_id v :: map vouch_voucher_id vs)
    with (map vouch_voucher_id (v :: vs)).
  rewrite length_map.
  destruct (Qlt_le_dec _ _) as [H|H]; [|auto].
  left. split; [reflexivity|]. split; [discriminate|].
  apply (Qmult_lt_compat_r _ _ _ Hpos) in H.
  set (n := inject_Z (Z.of_nat (length (v :: vs)))) in *.
  set (m := inject_Z (Z.of_nat (FraudGuard.most_common_count
                                  (map vouch_voucher_id (v :: vs))))) in *.
  assert (E : m / n * n == m) by (field; lra).
  rewrite E in H. exact H.
Qed.

Lemma behavior_cases context :
  FraudGuard._check_behavioral_anomalies context
  = FraudGuard.mkCheck "behavior" true (25 # 100) /\
    (80 < trust_score context)%Z /\ (length (loans context) < 2)%nat \/
  FraudGuard._check_behavioral_anomalies context = FraudGuard.mkCheck "behavior" false 0.
Proof.
  unfold FraudGuard._check_behavioral_anomalies.
  destruct (Z.ltb_spec 80 (trust_score context)),
           (Nat.ltb_spec (length (loans context)) 2); simpl; auto.
Qed.

Lemma sybil_cases now context :
  FraudGuard._check_sybil_attack now context = FraudGuard.mkCheck "sybil" true (35 # 100) /\
    circles context <> [] /\
    List.filter (fun c => FraudGuard._is_recent now (circle_created_at c) 0 7)
                (circles context) = circles context /\
    (5 < length (vouches context))%nat \/
  FraudGuard._check_sybil_attack now context = FraudGuard.mkCheck "sybil" false 0.
Proof.
  unfold FraudGuard._check_sybil_attack.
  destruct (circles context) as [|c cs] eqn:Ec; [auto|]. rewrite <- Ec.
  destruct (Nat.eqb_spec
              (length (List.filter (fun c => FraudGuard._is_recent now (circle_created_at c) 0 7)
                                   (circles context)))
              (length (circles context))) as [Hlen|]; [|auto].
  destruct (Nat.ltb_spec 5 (length (vouches context))); [|auto].
  left. split; [reflexivity|]. split; [rewrite Ec; discriminate|]. split; [|assumption].
  clear - Hlen. induction (circles context) as [|x l IH]; [reflexivity|].
  simpl in *. destruct (FraudGuard._is_recent now (circle_created_at x) 0 7).
  - f_equal. apply IH. simpl in Hlen. lia.
  - pose proof (filter_length_le (fun c => FraudGuard._is_recent now (circle_created_at c) 0 7) l).
    lia.
Qed.

(** The verdict is BLOCK exactly when the collusion and the sybil signal
    are both raised, together with a third one. *)
Lemma block_iff now context :
  FraudGuard.verdict_of (FraudGuard.risk_level now context) = "BLOCK" <->
  FraudGuard.suspicious (FraudGuard._check_collusion context) = true /\
  FraudGuard.suspicious (FraudGuard._check_sybil_attack now context) = true /\
  (FraudGuard.suspicious (FraudGuard._check_velocity now context) = true \/
   FraudGuard.suspicious (FraudGuard._check_behavioral_anomalies context) = true).
Proof.
  unfold FraudGuard.risk_level, FraudGuard.fraud_signals, FraudGuard.checks.
  destruct (velocity_cases now context) as [[-> Hv]| ->];
    destruct (collusion_cases context) as [[-> Hc]| ->];
    destruct (behavior_cases context) as [[-> Hb]| ->];
    destruct (sybil_cases now context) as [[-> Hs]| ->];
    cbn [List.filter FraudGuard.suspicious];
    (split; intros H;
     [ vm_compute in H; try discriminate H;
       try (exfalso; destruct Hb as [_ Hb];
            pose proof (filter_length_le
                          (fun l => FraudGuard._is_recent now (loan_created_at l) 24 0)
                          (loans context));
            lia);
       auto
     | first [ vm_compute; reflexivity
             | destruct H as (H1 & H2 & [H3|H3]); discriminate ] ]).
Qed.

(** X20.  FraudGuard always reaches a verdict: its run never fails (the
    REVIEW verdict of its error handler is never returned for an error),
    appends its trace to the context, reports a risk level between 0 and
    1 and one of the four verdicts, and lets the request proceed exactly
    for CLEAR and WARN. *)
Theorem fraud_guard_always_decides (now : Z) (context : AgentContext) :
  let r := FraudGuard.execute now context in
  success (snd r) = true /\
  fst r = add_trace context (reasoning_trace (snd r)) /\
  exists verdict risk,
    get_none (result_data (snd r)) "verdict" = VStr verdict /\
    get_none (result_data (snd r)) "risk_level" = VNum risk /\
    0 <= risk <= 1 /\
    In verdict [ "BLOCK"; "REVIEW"; "WARN"; "CLEAR" ] /\
    get_none (result_data (snd r)) "can_proceed"
    = VBool (String.eqb verdict "CLEAR" || String.eqb verdict "WARN").
Proof.
  cbv zeta. destruct (fraud_guard_result now context) as [t ->].
  cbn [fst snd success reasoning_trace result_data].
  split; [reflexivity|]. split; [reflexivity|].
  exists (FraudGuard.verdict_of (FraudGuard.risk_level now context)),
         (FraudGuard.risk_level now context).
  split; [reflexivity|]. split; [reflexivity|]. split; [|split; [|reflexivity]].
  - unfold FraudGuard.risk_level, FraudGuard.fraud_signals, FraudGuard.checks.
    destruct (velocity_cases now context) as [[-> Hv]| ->];
      destruct (collusion_cases context) as [[-> Hc]| ->];
      destruct (behavior_cases context) as [[-> Hb]| ->];
      destruct (sybil_cases now context) as [[-> Hs]| ->];
      vm_compute; split; discriminate.
  - unfold FraudGuard.verdict_of.
    destruct (Qle_bool (8 # 10) _); [simpl; auto|].
    destruct (Qle_bool (5 # 10) _); [simpl; auto|].
    destruct (Qle_bool (3 # 10) _); simpl; auto.
Qed.

(** X21.  FraudGuard blocks only on the collusion and the sybil signal
    together with a third signal, and so never blocks a user who has at
    most 5 vouches, who is in no circle, who is in a circle older than 7
    days, or whose most frequent voucher gave at most 80% of the
    vouches. *)
Theorem fraud_guard_blocks_only_sybil_collusion (now : Z) (context : AgentContext) :
  let verdict := get_none (result_data (snd (FraudGuard.execute now context))) "verdict" in
  (verdict = VStr "BLOCK" <->
   FraudGuard.suspicious (FraudGuard._check_collusion context) = true /\
   FraudGuard.suspicious (FraudGuard._check_sybil_attack now context) = true /\
   (FraudGuard.suspicious (FraudGuard._check_velocity now context) = true \/
    FraudGuard.suspicious (FraudGuard._check_behavioral_anomalies context) = true)) /\
  (verdict = VStr "BLOCK" ->
   (5 < length (vouches context))%nat /\
   circles context <> [] /\
   Forall (fun c => FraudGuard._is_recent now (circle_created_at c) 0 7 = true)
          (circles context) /\
   (8 # 10) * inject_Z (Z.of_nat (length (vouches context)))
   < inject_Z (Z.of_nat (FraudGuard.most_common_count
                           (map vouch_voucher_id (vouches context))))).
Proof.
  cbv zeta. destruct (fraud_guard_result now context) as [t ->].
  cbn [snd result_data].
  change (get_none _ "verdict")
    with (VStr (FraudGuard.verdict_of (FraudGuard.risk_level now context))).
  assert (Hiff : VStr (FraudGuard.verdict_of (FraudGuard.risk_level now context))
                 = VStr "BLOCK" <->
                 FraudGuard.verdict_of (FraudGuard.risk_level now context) = "BLOCK")
    by (split; [intros [= H]; exact H|intros ->; reflexivity]).
  split; [rewrite Hiff; apply block_iff|].
  intros H. apply Hiff, block_iff in H. destruct H as (Hc & Hs & _).
  destruct (collusion_cases context) as [[_ [_ Hratio]]|E];
    [|rewrite E in Hc; discriminate].
  destruct (sybil_cases now context) as [[_ (Hne & Hall & Hn)]|E];
    [|rewrite E in Hs; discriminate].
  split; [exact Hn|]. split; [exact Hne|]. split; [|exact Hratio].
  rewrite <- Hall. apply List.Forall_forall. intros c Hin.
  apply filter_In in Hin. tauto.
Qed.

Lemma count_occ_all_same (x : string) (l : list string) :
  Forall (fun y => y = x) l -> count_occ string_dec l x = length l.
Proof.
  induction 1 as [|y l -> Hall IH]; simpl; [reflexivity|].
  destruct (string_dec x x); [rewrite IH; reflexivity|congruence].
Qed.

Lemma fold_max_const {A} (n : nat) (l : list A) :
  (fold_right Nat.max 0 (map (fun _ => n) l) <= n)%nat.
Proof.
  induction l as [|x l IH]; cbn [map fold_right]; [lia|].
  apply Nat.max_lub; [lia|exact IH].
Qed.

(** X22.  A single voucher raises the collusion signal: when all the
    vouches a user received come from one voucher (in particular when
    there is exactly one vouch), 100% of them are "from a single user",
    and the verdict is WARN or worse, never CLEAR. *)
Theorem single_voucher_is_never_clear (now : Z) (context : AgentContext)
    (v : Vouch) (vs : list Vouch) :
  vouches context = v :: vs ->
  Forall (fun v' => vouch_voucher_id v' = vouch_voucher_id v) vs ->
  FraudGuard.suspicious (FraudGuard._check_collusion context) = true /\
  get_none (result_data (snd (FraudGuard.execute now context))) "verdict"
  <> VStr "CLEAR".
Proof.
  intros Hv Hall.
  assert (Hc : FraudGuard._check_collusion context
               = FraudGuard.mkCheck "collusion" true (4 # 10)).
  { unfold FraudGuard._check_collusion. rewrite Hv.
    cbn [map]. 
    assert (Hcount : FraudGuard.most_common_count
                       (vouch_voucher_id v :: map vouch_voucher_id vs)
                     = length (vouch_voucher_id v :: map vouch_voucher_id vs)).
    { unfold FraudGuard.most_common_count.
      assert (Hsame : Forall (fun y => y = vouch_voucher_id v)
                             (vouch_voucher_id v :: map vouch_voucher_id vs)).
      { constructor; [reflexivity|]. apply List.Forall_map. exact Hall. }
      set (l := vouch_voucher_id v :: map vouch_voucher_id vs) in *.
      assert (Hmap : map (fun x => count_occ string_dec l x) l
                     = map (fun _ => length l) l).
      { apply List.map_ext_Forall. eapply List.Forall_impl; [|exact Hsame].
        intros a ->. apply count_occ_all_same. exact Hsame. }
      rewrite Hmap. unfold l. cbn [map fold_right].
      apply Nat.max_l. apply fold_max_const. }
    rewrite Hcount.
    destruct (Qlt_le_dec _ _) as [|Hle]; [reflexivity|].
    exfalso. revert Hle. unfold FraudGuard.suspicious_vouch_ratio.
    set (n := inject_Z (Z.of_nat (length (vouch_voucher_id v :: map vouch_voucher_id vs)))).
    assert (Hn : 0 < n).
    { unfold n. cbn [length]. rewrite Nat2Z.inj_succ. unfold Qlt, inject_Z. simpl. lia. }
    intros Hle. assert (E : n / n == 1) by (field; lra). rewrite E in Hle.
    lra. }
  split; [rewrite Hc; reflexivity|].
  destruct (fraud_guard_result now context) as [t ->]. cbn [snd result_data].
  change (get_none _ "verdict")
    with (VStr (FraudGuard.verdict_of (FraudGuard.risk_level now context))).
  unfold FraudGuard.risk_level, FraudGuard.fraud_signals, FraudGuard.checks.
  rewrite Hc.
  destruct (velocity_cases now context) as [[-> _]| ->];
    destruct (behavior_cases context) as [[-> _]| ->];
    destruct (sybil_cases now context) as [[-> _]| ->];
    vm_compute; discriminate.
Qed.

Lemma single_voucher_is_never_clear_witness :
  get_none (result_data (snd (FraudGuard.execute 0 Scenarios.one_vouch_context)))
           "verdict"
  <> VStr "CLEAR".
Proof.
  apply (single_voucher_is_never_clear 0 Scenarios.one_vouch_context
           (mkVouch "u9" "active" (Some "basic") None) []).
  - reflexivity.
  - constructor.
Defined.
End AgentFacts.

Section RiskOracleFacts.
Import Json Engine RiskOracle.
Local Open Scope R_scope.

Ltac run_step :=
  match goal with
  | |- context [on_trace ?f ?t] =>
      let E := fresh "E" in
      let t' := fresh "t" in
      assert (E : exists t', on_trace f t = (t', Ok tt));
      [ apply on_trace_ok; unfold observe, analyze, hypothesize, act, reflect;
        first [ apply add_thought_ok | apply conclude_ok ];
        first [ reflexivity | assumption ]
      | destruct E as [t' E]; rewrite E; clear E; cbv beta iota ]
  end.

Ltac open_steps := unfold try_except, bind, lift, ret; cbv beta iota.

(** The weighted sum of the six factors. *)
Lemma weighted_score_sum (f : Factors) :
  _calculate_weighted_score f
  = Rmax 0 (Rmin (25 / 100 * f_trust_score f + 25 / 100 * f_repayment_history f
                  + 15 / 100 * f_income_stability f + 15 / 100 * f_vouch_strength f
                  + 10 / 100 * f_circle_health f + 10 / 100 * f_loan_to_income f) 1).
Proof.
  unfold _calculate_weighted_score, weighted. cbn [fold_left fst snd].
  destruct (Rlt_dec 0 _) as [_|H]; [|exfalso; apply H; lra].
  rewrite rmax_Rmax, rmin_Rmin. f_equal. f_equal. field.
Qed.

(** X23.  The risk score is the weighted sum of the six factors (the
    weights add up to 1, so the normalisation changes nothing), cut to
    [0, 1]: it never leaves that interval, whatever the factors, and it
    never falls when a factor rises. *)
Theorem risk_score_is_clamped_weighted_sum (f g : Factors) :
  _calculate_weighted_score f
  = Rmax 0 (Rmin (25 / 100 * f_trust_score f + 25 / 100 * f_repayment_history f
                  + 15 / 100 * f_income_stability f + 15 / 100 * f_vouch_strength f
                  + 10 / 100 * f_circle_health f + 10 / 100 * f_loan_to_income f) 1) /\
  0 <= _calculate_weighted_score f <= 1 /\
  (f_trust_score f <= f_trust_score g ->
   f_repayment_history f <= f_repayment_history g ->
   f_income_stability f <= f_income_stability g ->
   f_vouch_strength f <= f_vouch_strength g ->
   f_circle_health f <= f_circle_health g ->
   f_loan_to_income f <= f_loan_to_income g ->
   _calculate_weighted_score f <= _calculate_weighted_score g).
Proof.
  rewrite !weighted_score_sum. split; [reflexivity|]. split.
  - split; [apply Rmax_l|].
    apply Rmax_lub; [lra|apply Rmin_r].
  - intros H1 H2 H3 H4 H5 H6.
    apply Rle_max_compat_l. apply Rle_min_compat_r. lra.
Qed.

Lemma int_of_floor (q : Q) :
  (0 <= q)%Q -> Py.int_of q = Qfloor q.
Proof.
  destruct q as [n d]. unfold Py.int_of, Qfloor, Qle. simpl.
  intros H. apply Z.quot_div_nonneg; lia.
Qed.

Lemma recommendations_limit (category : string) :
  In (rec_max_loan (recommendations category)) [ 50000; 25000; 10000; 5000 ]%Z.
Proof.
  unfold recommendations.
  destruct (String.eqb category "LOW_RISK"); [simpl; auto|].
  destruct (String.eqb category "MODERATE_RISK"); [simpl; auto|].
  destruct (String.eqb category "ELEVATED_RISK"); simpl; auto.
Qed.

(** X24.  Outstanding debt lowers the recommended maximum, but never
    below 30% of the limit of the risk category: whatever the score, the
    category and the loans, a recommendation that is returned offers
    between 30% and 100% of the category's limit (50000, 25000, 10000 or
    5000), hence between 1500 and 50000, and exactly the limit when the
    disbursed and repaying loans add up to nothing. *)
Theorem recommended_max_loan_is_bounded (score : R) (category : string)
    (context : AgentContext) (r : Rec) :
  _generate_recommendation score category context = Ok r ->
  let limit := rec_max_loan (recommendations category) in
  (3 * limit <= 10 * rec_max_loan r)%Z /\
  (rec_max_loan r <= limit)%Z /\
  (1500 <= rec_max_loan r <= 50000)%Z /\
  rec_action r = rec_action (recommendations category) /\
  (LoanAdvisor.sum_floats (map loan_amount (List.filter is_active (loans context))) 0
   = Ok 0%Q -> rec_max_loan r = limit).
Proof.
  unfold _generate_recommendation. cbv zeta.
  pose proof (recommendations_limit category) as Hlim.
  set (limit := rec_max_loan (recommendations category)) in *.
  assert (Hrange : (5000 <= limit <= 50000)%Z)
    by (simpl in Hlim; intuition lia).
  destruct (LoanAdvisor.sum_floats _ 0) as [total|e] eqn:Es; [|discriminate].
  destruct (Qlt_le_dec 0 total) as [Hpos|Hle].
  - intros [= <-]. cbn [rec_max_loan rec_action].
    set (rf := Py.qmax (3 # 10) (1 - total / 50000)%Q).
    assert (Hrf : (3 # 10 <= rf)%Q /\ (rf <= 1)%Q).
    { unfold rf, Py.qmax. destruct (Qlt_le_dec (3 # 10) (1 - total / 50000)) as [H|H].
      - split; [apply Qlt_le_weak; exact H|].
        assert (0 <= total / 50000)%Q
          by (apply Qle_shift_div_l; [reflexivity|lra]).
        lra.
      - split; [apply Qle_refl|discriminate]. }
    destruct Hrf as [R1 R2].
    assert (Hq0 : (0 <= inject_Z limit * rf)%Q).
    { apply Qmult_le_0_compat; [|lra].
      change 0%Q with (inject_Z 0). rewrite <- Zle_Qle. lia. }
    rewrite int_of_floor by exact Hq0.
    assert (Hl : (inject_Z limit * (3 # 10) <= inject_Z limit * rf)%Q).
    { apply Qmult_le_l; [|exact R1]. change 0%Q with (inject_Z 0).
      rewrite <- Zlt_Qlt. lia. }
    assert (Hu : (inject_Z limit * rf <= inject_Z limit)%Q).
    { rewrite <- (Qmult_1_r (inject_Z limit)) at 2.
      apply Qmult_le_l; [|exact R2]. change 0%Q with (inject_Z 0).
      rewrite <- Zlt_Qlt. lia. }
    assert (Hfl : (3 * limit <= 10 * Qfloor (inject_Z limit * rf))%Z).
    { assert (H3 : exists k, limit = (10 * k)%Z /\
                             (inject_Z limit * (3 # 10) == inject_Z (3 * k))%Q).
      { simpl in Hlim.
        destruct Hlim as [H|[H|[H|[H|[]]]]]; rewrite <- H;
          [exists 5000%Z|exists 2500%Z|exists 1000%Z|exists 500%Z];
          split; reflexivity. }
      destruct H3 as (k & Hk & Hq).
      rewrite Hq in Hl. apply Qfloor_resp_le in Hl. rewrite Qfloor_Z in Hl. lia. }
    assert (Hfu : (Qfloor (inject_Z limit * rf) <= limit)%Z).
    { apply Qfloor_resp_le in Hu. rewrite Qfloor_Z in Hu. exact Hu. }
    split; [exact Hfl|]. split; [exact Hfu|]. split; [lia|]. split; [reflexivity|].
    intros [= ->]. exfalso. revert Hpos. discriminate.
  - intros [= <-]. fold limit. split; [lia|]. split; [lia|]. split; [lia|].
    split; [reflexivity|]. reflexivity.
Qed.

Lemma recommended_max_loan_is_bounded_witness :
  exists r,
    _generate_recommendation (7 / 10) "MODERATE_RISK" Scenarios.indebted_context = Ok r /\
    rec_max_loan r = 15000%Z /\
    (1500 <= rec_max_loan r <= 50000)%Z.
Proof.
  eexists. split; [reflexivity|]. split; [reflexivity|].
  apply (recommended_max_loan_is_bounded (7 / 10) "MODERATE_RISK"
           Scenarios.indebted_context).
  reflexivity.
Defined.
Lemma risk_sum_floats_raises {A} (f : A -> result R) (x : A) (e : string) xs :
  In x xs -> f x = Raise e ->
  (forall y e', f y = Raise e' -> e' = e) ->
  forall acc, sum_floats f xs acc = Raise e.
Proof.
  intros Hin Hx Hall. induction xs as [|y ys IH]; intros acc; [destruct Hin|].
  simpl. destruct (f y) as [r|e'] eqn:Ey.
  - destruct Hin as [->|Hin]; [congruence|]. apply IH. exact Hin.
  - f_equal. eapply Hall. exact Ey.
Qed.

(** An active vouch with a null stake makes the vouch-strength factor
    raise. *)
Lemma vouch_factor_raises (context : AgentContext) (v : Vouch) :
  In v (vouches context) ->
  vouch_status v = "active" ->
  vouch_saathi_staked v = None ->
  vouch_factor context = Raise "TypeError".
Proof.
  intros Hin Hst Hnull. unfold vouch_factor.
  assert (Hact : In v (List.filter (fun v => String.eqb (vouch_status v) "active")
                                   (vouches context))).
  { apply filter_In. split; [exact Hin|]. rewrite Hst. reflexivity. }
  destruct (List.filter _ (vouches context)) as [|a l] eqn:Ef; [destruct Hact|].
  rewrite (risk_sum_floats_raises (fun v => float_of (vouch_saathi_staked v)) v
             "TypeError" (a :: l) Hact); [reflexivity| |].
  - rewrite Hnull. reflexivity.
  - intros y e'. unfold float_of. destruct (vouch_saathi_staked y); congruence.
Qed.

(** A run of RiskOracle in which the vouch-strength factor raises. *)
Lemma risk_oracle_failure (now : Z) (sign : dict -> result string)
    (context : AgentContext) (e : string) :
  vouch_factor context = Raise e ->
  exists t,
    RiskOracle.execute now sign context
    = (context,
       {| result_agent_name := RiskOracle.self_name; success := false;
          result_data := [ ("error", VStr e) ];
          reasoning_trace := t; next_agent := None; actions := [] |}).
Proof.
  intros Hv.
  unfold RiskOracle.execute, RiskOracle.execute_body, _calculate_risk_factors.
  open_steps. do 4 run_step. rewrite Hv.
  unfold failure_result. eexists. reflexivity.
Qed.

(** X25.  A user without any history (no loans, vouches, diary entries
    or circles) is rated on the trust score alone and never better than
    ELEVATED_RISK: HIGH_RISK with a recommended maximum of 5000 below a
    trust score of 55, ELEVATED_RISK with a maximum of 10000 from 55 on,
    however high the trust score. *)
Theorem newcomer_is_rated_on_trust_alone (now : Z) (sign : dict -> result string)
    (context : AgentContext) :
  loans context = [] -> vouches context = [] ->
  financial_diary context = [] -> circles context = [] ->
  (forall payload, exists signature, sign payload = Ok signature) ->
  let r := snd (RiskOracle.execute now sign context) in
  success r = true /\
  exists recommendation,
    get_none (result_data r) "recommendation" = VDict recommendation /\
    ((trust_score context < 55)%Z ->
     get_none (result_data r) "risk_category" = VStr "HIGH_RISK" /\
     get_none recommendation "max_loan" = VNum 5000) /\
    ((55 <= trust_score context)%Z ->
     get_none (result_data r) "risk_category" = VStr "ELEVATED_RISK" /\
     get_none recommendation "max_loan" = VNum 10000).
Proof.
  intros Hl Hv Hd Hc Hsign. cbv zeta.
  assert (F4 : vouch_factor context = Ok (15 / 100))
    by (unfold vouch_factor; rewrite Hv; reflexivity).
  assert (F6 : lti_factor now context = Ok (5 / 10)).
  { unfold lti_factor. rewrite Hd, Hl. cbn [List.filter map sum_floats].
    unfold Py.rsum. cbn [fold_left].
    destruct (Rlt_dec 0 0); [lra|]. reflexivity. }
  assert (F2 : repayment_factor context = 5 / 10)
    by (unfold repayment_factor; rewrite Hl; reflexivity).
  assert (F3 : income_stability now context = 3 / 10)
    by (unfold income_stability; rewrite Hd; reflexivity).
  assert (F5 : circle_factor context = 2 / 10)
    by (unfold circle_factor; rewrite Hc; reflexivity).
  assert (Hgen : forall s c, _generate_recommendation s c context = Ok (recommendations c))
    by (intros s c; unfold _generate_recommendation; rewrite Hl; reflexivity).
  set (score := _calculate_weighted_score
                  (mkFactors (trust_factor context) (5 / 10) (3 / 10) (15 / 100)
                             (2 / 10) (5 / 10))).
  assert (Hscore : score = Rmax 0 (Rmin (25 / 100 * Rmin (IZR (trust_score context) / 100) 1
                                          + 2625 / 10000) 1)).
  { unfold score. rewrite weighted_score_sum. cbn [f_trust_score f_repayment_history
      f_income_stability f_vouch_strength f_circle_health f_loan_to_income].
    unfold trust_factor. rewrite rmin_Rmin. f_equal. f_equal. lra. }
  assert (Hcat : _categorize_risk score
                 = if (trust_score context <? 55)%Z then "HIGH_RISK" else "ELEVATED_RISK").
  { unfold _categorize_risk. rewrite Hscore.
    assert (Hm : Rmin (IZR (trust_score context) / 100) 1 <= 1) by apply Rmin_r.
    assert (Hplain : Rmax 0 (Rmin (25 / 100 * Rmin (IZR (trust_score context) / 100) 1
                                   + 2625 / 10000) 1)
                     = Rmax 0 (25 / 100 * Rmin (IZR (trust_score context) / 100) 1
                               + 2625 / 10000))
      by (rewrite Rmin_left by lra; reflexivity).
    rewrite Hplain.
    destruct (Z.ltb_spec (trust_score context) 55) as [Hlt|Hge].
    - assert (IZR (trust_score context) <= 54) by (apply IZR_le; lia).
      assert (Rmin (IZR (trust_score context) / 100) 1 <= 54 / 100).
      { eapply Rle_trans; [apply Rmin_l|]. lra. }
      assert (Rmax 0 (25 / 100 * Rmin (IZR (trust_score context) / 100) 1 + 2625 / 10000)
              < 4 / 10) by (apply Rmax_lub_lt; lra).
      destruct (Rge_dec _ (8 / 10)); [lra|].
      destruct (Rge_dec _ (6 / 10)); [lra|].
      destruct (Rge_dec _ (4 / 10)); [lra|reflexivity].
    - assert (55 <= IZR (trust_score context)) by (apply IZR_le; lia).
      assert (55 / 100 <= Rmin (IZR (trust_score context) / 100) 1)
        by (apply Rmin_glb; lra).
      assert (4 / 10 <= Rmax 0 (25 / 100 * Rmin (IZR (trust_score context) / 100) 1
                                + 2625 / 10000))
        by (eapply Rle_trans; [|apply Rmax_r]; lra).
      assert (Rmax 0 (25 / 100 * Rmin (IZR (trust_score context) / 100) 1 + 2625 / 10000)
              < 6 / 10) by (apply Rmax_lub_lt; lra).
      destruct (Rge_dec _ (8 / 10)); [lra|].
      destruct (Rge_dec _ (6 / 10)); [lra|].
      destruct (Rge_dec _ (4 / 10)); [reflexivity|lra]. }
  unfold RiskOracle.execute, RiskOracle.execute_body, _calculate_risk_factors.
  open_steps. do 4 run_step. rewrite F4. cbv beta iota. do 2 run_step.
  rewrite F6. cbv beta iota. rewrite F2, F3, F5. clear Hscore. subst score.
  do 3 run_step. rewrite Hgen. cbv beta iota. run_step.
  match goal with
  | |- context [sign ?d] => destruct (Hsign d) as [signature ->]
  end.
  cbv beta iota. run_step. cbn [snd success result_data].
  split; [reflexivity|]. eexists. split; [reflexivity|].
  rewrite Hcat.
  split; intros Hts.
  - destruct (Z.ltb_spec (trust_score context) 55); [|lia]. split; reflexivity.
  - destruct (Z.ltb_spec (trust_score context) 55); [lia|]. split; reflexivity.
Qed.

Lemma newcomer_is_rated_on_trust_alone_witness :
  get_none (result_data (snd (RiskOracle.execute 0 Scenarios.fixed_signer
                                (Scenarios.newcomers "u1"))))
           "risk_category"
  = VStr "HIGH_RISK".
Proof.
  destruct (newcomer_is_rated_on_trust_alone 0 Scenarios.fixed_signer
              (Scenarios.newcomers "u1") eq_refl eq_refl eq_refl eq_refl)
    as (_ & rec & _ & Hlow & _).
  - intros payload. exists "digest". reflexivity.
  - apply Hlow. reflexivity.
Defined.
End RiskOracleFacts.

Section TrustAnalyzerFacts.
Import Json Engine.
Local Open Scope Z_scope.

(** X26.  The trust-score breakdown always accounts for the whole
    score: the five components are within their caps (vouches at most
    30, repayments at most 40, circles at most 15, base 10, learning not
    negative), and they add up to the trust score whenever the score is
    at least the sum of the other four parts; otherwise learning is 0 and
    the components add up to more than the score. *)
Theorem trust_components_cover_score (context : AgentContext) :
  let c := TrustAnalyzer._calculate_trust_components context in
  let accounted :=
    TrustAnalyzer.c_base c + TrustAnalyzer.c_vouches c
    + TrustAnalyzer.c_repayments c + TrustAnalyzer.c_circle_participation c in
  TrustAnalyzer.c_base c = 10 /\
  0 <= TrustAnalyzer.c_vouches c <= 30 /\
  0 <= TrustAnalyzer.c_repayments c <= 40 /\
  0 <= TrustAnalyzer.c_circle_participation c <= 15 /\
  0 <= TrustAnalyzer.c_learning c /\
  accounted + TrustAnalyzer.c_learning c = Z.max (trust_score context) accounted /\
  (95 <= trust_score context ->
   accounted + TrustAnalyzer.c_learning c = trust_score context).
Proof.
  cbv zeta. unfold TrustAnalyzer._calculate_trust_components, TrustAnalyzer.count.
  cbn [TrustAnalyzer.c_base TrustAnalyzer.c_vouches TrustAnalyzer.c_repayments
       TrustAnalyzer.c_learning TrustAnalyzer.c_circle_participation].
  set (v := Z.of_nat (length (List.filter TrustAnalyzer.is_active_vouch (vouches context)))).
  set (r := Z.of_nat (length (List.filter _ (loans context)))).
  set (k := Z.of_nat (length (circles context))).
  assert (0 <= v) by (unfold v; lia).
  assert (0 <= r) by (unfold r; lia).
  assert (0 <= k) by (unfold k; lia).
  lia.
Qed.
End TrustAnalyzerFacts.

Section OrchestratorFacts.
Import Json Engine Orchestrator.

Ltac run_step :=
  match goal with
  | |- context [on_trace ?f ?t] =>
      let E := fresh "E" in
      let t' := fresh "t" in
      assert (E : exists t', on_trace f t = (t', Ok tt));
      [ apply on_trace_ok; unfold observe, analyze, hypothesize, act, reflect;
        first [ apply add_thought_ok | apply conclude_ok ];
        first [ reflexivity | assumption ]
      | destruct E as [t' E]; rewrite E; clear E; cbv beta iota ]
  end.

Ltac open_steps := unfold try_except, bind, lift, ret; cbv beta iota.

Lemma keeps_data_vouches context context' :
  keeps_data context context' ->
  vouches context' = vouches context /\ trust_score context' = trust_score context.
Proof. intros [->|[t ->]]; split; reflexivity. Qed.

Lemma can_borrow_max_amount context recommendation :
  get (result_data (snd (LoanAdvisor.execute context))) "recommendation" (VDict [])
  = VDict recommendation ->
  truthy (get recommendation "can_borrow" (VBool false)) = true ->
  exists x,
    get recommendation "max_amount" (VNum 0) = VNum x /\ (7000 <= x <= 50000)%Q.
Proof.
  intros Hrec Hcb.
  destruct (LoanAdvisor._analyze_income context) as [income|e1] eqn:E1;
    [destruct (LoanAdvisor._calculate_current_emi context) as [emi|e2] eqn:E2|].
  - destruct (loan_advisor_result context income emi E1 E2) as [t Ht].
    rewrite Ht in Hrec. cbn in Hrec. injection Hrec as <-.
    unfold LoanAdvisor.recommendation_for in *.
    destruct (Qlt_le_dec 0 _) as [Hsafe|]; [|discriminate].
    destruct (Z.ltb_spec (trust_score context) 20) as [|Hts]; [discriminate|].
    eexists. split; [reflexivity|]. apply max_loan_range. exact Hts.
  - destruct (loan_advisor_failure context) as [t Ht]; [right; eauto|].
    rewrite Ht in Hrec. cbn in Hrec. injection Hrec as <-. discriminate.
  - destruct (loan_advisor_failure context) as [t Ht]; [left; eauto|].
    rewrite Ht in Hrec. cbn in Hrec. injection Hrec as <-. discriminate.
Qed.

(** X27.  A failing RiskOracle turns an approval into an approval of
    nothing.  When an active vouch of the borrower has a null stake,
    RiskOracle fails and its recommendation is missing; if FraudGuard
    does not block and LoanAdvisor lets the user borrow, the request
    (without a Mastra answer, for a positive amount) is still answered
    with approved = True, and with an approved amount of 0, the default
    that stands in for RiskOracle's maximum. *)
Theorem oracle_failure_approves_zero
    (now : Z) (sign : dict -> result string) (llm : Nova.LLM)
    (mastra : Mastra) (build_context : string -> AgentContext)
    (user_id : string) (amount : Q) (purpose circle_id : string)
    (v : Vouch) (recommendation : dict) :
  let context := loan_context build_context user_id in
  mastra_skipped mastra build_context user_id amount purpose ->
  In v (vouches context) ->
  vouch_status v = "active" ->
  vouch_saathi_staked v = None ->
  is_str (get_none (result_data (snd (FraudGuard.execute now context))) "verdict")
         "BLOCK" = false ->
  get (result_data (snd (LoanAdvisor.execute context))) "recommendation" (VDict [])
  = VDict recommendation ->
  truthy (get recommendation "can_borrow" (VBool false)) = true ->
  (0 < amount)%Q ->
  exists resp,
    snd (process_loan_request (kredefy_agents now sign llm) mastra build_context
           user_id amount purpose circle_id) = Ok resp /\
    approved resp = VBool true /\
    approved_amount resp = Some (VNum 0).
Proof.
  intros context Hskip Hin Hact Hnull Hverdict Hrec Hcb Hpos.
  pose proof (loan_request_follows_agents (kredefy_agents now sign llm) mastra
                build_context user_id amount purpose circle_id Hskip) as [_ Hother].
  fold context in Hother.
  cbn [FraudGuard RiskOracle LoanAdvisor kredefy_agents execute
       FraudGuard.FraudGuardAgent RiskOracle.RiskOracleAgent
       LoanAdvisor.LoanAdvisorAgent] in Hother.
  destruct (Hother Hverdict) as [_ Hdecide]. clear Hother.
  pose proof (fraud_guard_context now context) as KF.
  set (cF := fst (FraudGuard.execute now context)) in *.
  destruct (keeps_data_vouches _ _ KF) as [HvF HtF].
  destruct (risk_oracle_failure now sign cF "TypeError") as [tR HR].
  { apply (vouch_factor_raises cF v); [rewrite HvF; exact Hin|exact Hact|exact Hnull]. }
  rewrite HR in Hdecide. cbn [fst snd result_data] in Hdecide.
  rewrite (loan_advisor_reads_data _ _ KF) in Hdecide.
  destruct (Hdecide recommendation Hrec) as [_ Hyes]. clear Hdecide.
  destruct (can_borrow_max_amount context recommendation Hrec Hcb) as (x & Hx & Hx1 & Hx2).
  destruct (Hyes Hcb [] x 0%Q eq_refl Hx eq_refl)
    as (resp & m & Hresp & Happ & Hamt & (Hm1 & Hm2 & Hm3) & Hcases).
  exists resp. split; [exact Hresp|]. split; [exact Happ|].
  rewrite Hamt. f_equal. f_equal.
  destruct Hcases as [ -> | [ -> | -> ] ]; [lra|lra|reflexivity].
Qed.

Lemma oracle_failure_approves_zero_witness :
  exists resp,
    snd (process_loan_request (Scenarios.agents_at 0) Scenarios.no_mastra
           (fun _ => Scenarios.one_vouch_context) "u-vouched" 1000 "shop" "c1")
    = Ok resp /\
    approved resp = VBool true /\
    approved_amount resp = Some (VNum 0).
Proof.
  apply (oracle_failure_approves_zero 0 Scenarios.fixed_signer Scenarios.loan_llm
           Scenarios.no_mastra (fun _ => Scenarios.one_vouch_context)
           "u-vouched" 1000 "shop" "c1"
           (mkVouch "u9" "active" (Some "basic") None)
           (LoanAdvisor.recommendation_for Scenarios.one_vouch_context
              (LoanAdvisor.mkIncome 10000 (3 # 10) "default" None) 0)).
  - left. reflexivity.
  - left. reflexivity.
  - reflexivity.
  - reflexivity.
  - vm_compute. reflexivity.
  - vm_compute. reflexivity.
  - vm_compute. reflexivity.
  - reflexivity.
Defined.
(** ** process_vouch_request *)

Lemma trust_analyzer_failure (context : AgentContext) :
  In None (map vouch_saathi_staked (vouches context)) ->
  exists t,
    TrustAnalyzer.execute context
    = (context,
       {| result_agent_name := TrustAnalyzer.self_name; success := false;
          result_data := [ ("error", VStr "TypeError") ];
          reasoning_trace := t; next_agent := None; actions := [] |}).
Proof.
  intros Hnull.
  assert (Hq : TrustAnalyzer._analyze_vouch_quality context = Raise "TypeError").
  { unfold TrustAnalyzer._analyze_vouch_quality.
    apply (sum_floats_raises _ 0%Q) in Hnull. destruct Hnull as [e He].
    rewrite He. apply sum_floats_error in He. subst e. reflexivity. }
  unfold TrustAnalyzer.execute, TrustAnalyzer.execute_body.
  open_steps. do 2 run_step. rewrite Hq.
  unfold failure_result. eexists. reflexivity.
Qed.

(** X28.  A failing TrustAnalyzer does not stop a vouch request.  When
    one of the vouches the vouchee received has a null stake,
    TrustAnalyzer fails; if FraudGuard does not block, the request is
    still answered with recommended = True, with the trust score of the
    vouchee and with the grade "C" that stands in for the missing vouch
    quality. *)
Theorem vouch_request_survives_analyzer_failure
    (now : Z) (sign : dict -> result string) (llm : Nova.LLM)
    (build_context : string -> AgentContext)
    (voucher_id vouchee_id circle_id vouch_level : string) (v : Vouch) :
  let context := set_current_request (build_context vouchee_id)
                   ("Vouch request: " ++ vouch_level ++ " level") in
  In v (vouches context) ->
  vouch_saathi_staked v = None ->
  is_str (get_none (result_data (snd (FraudGuard.execute now context))) "verdict")
         "BLOCK" = false ->
  exists traces,
    process_vouch_request (kredefy_agents now sign llm) build_context
      voucher_id vouchee_id circle_id vouch_level
    = ([ "FraudGuard"; "TrustAnalyzer" ],
       Ok (VouchAdvice true (trust_score context) (VStr "C") traces)).
Proof.
  intros context Hin Hnull Hverdict.
  unfold process_vouch_request, run_agent. fold context.
  cbn [FraudGuard TrustAnalyzer kredefy_agents execute FraudGuard.FraudGuardAgent
       TrustAnalyzer.TrustAnalyzerAgent fst snd].
  pose proof (fraud_guard_context now context) as KF.
  destruct (FraudGuard.execute now context) as [cF rF]. cbn [fst snd] in *.
  rewrite Hverdict.
  destruct (keeps_data_vouches _ _ KF) as [HvF HtF].
  destruct (trust_analyzer_failure cF) as [tA HA].
  { rewrite HvF. apply in_map_iff. exists v. split; [exact Hnull|exact Hin]. }
  rewrite HA. cbn [fst snd result_data reasoning_trace]. rewrite HtF.
  eexists. reflexivity.
Qed.

Lemma vouch_request_survives_analyzer_failure_witness :
  exists traces,
    process_vouch_request (Scenarios.agents_at 0) (fun _ => Scenarios.one_vouch_context)
      "u2" "u-vouched" "c1" "basic"
    = ([ "FraudGuard"; "TrustAnalyzer" ], Ok (VouchAdvice true 50 (VStr "C") traces)).
Proof.
  apply (vouch_request_survives_analyzer_failure 0 Scenarios.fixed_signer
           Scenarios.loan_llm (fun _ => Scenarios.one_vouch_context)
           "u2" "u-vouched" "c1" "basic" (mkVouch "u9" "active" (Some "basic") None)).
  - left. reflexivity.
  - reflexivity.
  - vm_compute. reflexivity.
Defined.

(** ** process_message *)

Lemma is_str_eq v s : is_str v s = true -> v = VStr s.
Proof.
  destruct v; simpl; try discriminate. intros H. apply String.eqb_eq in H. congruence.
Qed.

(** How a run of Nova can end: with a handoff to LoanAdvisor for one of
    two intents, with a handoff to TrustAnalyzer for one of two others,
    or without a next agent (a reply, or a failure). *)
Lemma nova_outcomes (llm : Nova.LLM) (context : AgentContext) :
  (exists t intent,
     Nova.execute llm context = (context, Nova.handoff (VStr intent) "LoanAdvisor" t) /\
     (intent = "loan_request" \/ intent = "loan_inquiry")) \/
  (exists t intent,
     Nova.execute llm context = (context, Nova.handoff (VStr intent) "TrustAnalyzer" t) /\
     (intent = "trust_score" \/ intent = "reputation")) \/
  next_agent (snd (Nova.execute llm context)) = None.
Proof.
  unfold Nova.execute, Nova.execute_body. open_steps. run_step.
  destruct (Nova.detect llm _ _) as [intent|e]; [|right; right; reflexivity].
  cbv beta iota.
  destruct (Nova.intent_of intent) as [intent_name|e]; [|right; right; reflexivity].
  cbv beta iota.
  destruct (Nova.intent_confidence intent) as [q|e]; [|right; right; reflexivity].
  cbv beta iota.
  destruct (valid_confidence q) eqn:Hq;
    [|unfold analyze; rewrite on_trace_invalid by exact Hq; right; right; reflexivity].
  run_step.
  destruct (is_str intent_name "loan_request") eqn:E1.
  { apply is_str_eq in E1. subst. cbn [orb]. open_steps. run_step.
    left. eexists. exists "loan_request". split; [reflexivity|auto]. }
  destruct (is_str intent_name "loan_inquiry") eqn:E2.
  { apply is_str_eq in E2. subst. cbn [orb]. open_steps. run_step.
    left. eexists. exists "loan_inquiry". split; [reflexivity|auto]. }
  cbn [orb].
  destruct (is_str intent_name "trust_score") eqn:E3.
  { apply is_str_eq in E3. subst. cbn [orb]. open_steps. run_step.
    right. left. eexists. exists "trust_score". split; [reflexivity|auto]. }
  destruct (is_str intent_name "reputation") eqn:E4.
  { apply is_str_eq in E4. subst. cbn [orb]. open_steps. run_step.
    right. left. eexists. exists "reputation". split; [reflexivity|auto]. }
  cbn [orb]. open_steps. run_step.
  destruct (Nova.reply llm context intent) as [response|e]; [|right; right; reflexivity].
  cbv beta iota. run_step. right. right. reflexivity.
Qed.

Lemma run_workflow_log (agents : Agents) (workflow : list string) :
  forall st traces,
    Forall (fun n => agent_named agents n <> None) workflow ->
    snd (fst (run_workflow agents workflow st traces)) = snd st ++ workflow.
Proof.
  induction workflow as [|n workflow IH]; intros st traces Hall; cbn [run_workflow].
  - rewrite app_nil_r. reflexivity.
  - inversion Hall as [|n' w' Hn Hall']; subst.
    destruct (agent_named agents n) as [agent|]; [|congruence].
    destruct (execute agent (fst st)) as [context' r].
    rewrite IH by exact Hall'. cbn [snd]. rewrite <- app_assoc. reflexivity.
Qed.

(** X29.  The chat pipeline runs one of four agent sequences and no
    other: Nova alone (a reply, or a failure of Nova), Nova and
    LoanAdvisor (intent loan_inquiry), Nova and TrustAnalyzer (intents
    trust_score and reputation), or Nova followed by the loan_request
    workflow.  ActionAgent runs only for the intent loan_request, and the
    workflows registered for trust_inquiry, vouch_request and
    emergency_request are never run by a chat message. *)
Theorem chat_runs_one_of_four_sequences
    (now : Z) (sign : dict -> result string) (llm : Nova.LLM)
    (context : AgentContext) :
  In (fst (local_message_pipeline (kredefy_agents now sign llm) context))
     [ [ "Nova" ];
       [ "Nova"; "LoanAdvisor" ];
       [ "Nova"; "TrustAnalyzer" ];
       [ "Nova"; "FraudGuard"; "RiskOracle"; "LoanAdvisor"; "ActionAgent" ] ].
Proof.
  unfold local_message_pipeline, run_agent.
  cbn [Nova kredefy_agents execute Nova.NovaAgent fst snd].
  destruct (nova_outcomes llm context)
    as [(t & intent & HN & Hi)|[(t & intent & HN & Hi)|Hnone]].
  - rewrite HN. cbn [fst snd next_agent result_data Nova.handoff reasoning_trace].
    change (get [("needs_specialist", VBool true); ("intent", VStr intent)]
                "intent" (VStr "")) with (VStr intent).
    destruct Hi as [-> | ->]; cbn [workflow_for].
    + change (workflows "loan_request")
        with (Some [ "FraudGuard"; "RiskOracle"; "LoanAdvisor"; "ActionAgent" ]).
      cbv beta iota.
      match goal with
      | |- context [run_workflow ?a ?w ?st ?tr] =>
          pose proof (run_workflow_log a w st tr) as Hlog;
          destruct (run_workflow a w st tr) as [st' traces']
      end.
      cbn [fst snd] in *. rewrite Hlog by (repeat constructor; discriminate).
      right. right. right. left. reflexivity.
    + change (workflows "loan_inquiry") with (@None (list string)).
      cbv beta iota.
      match goal with
      | |- context [run_workflow ?a ?w ?st ?tr] =>
          pose proof (run_workflow_log a w st tr) as Hlog;
          destruct (run_workflow a w st tr) as [st' traces']
      end.
      cbn [fst snd] in *. rewrite Hlog by (repeat constructor; discriminate).
      right. left. reflexivity.
  - rewrite HN. cbn [fst snd next_agent result_data Nova.handoff reasoning_trace].
    change (get [("needs_specialist", VBool true); ("intent", VStr intent)]
                "intent" (VStr "")) with (VStr intent).
    destruct Hi as [-> | ->]; cbn [workflow_for].
    + change (workflows "trust_score") with (@None (list string)).
      cbv beta iota.
      match goal with
      | |- context [run_workflow ?a ?w ?st ?tr] =>
          pose proof (run_workflow_log a w st tr) as Hlog;
          destruct (run_workflow a w st tr) as [st' traces']
      end.
      cbn [fst snd] in *. rewrite Hlog by (repeat constructor; discriminate).
      right. right. left. reflexivity.
    + change (workflows "reputation") with (@None (list string)).
      cbv beta iota.
      match goal with
      | |- context [run_workflow ?a ?w ?st ?tr] =>
          pose proof (run_workflow_log a w st tr) as Hlog;
          destruct (run_workflow a w st tr) as [st' traces']
      end.
      cbn [fst snd] in *. rewrite Hlog by (repeat constructor; discriminate).
      right. right. left. reflexivity.
  - destruct (Nova.execute llm context) as [cN rN]. cbn [fst snd] in *.
    rewrite Hnone. left. reflexivity.
Qed.
End OrchestratorFacts.
